(** * CheckBanWa: the ban-probe endpoint, embedded and verified

    A shallow embedding of the serverless endpoint [api/check-ban.js]
    (rate limiter, number normaliser, probe with retries, response
    classification, request handler) and of its first version, together
    with the properties the specification states about them.

    Conventions of the embedding.
    - A JavaScript string is a [string]; each [ascii] is one code unit
      below 256.  Strings with code units above 255 are outside the model.
    - A regular-expression literal is a value of [regex]; [RegExp.test],
      anchored tests and [String.replace] are functions over it.
    - JavaScript integers are [Z].
    - Effects (the clock, [Math.random], [fetch], the module-level
      [rateMap]) are threaded explicitly; the state also keeps a log of
      the upstream calls, so that the number and the content of the
      attempts of a probe can be stated.
    - [MAX_RETRIES] and [DEFAULT_RATE_LIMIT] are the integers [parseInt]
      yields; logging ([console.warn]) is left out. *)

From Stdlib Require Import ZArith QArith Qround String Ascii List Bool Lia DecimalString.
From stdpp Require Import base option gmap strings.
From Equations Require Import Equations.
Import ListNotations.

Local Open Scope string_scope.
Local Open Scope Z_scope.

(** ** JavaScript string primitives *)

Module JsString.

(** Truthiness of a string: only the empty string is falsy. *)
Definition truthy (s : string) : bool :=
  match s with "" => false | String _ _ => true end.

(** [a || b] on strings. *)
Definition or_else (a b : string) : string := if truthy a then a else b.

(** Code units that [String.prototype.trim] removes (WhiteSpace and
    LineTerminator below 256): TAB, LF, VT, FF, CR, SPACE, NBSP. *)
Definition is_white_space (a : ascii) : bool :=
  let n := nat_of_ascii a in
  ((9 <=? n)%nat && (n <=? 13)%nat) || (n =? 32)%nat || (n =? 160)%nat.

(** Code units that [.] does not match: LF and CR. *)
Definition is_line_terminator (a : ascii) : bool :=
  let n := nat_of_ascii a in (n =? 10)%nat || (n =? 13)%nat.

Definition is_digit (a : ascii) : bool :=
  let n := nat_of_ascii a in (48 <=? n)%nat && (n <=? 57)%nat.

Fixpoint trimStart (s : string) : string :=
  match s with
  | "" => ""
  | String a r => if is_white_space a then trimStart r else s
  end.

Fixpoint trimEnd (s : string) : string :=
  match s with
  | "" => ""
  | String a r =>
      let r' := trimEnd r in
      if is_white_space a && negb (truthy r') then "" else String a r'
  end.

Definition trim (s : string) : string := trimEnd (trimStart s).

(** [s.slice(n)] for [0 <= n]. *)
Fixpoint slice_from (n : nat) (s : string) : string :=
  match n, s with
  | O, _ => s
  | S _, "" => ""
  | S k, String _ r => slice_from k r
  end.

(** [s.slice(0, n)] for [0 <= n]. *)
Fixpoint slice_to (n : nat) (s : string) : string :=
  match n, s with
  | O, _ => ""
  | S _, "" => ""
  | S k, String a r => String a (slice_to k r)
  end.

(** [s.startsWith(p)]. *)
Fixpoint startsWith (p s : string) : bool :=
  match p, s with
  | "", _ => true
  | String _ _, "" => false
  | String a p', String b s' => Ascii.eqb a b && startsWith p' s'
  end.

Fixpoint all_chars (P : ascii -> bool) (s : string) : bool :=
  match s with
  | "" => true
  | String a r => P a && all_chars P r
  end.

(** [toLowerCase] on one code unit below 256: A-Z, and the Latin-1
    capitals U+00C0-U+00DE except the multiplication sign U+00D7. *)
Definition lower_char (a : ascii) : ascii :=
  let n := nat_of_ascii a in
  if ((65 <=? n)%nat && (n <=? 90)%nat)
     || ((192 <=? n)%nat && (n <=? 222)%nat && negb (n =? 215)%nat)
  then ascii_of_nat (n + 32) else a.

Fixpoint toLowerCase (s : string) : string :=
  match s with
  | "" => ""
  | String a r => String (lower_char a) (toLowerCase r)
  end.

(** [s.split(c)] for a one-character separator. *)
Fixpoint split_go (c : ascii) (cur : string) (s : string) : list string :=
  match s with
  | "" => [String.rev cur]
  | String a r =>
      if Ascii.eqb a c then String.rev cur :: split_go c "" r
      else split_go c (String a cur) r
  end.
Definition split (c : ascii) (s : string) : list string := split_go c "" s.

End JsString.

(** ** Regular expressions *)

Module Regex.

(** The fragment of the regular-expression language the program uses:
    character classes (a literal character, [\d], [.]), concatenation,
    alternation and repetition. *)
Inductive regex : Type :=
| Void : regex
| Eps : regex
| Class : (ascii -> bool) -> regex
| Cat : regex -> regex -> regex
| Alt : regex -> regex -> regex
| Star : regex -> regex.

Definition Chr (a : ascii) : regex := Class (Ascii.eqb a).
Definition Dot : regex := Class (fun a => negb (JsString.is_line_terminator a)).
Definition Digit : regex := Class JsString.is_digit.
Definition Plus (r : regex) : regex := Cat r (Star r).

(** A literal word. *)
Fixpoint Lit (w : string) : regex :=
  match w with
  | "" => Eps
  | String a r => Cat (Chr a) (Lit r)
  end.

(** Canonicalisation of a code unit under the [i] flag (no [u] flag):
    its upper-case form, here for code units below 256. *)
Definition canonicalize (a : ascii) : ascii :=
  let n := nat_of_ascii a in
  if ((97 <=? n)%nat && (n <=? 122)%nat)
     || ((224 <=? n)%nat && (n <=? 254)%nat && negb (n =? 247)%nat)
  then ascii_of_nat (n - 32) else a.

(** A literal word under the [i] flag. *)
Fixpoint Lit_i (w : string) : regex :=
  match w with
  | "" => Eps
  | String c r =>
      Cat (Class (fun a => Ascii.eqb (canonicalize a) (canonicalize c))) (Lit_i r)
  end.

(** [r{n}] and [r{0,m}], hence [r{lo,hi}]. *)
Fixpoint Exactly (n : nat) (r : regex) : regex :=
  match n with O => Eps | S k => Cat r (Exactly k r) end.
Fixpoint AtMost (m : nat) (r : regex) : regex :=
  match m with O => Eps | S k => Alt Eps (Cat r (AtMost k r)) end.
Definition Range (lo hi : nat) (r : regex) : regex :=
  Cat (Exactly lo r) (AtMost (hi - lo) r).

Fixpoint Alts (rs : list regex) : regex :=
  match rs with
  | [] => Void
  | [r] => r
  | r :: rs' => Alt r (Alts rs')
  end.

Fixpoint nullable (r : regex) : bool :=
  match r with
  | Void => false
  | Eps => true
  | Class _ => false
  | Cat r1 r2 => nullable r1 && nullable r2
  | Alt r1 r2 => nullable r1 || nullable r2
  | Star _ => true
  end.

(** Brzozowski derivative: what remains to be matched after reading [a]. *)
Fixpoint deriv (a : ascii) (r : regex) : regex :=
  match r with
  | Void => Void
  | Eps => Void
  | Class p => if p a then Eps else Void
  | Cat r1 r2 =>
      if nullable r1 then Alt (Cat (deriv a r1) r2) (deriv a r2)
      else Cat (deriv a r1) r2
  | Alt r1 r2 => Alt (deriv a r1) (deriv a r2)
  | Star r1 => Cat (deriv a r1) (Star r1)
  end.

(** [/^r$/.test(s)]: the whole of [s] matches. *)
Fixpoint test_anchored (r : regex) (s : string) : bool :=
  match s with
  | "" => nullable r
  | String a s' => test_anchored (deriv a r) s'
  end.

(** [/^r/.test(s)]: some prefix of [s] matches. *)
Fixpoint test_prefix (r : regex) (s : string) : bool :=
  nullable r ||
  match s with
  | "" => false
  | String a s' => test_prefix (deriv a r) s'
  end.

(** [/r/.test(s)]: some substring of [s] matches. *)
Fixpoint test (r : regex) (s : string) : bool :=
  test_prefix r s ||
  match s with
  | "" => false
  | String _ s' => test r s'
  end.

(** Length of the longest prefix of [s] that matches [r], if any. *)
Fixpoint longest_prefix (r : regex) (s : string) : option nat :=
  match s with
  | "" => if nullable r then Some O else None
  | String a s' =>
      match longest_prefix (deriv a r) s' with
      | Some n => Some (S n)
      | None => if nullable r then Some O else None
      end
  end.

(** [s.replace(/^r/, "")] for a pattern whose greedy match is its
    longest one (a single repeated class, as in [/^0+/]). *)
Definition replace_prefix_empty (r : regex) (s : string) : string :=
  match longest_prefix r s with
  | Some n => JsString.slice_from n s
  | None => s
  end.

End Regex.

(** ** The endpoint [api/check-ban.js] *)

Module CheckBan.
Import JsString Regex.

(** The value [{ cc, in }]; [in] is a keyword, the field is [in_]. *)
Record NumberObj : Type := { cc : string; in_ : string }.

(** [/^\d{6,15}$/] *)
Definition re_digits_6_15 : regex := Range 6 15 Digit.
(** [/^0+/] *)
Definition re_leading_zeros : regex := Plus (Chr "0").

Definition normalizeNumber (input : string) : option NumberObj :=
  if negb (truthy input) then None else
  let s := trim input in
  let plus := if startsWith "+" s then slice_from 1 s else s in
  if negb (test_anchored re_digits_6_15 plus) then None else
  let cc0 := slice_to 2 plus in
  let cc1 := if (String.length plus <? 8)%nat then slice_to 1 plus else cc0 in
  let cc2 := or_else (replace_prefix_empty re_leading_zeros cc1) (slice_to 1 plus) in
  let inPart := slice_from (String.length cc2) plus in
  if negb (truthy inPart) then None else
  Some {| cc := cc2; in_ := inPart |}.

(** *** Configuration, external capabilities and state *)

(** The values read from [process.env], after [parseInt] where the
    program parses them. *)
Record Config : Type := {
  DEFAULT_RATE_LIMIT : Z;
  MAX_RETRIES : Z;
  PROXIES : option string;
  EXPOSE_RAW : option string
}.

Definition default_config : Config :=
  {| DEFAULT_RATE_LIMIT := 30; MAX_RETRIES := 2;
     PROXIES := None; EXPOSE_RAW := None |}.

(** The argument of [fetch].  [fo_body] is the ordered field list that
    [params.toString()] serialises; [fo_agent] is the proxy the agent
    was built for, when there is one. *)
Record FetchOptions : Type := {
  fo_endpoint : string;
  fo_method : string;
  fo_headers : list (string * option string);
  fo_body : list (string * string);
  fo_agent : option string
}.

(** What [await fetch(...)] followed by [await resp.text()] yields:
    a response, or a thrown error (network error, abort on timeout). *)
Inductive FetchResult : Type :=
| Responded (status : Z) (text : string)
| Threw (err : string).

(** The world outside the program: the successive values of
    [Math.random()], the outcome of the n-th [fetch] call, and whether
    [new HttpsProxyAgent(url)] succeeds. *)
Record Externals : Type := {
  Math_random : nat -> Q;
  fetch : nat -> FetchOptions -> FetchResult;
  HttpsProxyAgent : string -> bool
}.

(** [{ count, windowStart }] *)
Record RateRec : Type := { count : Z; windowStart : Z }.

(** One execution of the body of [doRegisterCheck]: its arguments, the
    identity it drew, the request it sent and what came back. *)
Record Attempt : Type := {
  at_proxyUrl : option string;
  at_retries : Z;
  at_ua : option string;
  at_mcc : option string;
  at_mnc : option string;
  at_options : FetchOptions;
  at_result : FetchResult
}.

(** The mutable state: the module-level [rateMap], the number of
    [Math.random()] calls made so far, and the attempts made so far
    (most recent last). *)
Record State : Type := {
  rateMap : gmap string RateRec;
  random_calls : nat;
  attempts : list Attempt
}.

Definition initial_state : State :=
  {| rateMap := ∅; random_calls := O; attempts := [] |}.

(** *** Constants *)

Definition UA_LIST : list string := [
  "WhatsApp/2.23.8.76 Android/13 Device/Pixel";
  "WhatsApp/2.22.18 Android/12 Device/Generic";
  "WhatsApp/2.21.23 Android/11 Device/Samsung";
  "Mozilla/5.0 (Linux; Android 11) AppleWebKit/537.36 (KHTML, like Gecko) WhatsApp/2.21.23"
].
Definition MCC_OPTIONS : list string := ["510";"440";"510";"520";"310";"404";"505"].
Definition MNC_OPTIONS : list string := ["00";"01";"10";"20";"70";"01"].

(** *** Helpers *)

(** [Math.floor(Date.now() / 1000)] *)
Definition nowUnix (date_now : Z) : Z := date_now / 1000.

(** [n.toString()] for an integer. *)
Definition Z_toString (n : Z) : string :=
  NilZero.string_of_int (Z.to_int n).

Section WithConfig.
Context (cfg : Config).

Definition allowedByRateLimit (ip : string) (date_now : Z)
    (m : gmap string RateRec) : bool * gmap string RateRec :=
  let windowLen := 60 in
  let limit := DEFAULT_RATE_LIMIT cfg in
  let cur := nowUnix date_now in
  match m !! ip with
  | None => (true, <[ip := {| count := 1; windowStart := cur |}]> m)
  | Some rec =>
      if cur - windowStart rec >=? windowLen then
        (true, <[ip := {| count := 1; windowStart := cur |}]> m)
      else if count rec <? limit then
        (true, <[ip := {| count := count rec + 1; windowStart := windowStart rec |}]> m)
      else (false, m)
  end.

End WithConfig.

(** [Math.floor(u * n)], on the exact product of the two numbers.  The
    program multiplies in double precision, and so rounds the product
    before taking the floor: for a draw [u] whose product with [n] lies
    within a rounding error below an integer the two can differ by one.
    Statements about the range of the result, and about draws away from
    those boundaries (see [Spec.lands_in]), are the same for both. *)
Definition floor_scaled (u : Q) (n : Z) : Z := Qfloor (u * inject_Z n).

(** [arr[i]]: [undefined] (here [None]) out of range. *)
Definition array_get {A : Type} (arr : list A) (i : Z) : option A :=
  if i <? 0 then None else nth_error arr (Z.to_nat i).

(** *** Response classification (the body of the [try] block) *)

Definition quote : string := String "034"%char EmptyString.

(** [/banned|blocked|account suspended|account banned|forbidden/] *)
Definition re_banned : regex :=
  Alts [Lit "banned"; Lit "blocked"; Lit "account suspended";
        Lit "account banned"; Lit "forbidden"].

Definition lit_status_ok : string :=
  Eval cbv in quote +:+ "status" +:+ quote +:+ ":" +:+ quote +:+ "ok" +:+ quote.
Definition lit_code_0 : string :=
  Eval cbv in quote +:+ "code" +:+ quote +:+ ":" +:+ quote +:+ "0" +:+ quote.

(** [/code.*ok|status.*ok|\"status\"\:\"ok\"|\"code\"\:\"0\"/] *)
Definition re_success : regex :=
  Alts [Cat (Lit "code") (Cat (Star Dot) (Lit "ok"));
        Cat (Lit "status") (Cat (Star Dot) (Lit "ok"));
        Lit lit_status_ok; Lit lit_code_0].

(** [/forbidden|unauthorized|auth_failure|auth_failed|banned/] *)
Definition re_suspicious : regex :=
  Alts [Lit "forbidden"; Lit "unauthorized"; Lit "auth_failure";
        Lit "auth_failed"; Lit "banned"].

(** What [doRegisterCheck] resolves to: [{ banned, raw, status }] or
    [{ error, message }]. *)
Inductive CheckResult : Type :=
| Verdict (banned : bool) (raw : string) (status : Z)
| Failed (error : string) (message : string).

(** Lines 141-162: from the response's status and text to the verdict. *)
Definition classify (status : Z) (text : string) : CheckResult :=
  let low := toLowerCase (or_else text "") in
  if test re_banned low then Verdict true text status
  else if test re_success low then Verdict false text status
  else if (status >=? 400) && (status <? 500) && test re_suspicious low
  then Verdict true text status
  else Verdict false text status.

(** *** The probe *)

Section WithWorld.
Context (cfg : Config) (ext : Externals).

(** [Math.random()]: reads the next value and advances. *)
Definition random (st : State) : Q * State :=
  (Math_random ext (random_calls st),
   {| rateMap := rateMap st; random_calls := S (random_calls st);
      attempts := attempts st |}).

Definition pickRandom {A : Type} (arr : list A) (st : State) : option A * State :=
  let (u, st1) := random st in
  (array_get arr (floor_scaled u (Z.of_nat (length arr))), st1).

Definition opt_truthy (o : option string) : bool :=
  match o with Some s => truthy s | None => false end.

Definition buildFormBody (cc inPart method : string) (mcc mnc : option string)
    (st : State) : list (string * string) * State :=
  let params := [("cc", cc); ("in", inPart); ("method", method)] in
  let params := match mcc with
                | Some v => if truthy v then (params ++ [("mcc", v)])%list else params
                | None => params end in
  let params := match mnc with
                | Some v => if truthy v then (params ++ [("mnc", v)])%list else params
                | None => params end in
  let (u, st1) := random st in
  ((params ++ [("r", Z_toString (floor_scaled u 1000000))])%list, st1).

Definition push_attempt (a : Attempt) (st : State) : State :=
  {| rateMap := rateMap st; random_calls := random_calls st;
     attempts := (attempts st ++ [a])%list |}.

(** One pass through the body of [doRegisterCheck] up to and including
    the awaited [fetch]: draws the identity, builds the request, sets
    up the proxy agent, performs the call. *)
Definition attempt (numberObj : NumberObj) (proxyUrl : option string)
    (retries : Z) (st : State) : FetchResult * State :=
  let (ua, st1) := pickRandom UA_LIST st in
  let (mcc, st2) := pickRandom MCC_OPTIONS st1 in
  let (mnc, st3) := pickRandom MNC_OPTIONS st2 in
  let (body, st4) := buildFormBody (cc numberObj) (in_ numberObj) "sms" mcc mnc st3 in
  let endpoint := "https://v.whatsapp.net/v2/register" in
  let headers := [("Content-Type", Some "application/x-www-form-urlencoded");
                  ("User-Agent", ua);
                  ("Accept", Some "*/*");
                  ("Connection", Some "keep-alive")] in
  let agent := match proxyUrl with
               | Some p => if truthy p && HttpsProxyAgent ext p then Some p else None
               | None => None
               end in
  let fetchOptions := {| fo_endpoint := endpoint; fo_method := "POST";
                         fo_headers := headers; fo_body := body;
                         fo_agent := agent |} in
  let result := fetch ext (length (attempts st4)) fetchOptions in
  (result,
   push_attempt {| at_proxyUrl := proxyUrl; at_retries := retries;
                   at_ua := ua; at_mcc := mcc; at_mnc := mnc;
                   at_options := fetchOptions; at_result := result |} st4).

Equations? doRegisterCheck (numberObj : NumberObj) (proxyUrl : option string)
    (retries : Z) (st : State) : CheckResult * State
    by wf (Z.to_nat (MAX_RETRIES cfg - retries)) lt :=
  doRegisterCheck numberObj proxyUrl retries st
    with attempt numberObj proxyUrl retries st => {
    | (Responded status text, st1) := (classify status text, st1);
    | (Threw err, st1) with Z_lt_dec retries (MAX_RETRIES cfg) => {
        | left _ :=
            (* the jittered backoff draws one random value *)
            doRegisterCheck numberObj proxyUrl (retries + 1) (snd (random st1));
        | right _ := (Failed "network_error" err, st1) } }.
Proof. lia. Qed.

End WithWorld.

(** *** The request handler *)

(** The parts of the incoming request the handler reads.  [req.body] is
    taken as the already parsed object; [req_number] and [req_phone] are
    its [number] and [phone] fields when they are strings. *)
Record HttpRequest : Type := {
  req_method : string;
  req_x_forwarded_for : option string;
  req_remoteAddress : option string;
  req_number : option string;
  req_phone : option string
}.

(** The object sent on success. *)
Record ResultJson : Type := {
  number : string;
  normalized : NumberObj;
  banned : bool;
  statusCode : option Z;
  raw : option string;
  proxy : string
}.

Inductive Json : Type :=
| JError (error : string) (message : option string)
| JFailed (error : string) (details : CheckResult)
| JResult (r : ResultJson).

Record HttpResponse : Type := { status : Z; json : Json }.

Definition newline : ascii := "010"%char.

Definition opt_or_else (a : option string) (b : string) : string :=
  match a with
  | Some s => or_else s b
  | None => b
  end.

(** [req.headers["x-forwarded-for"]?.split(",")[0].trim()
     || req.socket.remoteAddress || "unknown"] *)
Definition client_ip (req : HttpRequest) : string :=
  let fwd := match req_x_forwarded_for req with
             | Some h => match split "," h with
                         | first :: _ => Some (trim first)
                         | [] => None
                         end
             | None => None
             end in
  opt_or_else fwd (opt_or_else (req_remoteAddress req) "unknown").

Definition msg_number_required : string :=
  Eval cbv in "Send { number: " +:+ quote +:+ "+6281234..." +:+ quote
              +:+ " } in request body".

Section Handler.
Context (cfg : Config) (ext : Externals).

Definition set_rateMap (m : gmap string RateRec) (st : State) : State :=
  {| rateMap := m; random_calls := random_calls st; attempts := attempts st |}.

Definition handler (date_now : Z) (req : HttpRequest) (st : State)
    : HttpResponse * State :=
  if negb (String.eqb (req_method req) "POST") then
    ({| status := 405; json := JError "Method not allowed" None |}, st)
  else
  let ip := client_ip req in
  let (allowed, m1) := allowedByRateLimit cfg ip date_now (rateMap st) in
  let st1 := set_rateMap m1 st in
  if negb allowed then
    ({| status := 429;
        json := JError "rate_limited"
                  (Some ("Too many requests (limit "
                         +:+ Z_toString (DEFAULT_RATE_LIMIT cfg) +:+ "/min)")) |},
     st1)
  else
  let number := trim (opt_or_else (req_number req) (opt_or_else (req_phone req) "")) in
  if negb (truthy number) then
    ({| status := 400; json := JError "number_required" (Some msg_number_required) |},
     st1)
  else
  match normalizeNumber number with
  | None =>
      ({| status := 400;
          json := JError "invalid_number"
            (Some "Number must be digits with country code (E.164 recommended).") |},
       st1)
  | Some normalized =>
      let proxiesEnv := opt_or_else (PROXIES cfg) "" in
      let proxies := List.filter truthy (List.map trim (split newline proxiesEnv)) in
      let (proxyToUse, st2) :=
        if (0 <? length proxies)%nat then pickRandom ext proxies st1 else (None, st1) in
      let (result, st3) :=
        doRegisterCheck cfg ext {| cc := cc normalized; in_ := in_ normalized |}
                        proxyToUse 0 st2 in
      let expose := match EXPOSE_RAW cfg with
                    | Some v => String.eqb v "1"
                    | None => false
                    end in
      let proxy_field := if opt_truthy proxyToUse then "used" else "none" in
      match result with
      | Failed e m =>
          if truthy e then
            ({| status := 502; json := JFailed "proxy_or_network_failed" result |}, st3)
          else
            ({| status := 200;
                json := JResult {| number := number; normalized := normalized;
                                   banned := false; statusCode := None;
                                   raw := None; proxy := proxy_field |} |}, st3)
      | Verdict b text code =>
          ({| status := 200;
              json := JResult {| number := number; normalized := normalized;
                                 banned := b; statusCode := Some code;
                                 raw := if expose then Some text else None;
                                 proxy := proxy_field |} |}, st3)
      end
  end.

End Handler.

End CheckBan.

(** ** The first version of the endpoint, [src/api/check-ban.js] *)

Module BasicCheckBan.
Import JsString Regex.

(** The values [req.body.number] can hold once the body is parsed.  An
    array is given by the strings its elements convert to when the array
    is converted to a string (the empty string for [null] and
    [undefined]); of an object only its being an object matters here. *)
Inductive JsValue : Type :=
| VUndefined
| VNull
| VBool (b : bool)
| VNumber (x : Q)
| VString (s : string)
| VArray (items : list string)
| VObject.

(** [req_body] is [None] when [req.body] is [undefined] or [null], and
    otherwise the value of its property [number] ([VUndefined] when it has
    none). *)
Record HttpRequest : Type := {
  req_method : string;
  req_body : option JsValue
}.

Record FetchOptions : Type := {
  fo_endpoint : string;
  fo_method : string;
  fo_headers : list (string * string);
  fo_body : string
}.

Inductive Json : Type :=
| JError (error : string)
| JBanned (banned : bool).

Record HttpResponse : Type := { status : Z; json : Json }.

(** How a call of the handler ends: it sends a response and returns, or
    it throws without having sent one. *)
Inductive Completion : Type :=
| Returned (response : HttpResponse)
| Thrown (error : string).

(** The [fetch] calls made so far, most recent last. *)
Record State : Type := { calls : list (FetchOptions * CheckBan.FetchResult) }.

(** [!!v] *)
Definition to_boolean (v : JsValue) : bool :=
  match v with
  | VUndefined | VNull => false
  | VBool b => b
  | VNumber x => negb (Qeq_bool x 0)
  | VString s => truthy s
  | VArray _ | VObject => true
  end.

(** [Array.prototype.join] with a comma, which is how an array is
    converted to a string. *)
Definition join (items : list string) : string := String.concat "," items.

(** The two texts [`${v.slice(0, 2)}`] and [`${v.slice(2)}`]: only strings
    and arrays have a method [slice]; for every other value the call
    throws a [TypeError] (here [None]). *)
Definition slices (v : JsValue) : option (string * string) :=
  match v with
  | VString s => Some (slice_to 2 s, slice_from 2 s)
  | VArray items => Some (join (firstn 2 items), join (skipn 2 items))
  | _ => None
  end.

Section Handler.
Context (fetch : nat -> FetchOptions -> CheckBan.FetchResult).

Definition handler (req : HttpRequest) (st : State) : Completion * State :=
  if negb (String.eqb (req_method req) "POST") then
    (Returned {| status := 405; json := JError "Method not allowed" |}, st)
  else
  match req_body req with
  | None => (Thrown "TypeError", st)
  | Some number =>
  if negb (to_boolean number) then
    (Returned {| status := 400; json := JError "Phone number required" |}, st)
  else
  (* the [try] block *)
  match slices number with
  | None => (Returned {| status := 500; json := JError "Error checking ban" |}, st)
  | Some (cc, inPart) =>
  let options :=
    {| fo_endpoint := "https://v.whatsapp.net/v2/register";
       fo_method := "POST";
       fo_headers := [("Content-Type", "application/x-www-form-urlencoded");
                      ("User-Agent", "WhatsApp/2.23.8.76 Android/11 Device/Pixel")];
       fo_body := "cc=" +:+ cc +:+ "&in=" +:+ inPart
                  +:+ "&method=sms&mcc=000&mnc=000" |} in
  let result := fetch (length (calls st)) options in
  let st1 := {| calls := (calls st ++ [(options, result)])%list |} in
  match result with
  | CheckBan.Responded _ text =>
      if test (Lit_i "banned") text
      then (Returned {| status := 200; json := JBanned true |}, st1)
      else (Returned {| status := 200; json := JBanned false |}, st1)
  | CheckBan.Threw _ =>
      (Returned {| status := 500; json := JError "Error checking ban" |}, st1)
  end
  end
  end.

End Handler.

End BasicCheckBan.

(** ** What the specification says, in its own words *)

Module Spec.
Import JsString Regex CheckBan.

(** The language of a regular expression. *)
Inductive lang : regex -> string -> Prop :=
| lang_eps : lang Eps ""
| lang_class p a : p a = true -> lang (Class p) (String a "")
| lang_cat r1 r2 s1 s2 : lang r1 s1 -> lang r2 s2 -> lang (Cat r1 r2) (s1 +:+ s2)
| lang_alt_l r1 r2 s : lang r1 s -> lang (Alt r1 r2) s
| lang_alt_r r1 r2 s : lang r2 s -> lang (Alt r1 r2) s
| lang_star_nil r : lang (Star r) ""
| lang_star_app r s1 s2 : lang r s1 -> lang (Star r) s2 -> lang (Star r) (s1 +:+ s2).

(** The input after trimming whitespace and stripping one leading [+]. *)
Definition digit_sequence (input : string) : string :=
  match trim input with
  | String a r => if Ascii.eqb a "+" then r else String a r
  | "" => ""
  end.

(** 6 to 15 decimal digits. *)
Definition valid_digits (d : string) : Prop :=
  (6 <= String.length d <= 15)%nat /\ all_chars is_digit d = true.

(** The heuristic: 2 digits when there are at least 8, otherwise 1. *)
Definition prefix_length (d : string) : nat :=
  if (8 <=? String.length d)%nat then 2%nat else 1%nat.

Definition extracted_prefix (d : string) : string := slice_to (prefix_length d) d.
Definition after_prefix (d : string) : string := slice_from (prefix_length d) d.

Fixpoint strip_zeros (s : string) : string :=
  match s with
  | String a r => if Ascii.eqb a "0" then strip_zeros r else s
  | "" => ""
  end.

(** Number of leading ["0"] characters. *)
Fixpoint leading_zeros (s : string) : nat :=
  match s with
  | String a r => if Ascii.eqb a "0" then S (leading_zeros r) else O
  | "" => O
  end.

(** The prefix with its leading zeros stripped, or the single first digit
    when nothing is left. *)
Definition country_code (d : string) : string :=
  match strip_zeros (extracted_prefix d) with
  | "" => slice_to 1 d
  | p => p
  end.

(** The digit sequence with the leading zeros of its extracted prefix
    removed. *)
Definition stripped_digit_sequence (d : string) : string :=
  strip_zeros (extracted_prefix d) +:+ after_prefix d.

(** A lower-case ASCII letter. *)
Definition is_ascii_lower (c : ascii) : bool :=
  let n := nat_of_ascii c in (97 <=? n)%nat && (n <=? 122)%nat.

(** An ASCII character other than a capital letter: what the markers of
    the classification are written with. *)
Definition marker_char (c : ascii) : bool :=
  let n := nat_of_ascii c in
  (n <? 128)%nat && negb ((65 <=? n)%nat && (n <=? 90)%nat).

(** The character [a] of a body stands for the character [c] of a marker:
    it is [c] itself, or [c] is a lower-case letter and [a] is its capital
    (32 code units below it). *)
Definition same_letter (a c : ascii) : bool :=
  Ascii.eqb a c
  || (is_ascii_lower c && (nat_of_ascii a + 32 =? nat_of_ascii c)%nat).

(** [mid] spells the marker [w], each letter in either case. *)
Fixpoint spells (mid w : string) : bool :=
  match mid, w with
  | "", "" => true
  | String a m, String c w' => same_letter a c && spells m w'
  | _, _ => false
  end.

(** [P] holds of each of the 256 code units. *)
Definition all_ascii (P : ascii -> bool) : bool :=
  List.forallb (fun n => P (ascii_of_nat n)) (List.seq 0 256).

(** The marker [w] occurs in [s], each of its letters in either case. *)
Definition contains (w s : string) : Prop :=
  exists pre mid post, s = pre +:+ mid +:+ post /\ spells mid w = true.

(** [w1] occurs in [s] and [w2] occurs later on the same line, each of
    their letters in either case. *)
Definition contains_then (w1 w2 s : string) : Prop :=
  exists pre m1 gap m2 post,
    s = pre +:+ m1 +:+ gap +:+ m2 +:+ post
    /\ spells m1 w1 = true /\ spells m2 w2 = true
    /\ all_chars (fun a => negb (is_line_terminator a)) gap = true.

(** Rule 1: [banned|blocked|account suspended|account banned|forbidden]. *)
Definition ban_marker (body : string) : Prop :=
  contains "banned" body \/ contains "blocked" body
  \/ contains "account suspended" body \/ contains "account banned" body
  \/ contains "forbidden" body.

(** Rule 2: [code...ok], [status...ok], ["status":"ok"], ["code":"0"]. *)
Definition success_marker (body : string) : Prop :=
  contains_then "code" "ok" body \/ contains_then "status" "ok" body
  \/ contains lit_status_ok body \/ contains lit_code_0 body.

(** Rule 3: a 4xx status with
    [forbidden|unauthorized|auth_failure|auth_failed|banned]. *)
Definition suspicious_4xx (statusCode : Z) (body : string) : Prop :=
  (400 <= statusCode < 500)
  /\ (contains "forbidden" body \/ contains "unauthorized" body
      \/ contains "auth_failure" body \/ contains "auth_failed" body
      \/ contains "banned" body).

Inductive Outcome : Type := Banned | NotBanned.

(** The four rules, applied in order. *)
Inductive classified (statusCode : Z) (body : string) : Outcome -> Prop :=
| rule_1 : ban_marker body -> classified statusCode body Banned
| rule_2 : ~ ban_marker body -> success_marker body ->
           classified statusCode body NotBanned
| rule_3 : ~ ban_marker body -> ~ success_marker body ->
           suspicious_4xx statusCode body -> classified statusCode body Banned
| rule_4 : ~ ban_marker body -> ~ success_marker body ->
           ~ suspicious_4xx statusCode body -> classified statusCode body NotBanned.

Definition outcome_of (r : CheckResult) : option Outcome :=
  match r with
  | Verdict true _ _ => Some Banned
  | Verdict false _ _ => Some NotBanned
  | Failed _ _ => None
  end.

(** Successive calls of [allowedByRateLimit] by one caller, one for each
    value of [Date.now()] in [times]; the answers, and the final map. *)
Fixpoint calls (cfg : Config) (ip : string) (times : list Z)
    (m : gmap string RateRec) : list bool * gmap string RateRec :=
  match times with
  | [] => ([], m)
  | t :: ts =>
      let (b, m1) := allowedByRateLimit cfg ip t m in
      let (bs, m2) := calls cfg ip ts m1 in
      (b :: bs, m2)
  end.

(** A call at [date_now] starts a window for [ip]: there is no record, or
    the record is at least one window length old. *)
Definition opens_window (m : gmap string RateRec) (ip : string) (date_now : Z) : Prop :=
  match m !! ip with
  | None => True
  | Some rec => 60 <= nowUnix date_now - windowStart rec
  end.

(** A call at [date_now] falls inside the window started at [start]. *)
Definition in_window (start date_now : Z) : Prop :=
  nowUnix date_now - nowUnix start < 60.

(** The transport fails on every call. *)
Definition always_fails (ext : Externals) : Prop :=
  forall n options, exists err, fetch ext n options = Threw err.

Definition threw (a : Attempt) : Prop := exists err, at_result a = Threw err.

(** The attempts a run added to the log. *)
Definition new_attempts (before after : State) : list Attempt :=
  drop (length (attempts before)) (attempts after).

(** The identity of attempt [a] is drawn from the three values of
    [Math.random()] starting at position [pos]. *)
Definition identity_drawn_at (ext : Externals) (pos : nat) (a : Attempt) : Prop :=
  at_ua a = array_get UA_LIST (floor_scaled (Math_random ext pos) 4)
  /\ at_mcc a = array_get MCC_OPTIONS (floor_scaled (Math_random ext (pos + 1)) 7)
  /\ at_mnc a = array_get MNC_OPTIONS (floor_scaled (Math_random ext (pos + 2)) 6).

(** A bound on the error of a product in double precision, for products
    below 2^20: [2^-32]. *)
Definition rounding_margin : Q := 1 # 4294967296.

(** The draw [u] selects entry [k] of a list of [n] entries: [u * n] lies
    between [k] and [k + 1], at least [rounding_margin] away from
    [k + 1]. *)
Definition lands_in (u : Q) (n k : Z) : Prop :=
  (inject_Z k <= u * inject_Z n)%Q
  /\ (u * inject_Z n <= inject_Z (k + 1) - rounding_margin)%Q.

(** The three values of [Math.random()] from position [pos] on in one
    world are the three values from position [pos'] on in another. *)
Definition same_draws (ext : Externals) (pos : nat) (ext' : Externals) (pos' : nat)
    : Prop :=
  forall j : nat, (j < 3)%nat ->
    (Math_random ext (pos + j) == Math_random ext' (pos' + j))%Q.

(** Attempt [a] belongs to a probe through [proxyUrl], was made with the
    counter at [retries], drew its identity at position [pos], and its
    result is what the transport gave for its request. *)
Definition attempt_of (ext : Externals) (proxyUrl : option string) (retries : Z)
    (pos : nat) (a : Attempt) : Prop :=
  at_proxyUrl a = proxyUrl /\ at_retries a = retries
  /\ identity_drawn_at ext pos a
  /\ exists n, at_result a = fetch ext n (at_options a).

(** The run of one probe, as the specification describes it: attempts are
    made with the same proxy and a fresh identity; a response ends the run
    with its classification; a failure is retried while the counter is
    below [MAX_RETRIES], and ends the run with ["network_error"] otherwise. *)
Inductive probe_run (cfg : Config) (ext : Externals) (proxyUrl : option string)
    : Z -> nat -> list Attempt -> CheckResult -> Prop :=
| run_response retries pos a statusCode text :
    attempt_of ext proxyUrl retries pos a ->
    at_result a = Responded statusCode text ->
    probe_run cfg ext proxyUrl retries pos [a] (classify statusCode text)
| run_retry retries pos a err rest res :
    attempt_of ext proxyUrl retries pos a ->
    at_result a = Threw err ->
    retries < MAX_RETRIES cfg ->
    probe_run cfg ext proxyUrl (retries + 1) (pos + 5) rest res ->
    probe_run cfg ext proxyUrl retries pos (a :: rest) res
| run_exhausted retries pos a err :
    attempt_of ext proxyUrl retries pos a ->
    at_result a = Threw err ->
    ~ retries < MAX_RETRIES cfg ->
    probe_run cfg ext proxyUrl retries pos [a] (Failed "network_error" err).

(** The number the request asks about:
    [(body.number || body.phone || "").toString().trim()]. *)
Definition requested_number (req : HttpRequest) : string :=
  trim (opt_or_else (req_number req) (opt_or_else (req_phone req) "")).

(** The proxy pool read from the configuration. *)
Definition proxy_pool (cfg : Config) : list string :=
  List.filter truthy (List.map trim (split newline (opt_or_else (PROXIES cfg) ""))).

(** Lines 203-206: the proxy used for the whole probe. *)
Definition chosen_proxy (cfg : Config) (ext : Externals) (st : State)
    : option string * State :=
  if (0 <? length (proxy_pool cfg))%nat then pickRandom ext (proxy_pool cfg) st
  else (None, st).

(** Lines 211-223: the response sent for the result of the probe. *)
Definition response_of (cfg : Config) (number : string) (normalized : NumberObj)
    (proxyToUse : option string) (result : CheckResult) : HttpResponse :=
  let expose := match EXPOSE_RAW cfg with
                | Some v => String.eqb v "1"
                | None => false
                end in
  let proxy_field := if opt_truthy proxyToUse then "used" else "none" in
  match result with
  | Failed e m =>
      if truthy e then
        {| status := 502; json := JFailed "proxy_or_network_failed" result |}
      else
        {| status := 200;
           json := JResult {| number := number; normalized := normalized;
                              banned := false; statusCode := None;
                              raw := None; proxy := proxy_field |} |}
  | Verdict b text code =>
      {| status := 200;
         json := JResult {| number := number; normalized := normalized;
                            banned := b; statusCode := Some code;
                            raw := if expose then Some text else None;
                            proxy := proxy_field |} |}
  end.

(** Lines 198-223: what the handler does once the number is accepted. *)
Definition probe_and_respond (cfg : Config) (ext : Externals) (number : string)
    (normalized : NumberObj) (st1 : State) : HttpResponse * State :=
  let (proxyToUse, st2) := chosen_proxy cfg ext st1 in
  let (result, st3) :=
    doRegisterCheck cfg ext {| cc := cc normalized; in_ := in_ normalized |}
                    proxyToUse 0 st2 in
  (response_of cfg number normalized proxyToUse result, st3).

(** The request passes the method check, the rate limiter and the number
    validation, so that the probe is run. *)
Definition reaches_probe (cfg : Config) (date_now : Z) (req : HttpRequest)
    (st : State) : Prop :=
  req_method req = "POST"
  /\ fst (allowedByRateLimit cfg (client_ip req) date_now (rateMap st)) = true
  /\ exists numberObj, normalizeNumber (requested_number req) = Some numberObj.

(** Every value of [Math.random()] lies in [0, 1). *)
Definition unit_random (ext : Externals) : Prop :=
  forall n, (0 <= Math_random ext n)%Q /\ (Math_random ext n < 1)%Q.

(** The raw-exposure flag is enabled: [EXPOSE_RAW === "1"]. *)
Definition raw_enabled (cfg : Config) : Prop := EXPOSE_RAW cfg = Some "1".

(** Calls of [allowedByRateLimit] by any callers, in order: the final map. *)
Fixpoint calls_by (cfg : Config) (reqs : list (string * Z))
    (m : gmap string RateRec) : gmap string RateRec :=
  match reqs with
  | [] => m
  | (ip, t) :: rest => calls_by cfg rest (snd (allowedByRateLimit cfg ip t m))
  end.

(** Every stored count is at least 1 and at most the limit (or 1, when the
    limit is smaller). *)
Definition counts_bounded (cfg : Config) (m : gmap string RateRec) : Prop :=
  forall ip rec, m !! ip = Some rec ->
    1 <= count rec <= Z.max 1 (DEFAULT_RATE_LIMIT cfg).

(** The number of calls a window admits. *)
Definition window_budget (cfg : Config) : Z := Z.max 1 (DEFAULT_RATE_LIMIT cfg).

(** [a] is the record of one execution of the body of [doRegisterCheck]
    for this number and proxy. *)
Definition made_by (ext : Externals) (numberObj : NumberObj)
    (proxyUrl : option string) (a : Attempt) : Prop :=
  exists retries st,
    attempts (snd (attempt ext numberObj proxyUrl retries st))
    = (attempts st ++ [a])%list.

(** The agent a request is sent through: the proxy, when there is a
    non-empty proxy URL and the agent can be built for it. *)
Definition agent_for (ext : Externals) (proxyUrl : option string) : option string :=
  match proxyUrl with
  | Some p => if truthy p && HttpsProxyAgent ext p then Some p else None
  | None => None
  end.

(** The transport throws on its calls number [first], ..., [first + k - 1]
    and answers the call number [first + k]. *)
Definition fails_then_responds (ext : Externals) (first k : nat)
    (statusCode : Z) (text : string) : Prop :=
  (forall i options, (i < k)%nat -> exists err, fetch ext (first + i) options = Threw err)
  /\ (forall options, fetch ext (first + k) options = Responded statusCode text).

(** The body field [key], present when the value is defined and not
    empty. *)
Definition opt_field (key : string) (v : option string) : list (string * string) :=
  match v with
  | Some s => if truthy s then [(key, s)] else []
  | None => []
  end.

(** The headers of a request sent with user agent [ua]. *)
Definition request_headers (ua : option string) : list (string * option string) :=
  [("Content-Type", Some "application/x-www-form-urlencoded");
   ("User-Agent", ua);
   ("Accept", Some "*/*");
   ("Connection", Some "keep-alive")].

(** The markers that count on a 4xx status only. *)
Definition auth_marker (body : string) : Prop :=
  contains "unauthorized" body \/ contains "auth_failure" body
  \/ contains "auth_failed" body.

(** [s] with every code unit canonicalised as the [i] flag does. *)
Fixpoint canonical (s : string) : string :=
  match s with
  | "" => ""
  | String a r => String (canonicalize a) (canonical r)
  end.

(** [w] occurs in [s] up to letter case, as the [i] flag compares. *)
Definition contains_ignoring_case (w s : string) : Prop :=
  exists pre mid post, s = pre +:+ mid +:+ post /\ canonical mid = canonical w.

(** The handler serving requests one after the other, each at its value of
    [Date.now()]: the responses, and the final state. *)
Fixpoint serve (cfg : Config) (ext : Externals) (reqs : list (Z * HttpRequest))
    (st : State) : list HttpResponse * State :=
  match reqs with
  | [] => ([], st)
  | (t, req) :: rest =>
      let (r, st1) := handler cfg ext t req st in
      let (rs, st2) := serve cfg ext rest st1 in
      (r :: rs, st2)
  end.

(** The message of the 429 response. *)
Definition rate_limited_message (cfg : Config) : string :=
  "Too many requests (limit " +:+ Z_toString (DEFAULT_RATE_LIMIT cfg) +:+ "/min)".



(** *** Sample worlds and requests *)

(** [Math.random()] cycles through 0, 0.1, ..., 0.9. *)
Definition sample_random (n : nat) : Q := (Z.of_nat (n mod 10) # 10)%Q.

(** A transport that times out on every call. *)
Definition dead_world : Externals :=
  {| Math_random := sample_random;
     fetch := fun _ _ => Threw "timeout";
     HttpsProxyAgent := fun _ => true |}.

(** A transport that times out once and then answers 503. *)
Definition flaky_world : Externals :=
  {| Math_random := sample_random;
     fetch := fun n _ => if (n <? 1)%nat then Threw "timeout"
                         else Responded 503 "Service Unavailable";
     HttpsProxyAgent := fun _ => true |}.

(** A transport that answers 200 with a ban marker. *)
Definition banned_world : Externals :=
  {| Math_random := sample_random;
     fetch := fun _ _ => Responded 200 "Your account has been banned";
     HttpsProxyAgent := fun _ => true |}.

Definition sample_number : NumberObj := {| cc := "62"; in_ := "81234567890" |}.

Definition sample_request : HttpRequest :=
  {| req_method := "POST";
     req_x_forwarded_for := Some "203.0.113.7, 10.0.0.1";
     req_remoteAddress := Some "10.0.0.1";
     req_number := Some "+6281234567890";
     req_phone := None |}.

Definition sample_get_request : HttpRequest :=
  {| req_method := "GET";
     req_x_forwarded_for := Some "203.0.113.7";
     req_remoteAddress := None;
     req_number := Some "+6281234567890";
     req_phone := None |}.

Definition two_proxies : string :=
  Eval cbv in "http://10.0.0.8:8000" +:+ String newline "http://10.0.0.9:8000".

Definition config_with_proxies : Config :=
  {| DEFAULT_RATE_LIMIT := 30; MAX_RETRIES := 2;
     PROXIES := Some two_proxies; EXPOSE_RAW := None |}.

Definition config_exposing_raw : Config :=
  {| DEFAULT_RATE_LIMIT := 30; MAX_RETRIES := 2;
     PROXIES := Some "http://10.0.0.8:8000"; EXPOSE_RAW := Some "1" |}.

(** The environment sets [MAX_RETRIES=-1]: [parseInt] accepts it. *)
Definition config_negative_retries : Config :=
  {| DEFAULT_RATE_LIMIT := 30; MAX_RETRIES := -1;
     PROXIES := None; EXPOSE_RAW := None |}.

End Spec.

Import JsString Regex CheckBan Spec.

(** ** Strings *)

Section StringFacts.

Lemma app_cons a s t : String a s +:+ t = String a (s +:+ t).
Proof. reflexivity. Qed.

Lemma app_empty_l s : "" +:+ s = s.
Proof. reflexivity. Qed.

Lemma app_empty_r s : s +:+ "" = s.
Proof. induction s as [|a s IH]; [reflexivity|]. now rewrite app_cons, IH. Qed.

Lemma app_assoc' s t u : (s +:+ t) +:+ u = s +:+ (t +:+ u).
Proof. induction s as [|a s IH]; [reflexivity|]. now rewrite !app_cons, IH. Qed.

Lemma app_eq_empty s t : s +:+ t = "" -> s = "" /\ t = "".
Proof. destruct s; [auto|discriminate]. Qed.

Lemma string_length_app s t :
  String.length (s +:+ t) = (String.length s + String.length t)%nat.
Proof. induction s as [|a s IH]; [reflexivity|]. rewrite app_cons. simpl. now rewrite IH. Qed.

Lemma all_chars_app P s t :
  all_chars P (s +:+ t) = all_chars P s && all_chars P t.
Proof.
  induction s as [|a s IH]; [reflexivity|].
  rewrite app_cons. simpl. rewrite IH. now rewrite andb_assoc.
Qed.

Lemma slice_split n s : slice_to n s +:+ slice_from n s = s.
Proof.
  revert s; induction n as [|n IH]; intros [|a s]; try reflexivity.
  simpl. now rewrite app_cons, IH.
Qed.

Lemma length_slice_to n s : String.length (slice_to n s) = Nat.min n (String.length s).
Proof.
  revert s; induction n as [|n IH]; intros [|a s]; try reflexivity.
  simpl. now rewrite IH.
Qed.

Lemma length_slice_from n s : String.length (slice_from n s) = (String.length s - n)%nat.
Proof.
  revert s; induction n as [|n IH]; intros [|a s]; try reflexivity.
  simpl. now rewrite IH.
Qed.

Lemma all_chars_slice_from P n s :
  all_chars P s = true -> all_chars P (slice_from n s) = true.
Proof.
  revert s; induction n as [|n IH]; intros [|a s]; simpl; auto.
  intros [_ H]%andb_prop. auto.
Qed.

Lemma all_chars_slice_to P n s :
  all_chars P s = true -> all_chars P (slice_to n s) = true.
Proof.
  revert s; induction n as [|n IH]; intros [|a s]; simpl; auto.
  intros [Ha H]%andb_prop. rewrite Ha. simpl. auto.
Qed.

Lemma truthy_length s : truthy s = true <-> (0 < String.length s)%nat.
Proof. destruct s; simpl; split; intros; try lia; try discriminate; auto. Qed.

End StringFacts.

(** ** Regular expressions: the matcher decides the language *)

Section RegexFacts.

Lemma lang_alt_iff r1 r2 s : lang (Alt r1 r2) s <-> lang r1 s \/ lang r2 s.
Proof.
  split.
  - inversion 1; subst; auto.
  - intros [H|H]; [apply lang_alt_l|apply lang_alt_r]; exact H.
Qed.

Lemma lang_cat_iff r1 r2 s :
  lang (Cat r1 r2) s <-> exists s1 s2, s = s1 +:+ s2 /\ lang r1 s1 /\ lang r2 s2.
Proof.
  split.
  - inversion 1; subst; eauto.
  - intros (s1 & s2 & -> & H1 & H2). now constructor.
Qed.

Lemma lang_eps_iff s : lang Eps s <-> s = "".
Proof. split; [inversion 1; auto | intros ->; constructor]. Qed.

Lemma lang_void s : ~ lang Void s.
Proof. inversion 1. Qed.

Lemma lang_class_iff p s : lang (Class p) s <-> exists a, s = String a "" /\ p a = true.
Proof.
  split.
  - inversion 1; subst; eauto.
  - intros (a & -> & H). now constructor.
Qed.

Lemma nullable_lang r : nullable r = true <-> lang r "".
Proof.
  split.
  - induction r; simpl; intros H; try discriminate.
    + constructor.
    + apply andb_prop in H as [H1 H2].
      change "" with ("" +:+ ""). constructor; auto.
    + apply orb_prop in H as [H|H]; [apply lang_alt_l|apply lang_alt_r]; auto.
    + constructor.
  - intros H. remember "" as s eqn:Hs.
    induction H; simpl; auto; try discriminate.
    + apply app_eq_empty in Hs as [-> ->]. rewrite IHlang1, IHlang2; auto.
    + rewrite IHlang; auto.
    + rewrite IHlang, orb_true_r; auto.
Qed.

Lemma lang_star_cons_inv r a s :
  lang (Star r) (String a s) ->
  exists s1 s2, s = s1 +:+ s2 /\ lang r (String a s1) /\ lang (Star r) s2.
Proof.
  intros H. remember (Star r) as r' eqn:Hr. remember (String a s) as w eqn:Hw.
  revert s Hw. induction H; intros s' Hw; try discriminate.
  injection Hr as ->. destruct s1 as [|b s1].
  - rewrite app_empty_l in Hw. apply IHlang2; auto.
  - rewrite app_cons in Hw. injection Hw as -> <-. eauto.
Qed.

Lemma deriv_lang a r s : lang (deriv a r) s <-> lang r (String a s).
Proof.
  revert s. induction r as [| |p|r1 IH1 r2 IH2|r1 IH1 r2 IH2|r IH]; intros s; simpl.
  - split; inversion 1.
  - split; inversion 1.
  - destruct (p a) eqn:E; split; intros H.
    + apply lang_eps_iff in H as ->. now constructor.
    + inversion H; subst. constructor.
    + inversion H.
    + inversion H; subst. congruence.
  - assert (Hcat : forall s, lang (Cat (deriv a r1) r2) s ->
                             lang (Cat r1 r2) (String a s)).
    { intros s0 (s1 & s2 & -> & H1 & H2)%lang_cat_iff.
      rewrite <- app_cons. constructor; [now apply IH1 | exact H2]. }
    destruct (nullable r1) eqn:N; split; intros H.
    + apply lang_alt_iff in H as [H|H]; [now apply Hcat|].
      rewrite <- (app_empty_l (String a s)).
      constructor; [now apply nullable_lang | now apply IH2].
    + apply lang_cat_iff in H as (s1 & s2 & E & H1 & H2).
      destruct s1 as [|b s1].
      * rewrite app_empty_l in E. subst s2. apply lang_alt_r. now apply IH2.
      * rewrite app_cons in E. injection E as <- ->.
        apply lang_alt_l. constructor; [now apply IH1 | exact H2].
    + now apply Hcat.
    + apply lang_cat_iff in H as (s1 & s2 & E & H1 & H2).
      destruct s1 as [|b s1].
      * apply nullable_lang in H1. congruence.
      * rewrite app_cons in E. injection E as <- ->.
        constructor; [now apply IH1 | exact H2].
  - rewrite !lang_alt_iff, IH1, IH2. tauto.
  - split; intros H.
    + apply lang_cat_iff in H as (s1 & s2 & -> & H1 & H2).
      rewrite <- app_cons. constructor; [now apply IH | exact H2].
    + apply lang_star_cons_inv in H as (s1 & s2 & -> & H1 & H2).
      constructor; [now apply IH | exact H2].
Qed.

Lemma test_anchored_lang r s : test_anchored r s = true <-> lang r s.
Proof.
  revert r. induction s as [|a s IH]; intros r; simpl.
  - apply nullable_lang.
  - rewrite IH. apply deriv_lang.
Qed.

Lemma test_prefix_lang r s :
  test_prefix r s = true <-> exists u v, s = u +:+ v /\ lang r u.
Proof.
  revert r. induction s as [|a s IH]; intros r; simpl.
  - rewrite orb_false_r, nullable_lang. split.
    + intros H. exists "", "". auto.
    + intros (u & v & E & H). symmetry in E.
      apply app_eq_empty in E as [-> _]. exact H.
  - rewrite orb_true_iff, nullable_lang, IH. split.
    + intros [H|(u & v & -> & H)].
      * exists "", (String a s). auto.
      * exists (String a u), v. split; [reflexivity | now apply deriv_lang].
    + intros (u & v & E & H). destruct u as [|b u].
      * now left.
      * rewrite app_cons in E. injection E as <- ->.
        right. exists u, v. split; [reflexivity | now apply deriv_lang].
Qed.

Lemma test_lang r s :
  test r s = true <-> exists p u v, s = p +:+ u +:+ v /\ lang r u.
Proof.
  induction s as [|a s IH].
  - change (test r "") with (test_prefix r "" || false).
    rewrite orb_false_r, test_prefix_lang. split.
    + intros (u & v & E & H). exists "", u, v. auto.
    + intros (p & u & v & E & H). symmetry in E.
      apply app_eq_empty in E as [-> E]. eauto.
  - change (test r (String a s)) with (test_prefix r (String a s) || test r s).
    rewrite orb_true_iff, test_prefix_lang, IH. split.
    + intros [(u & v & E & H)|(p & u & v & -> & H)].
      * exists "", u, v. auto.
      * exists (String a p), u, v. auto.
    + intros (p & u & v & E & H). destruct p as [|b p].
      * left. exists u, v. split; [exact E | exact H].
      * rewrite app_cons in E. injection E as <- ->. right. eauto.
Qed.

Lemma lang_chr a s : lang (Chr a) s <-> s = String a "".
Proof.
  unfold Chr. rewrite lang_class_iff. split.
  - intros (b & -> & H). apply Ascii.eqb_eq in H. now subst.
  - intros ->. exists a. split; [reflexivity | apply Ascii.eqb_refl].
Qed.

Lemma lang_lit w s : lang (Lit w) s <-> s = w.
Proof.
  revert s. induction w as [|a w IH]; intros s; simpl.
  - apply lang_eps_iff.
  - rewrite lang_cat_iff. split.
    + intros (s1 & s2 & -> & H1%lang_chr & H2%IH). now subst.
    + intros ->. exists (String a ""), w. repeat split.
      * now apply lang_chr.
      * now apply IH.
Qed.

Lemma lang_star_class p s : lang (Star (Class p)) s <-> all_chars p s = true.
Proof.
  split.
  - intros H. remember (Star (Class p)) as r eqn:Hr.
    induction H; try discriminate; [reflexivity|].
    injection Hr as ->. apply lang_class_iff in H as (a & -> & Ha).
    rewrite app_cons, app_empty_l. simpl. rewrite Ha. simpl. auto.
  - induction s as [|a s IH]; simpl; intros H.
    + constructor.
    + apply andb_prop in H as [Ha Hs].
      change (String a s) with (String a "" +:+ s).
      constructor; [now constructor | auto].
Qed.

Lemma lang_exactly_class n p s :
  lang (Exactly n (Class p)) s <-> String.length s = n /\ all_chars p s = true.
Proof.
  revert s. induction n as [|n IH]; intros s; simpl.
  - rewrite lang_eps_iff. split.
    + intros ->. auto.
    + intros [H _]. now destruct s.
  - rewrite lang_cat_iff. split.
    + intros (s1 & s2 & -> & (a & -> & Ha)%lang_class_iff & [Hl Hc]%IH).
      rewrite app_cons, app_empty_l. simpl. rewrite Ha, Hc, Hl. auto.
    + intros [Hl Hc]. destruct s as [|a s]; [discriminate|].
      simpl in Hl, Hc. apply andb_prop in Hc as [Ha Hc].
      exists (String a ""), s. repeat split.
      * now constructor.
      * apply IH. split; [lia | exact Hc].
Qed.

Lemma lang_atmost_class m p s :
  lang (AtMost m (Class p)) s <-> (String.length s <= m)%nat /\ all_chars p s = true.
Proof.
  revert s. induction m as [|m IH]; intros s; simpl.
  - rewrite lang_eps_iff. split.
    + intros ->. auto.
    + intros [H _]. destruct s; [reflexivity | simpl in H; lia].
  - rewrite lang_alt_iff, lang_eps_iff, lang_cat_iff. split.
    + intros [->|(s1 & s2 & -> & (a & -> & Ha)%lang_class_iff & [Hl Hc]%IH)].
      * simpl. split; [lia | reflexivity].
      * rewrite app_cons, app_empty_l. simpl. rewrite Ha, Hc. split; [lia | reflexivity].
    + intros [Hl Hc]. destruct s as [|a s]; [now left | right].
      simpl in Hl, Hc. apply andb_prop in Hc as [Ha Hc].
      exists (String a ""), s. repeat split.
      * now constructor.
      * apply IH. split; [lia | exact Hc].
Qed.

Lemma lang_range_class lo hi p s :
  (lo <= hi)%nat ->
  lang (Range lo hi (Class p)) s <->
  (lo <= String.length s <= hi)%nat /\ all_chars p s = true.
Proof.
  intros Hle. unfold Range. rewrite lang_cat_iff. split.
  - intros (s1 & s2 & -> & [H1 C1]%lang_exactly_class & [H2 C2]%lang_atmost_class).
    rewrite string_length_app, all_chars_app, C1, C2. split; [lia | reflexivity].
  - intros [Hl Hc]. exists (slice_to lo s), (slice_from lo s). repeat split.
    + symmetry. apply slice_split.
    + apply lang_exactly_class. rewrite length_slice_to.
      split; [lia | now apply all_chars_slice_to].
    + apply lang_atmost_class. rewrite length_slice_from.
      split; [lia | now apply all_chars_slice_from].
Qed.

(** [/^\d{6,15}$/] accepts exactly the strings of 6 to 15 digits. *)
Lemma re_digits_6_15_spec s :
  test_anchored re_digits_6_15 s = true <-> valid_digits s.
Proof.
  rewrite test_anchored_lang. unfold re_digits_6_15, Digit, valid_digits.
  apply lang_range_class. lia.
Qed.

End RegexFacts.

(** ** [normalizeNumber] *)

Section NormalizeFacts.

Lemma longest_prefix_ext r r' s :
  (forall u, lang r u <-> lang r' u) ->
  longest_prefix r s = longest_prefix r' s.
Proof.
  revert r r'. induction s as [|a s IH]; intros r r' Heq; simpl.
  - assert (nullable r = nullable r') as ->; [|reflexivity].
    apply eq_true_iff_eq. rewrite !nullable_lang. apply Heq.
  - rewrite (IH (deriv a r) (deriv a r')).
    + assert (nullable r = nullable r') as ->; [|reflexivity].
      apply eq_true_iff_eq. rewrite !nullable_lang. apply Heq.
    + intros u. rewrite !deriv_lang. apply Heq.
Qed.

Lemma longest_prefix_void s : longest_prefix Void s = None.
Proof. induction s as [|a s IH]; simpl; [reflexivity | now rewrite IH]. Qed.

Lemma strip_zeros_slice s : strip_zeros s = slice_from (leading_zeros s) s.
Proof.
  induction s as [|a s IH]; simpl; [reflexivity|].
  destruct (Ascii.eqb a "0"); simpl; auto.
Qed.

Lemma longest_prefix_star_zero s :
  longest_prefix (Star (Chr "0")) s = Some (leading_zeros s).
Proof.
  induction s as [|a s IH]; [reflexivity|].
  cbn [longest_prefix leading_zeros deriv Chr nullable].
  rewrite (Ascii.eqb_sym "0" a). destruct (Ascii.eqb a "0").
  - rewrite (longest_prefix_ext _ (Star (Chr "0"))), IH; [reflexivity|].
    intros u. rewrite lang_cat_iff. split.
    + intros (s1 & s2 & -> & ->%lang_eps_iff & H). exact H.
    + intros H. exists "", u. repeat split; [constructor | exact H].
  - rewrite (longest_prefix_ext _ Void), longest_prefix_void; [reflexivity|].
    intros u. rewrite lang_cat_iff. split.
    + intros (s1 & s2 & _ & []%lang_void & _).
    + intros []%lang_void.
Qed.

(** [cc.replace(/^0+/, "")] removes the leading zeros. *)
Lemma replace_leading_zeros s :
  replace_prefix_empty re_leading_zeros s = strip_zeros s.
Proof.
  unfold replace_prefix_empty, re_leading_zeros, Plus.
  destruct s as [|a s]; [reflexivity|].
  cbn [longest_prefix deriv Chr nullable andb strip_zeros].
  rewrite (Ascii.eqb_sym "0" a). destruct (Ascii.eqb a "0").
  - rewrite (longest_prefix_ext _ (Star (Chr "0"))), longest_prefix_star_zero.
    + simpl. symmetry. apply strip_zeros_slice.
    + intros u. rewrite lang_cat_iff. split.
      * intros (s1 & s2 & -> & ->%lang_eps_iff & H). exact H.
      * intros H. exists "", u. repeat split; [constructor | exact H].
  - rewrite (longest_prefix_ext _ Void), longest_prefix_void; [reflexivity|].
    intros u. rewrite lang_cat_iff. split.
    + intros (s1 & s2 & _ & []%lang_void & _).
    + intros []%lang_void.
Qed.

Lemma strip_plus_code s :
  (if startsWith "+" s then slice_from 1 s else s)
  = match s with
    | String a r => if Ascii.eqb a "+" then r else String a r
    | "" => ""
    end.
Proof.
  destruct s as [|a r]; [reflexivity|]. cbn [startsWith slice_from].
  rewrite andb_true_r, (Ascii.eqb_sym "+" a). reflexivity.
Qed.

Lemma trim_empty : trim "" = "".
Proof. reflexivity. Qed.

Lemma or_else_match a b :
  or_else a b = match a with "" => b | String c r => String c r end.
Proof. now destruct a. Qed.

(** On a valid input the function returns the country code of the
    heuristic and the digits after the first [length cc] ones. *)
Lemma normalizeNumber_valid input :
  valid_digits (digit_sequence input) ->
  normalizeNumber input =
    Some {| cc := country_code (digit_sequence input);
            in_ := slice_from (String.length (country_code (digit_sequence input)))
                              (digit_sequence input) |}.
Proof.
  intros Hv. pose proof Hv as [Hlen Hdig].
  unfold normalizeNumber.
  assert (truthy input = true) as ->.
  { destruct input; [|reflexivity]. unfold digit_sequence in Hlen.
    rewrite trim_empty in Hlen. simpl in Hlen. lia. }
  cbn [negb]. rewrite strip_plus_code.
  fold (digit_sequence input). set (d := digit_sequence input) in *.
  apply re_digits_6_15_spec in Hv. rewrite Hv. cbn [negb].
  rewrite replace_leading_zeros, or_else_match.
  assert ((if (String.length d <? 8)%nat then slice_to 1 d else slice_to 2 d)
          = extracted_prefix d) as ->.
  { unfold extracted_prefix, prefix_length.
    destruct (Nat.ltb_spec (String.length d) 8), (Nat.leb_spec 8 (String.length d));
      try reflexivity; lia. }
  fold (country_code d).
  assert (Hcc : (String.length (country_code d) <= 2)%nat).
  { unfold country_code, extracted_prefix, prefix_length.
    rewrite strip_zeros_slice.
    set (p := slice_to _ d).
    assert (String.length p <= 2)%nat.
    { unfold p. rewrite length_slice_to. destruct (8 <=? String.length d)%nat; lia. }
    pose proof (length_slice_from (leading_zeros p) p) as Hl.
    pose proof (length_slice_to 1 d) as Hl1.
    destruct (slice_from (leading_zeros p) p); lia. }
  assert (truthy (slice_from (String.length (country_code d)) d) = true) as ->.
  { apply truthy_length. rewrite length_slice_from. lia. }
  reflexivity.
Qed.

(** On any other input the function returns [null]. *)
Lemma normalizeNumber_invalid input :
  ~ valid_digits (digit_sequence input) -> normalizeNumber input = None.
Proof.
  intros Hn. unfold normalizeNumber.
  destruct (truthy input); [|reflexivity]. cbn [negb].
  rewrite strip_plus_code. fold (digit_sequence input).
  destruct (test_anchored re_digits_6_15 (digit_sequence input)) eqn:E; [|reflexivity].
  apply re_digits_6_15_spec in E. contradiction.
Qed.

End NormalizeFacts.

Section NormalizeClaims.

Lemma country_code_digits d :
  all_chars is_digit d = true -> all_chars is_digit (country_code d) = true.
Proof.
  intros H. unfold country_code.
  assert (Hp : all_chars is_digit (strip_zeros (extracted_prefix d)) = true).
  { rewrite strip_zeros_slice. apply all_chars_slice_from.
    now apply all_chars_slice_to. }
  destruct (strip_zeros (extracted_prefix d)); [|exact Hp].
  now apply all_chars_slice_to.
Qed.

Lemma country_code_truthy d :
  (0 < String.length d)%nat -> truthy (country_code d) = true.
Proof.
  intros H. unfold country_code.
  destruct (strip_zeros (extracted_prefix d)); [|reflexivity].
  destruct d; [simpl in H; lia | reflexivity].
Qed.

Lemma extracted_prefix_length d :
  (6 <= String.length d)%nat ->
  String.length (extracted_prefix d) = prefix_length d.
Proof.
  intros H. unfold extracted_prefix. rewrite length_slice_to.
  unfold prefix_length. destruct (8 <=? String.length d)%nat; lia.
Qed.

(** C7: on every valid input the returned country code is the first 2
    digits when there are at least 8 digits and the first digit otherwise,
    with leading zeros stripped and the single first digit as fallback;
    ["+6281234567890"] gives cc ["62"] and in ["81234567890"]. *)
Theorem normalizeNumber_country_code :
  (forall input, valid_digits (digit_sequence input) ->
     exists rest,
       normalizeNumber input
       = Some {| cc := country_code (digit_sequence input); in_ := rest |})
  /\ normalizeNumber "+6281234567890"
     = Some {| cc := "62"; in_ := "81234567890" |}.
Proof.
  split; [|reflexivity].
  intros input Hv. eexists. now apply normalizeNumber_valid.
Qed.

Lemma normalizeNumber_country_code_witness :
  valid_digits (digit_sequence "+6281234567890")
  /\ exists rest,
       normalizeNumber "+6281234567890"
       = Some {| cc := country_code (digit_sequence "+6281234567890"); in_ := rest |}.
Proof.
  assert (Hv : valid_digits (digit_sequence "+6281234567890")).
  { split; [vm_compute; lia | reflexivity]. }
  split; [exact Hv|].
  exact (proj1 normalizeNumber_country_code "+6281234567890" Hv).
Defined.

(** C1, as stated, fails on ["0062812345"]: the prefix ["00"] strips to
    nothing, the function falls back to cc ["0"] and returns the digits
    unchanged, not the digits without the zeros of the prefix. *)
Lemma normalizeNumber_reconstruct_counterexample :
  valid_digits (digit_sequence "0062812345")
  /\ normalizeNumber "0062812345" = Some {| cc := "0"; in_ := "062812345" |}
  /\ stripped_digit_sequence (digit_sequence "0062812345") = "62812345"
  /\ ~ (forall input, valid_digits (digit_sequence input) ->
          exists n, normalizeNumber input = Some n
                    /\ cc n +:+ in_ n = stripped_digit_sequence (digit_sequence input)).
Proof.
  assert (Hv : valid_digits (digit_sequence "0062812345")).
  { split; [vm_compute; lia | reflexivity]. }
  split; [exact Hv|]. split; [reflexivity|]. split; [reflexivity|].
  intros H. destruct (H "0062812345" Hv) as (n & Hn & Hc).
  vm_compute in Hn. injection Hn as <-. vm_compute in Hc. discriminate.
Qed.

(** C1 (amended): on every valid input the result is a pair of two
    non-empty digit strings; when the extracted prefix has no leading zero,
    or consists of zeros only, cc followed by in is the digit sequence
    itself. *)
Theorem normalizeNumber_reconstructs input :
  valid_digits (digit_sequence input) ->
  exists n,
    normalizeNumber input = Some n
    /\ truthy (cc n) = true /\ truthy (in_ n) = true
    /\ all_chars is_digit (cc n) = true /\ all_chars is_digit (in_ n) = true
    /\ (strip_zeros (extracted_prefix (digit_sequence input))
          = extracted_prefix (digit_sequence input)
        \/ strip_zeros (extracted_prefix (digit_sequence input)) = "" ->
        cc n +:+ in_ n = digit_sequence input).
Proof.
  intros Hv. pose proof Hv as [Hlen Hdig].
  eexists. split; [now apply normalizeNumber_valid|].
  set (d := digit_sequence input) in *. cbn [cc in_].
  assert (Hcc : (String.length (country_code d) <= 2)%nat).
  { unfold country_code. rewrite strip_zeros_slice.
    pose proof (extracted_prefix_length d ltac:(lia)) as Hp.
    pose proof (length_slice_from (leading_zeros (extracted_prefix d))
                                  (extracted_prefix d)) as Hl.
    pose proof (length_slice_to 1 d) as Hl1.
    unfold prefix_length in Hp.
    destruct (8 <=? String.length d)%nat;
      destruct (slice_from _ (extracted_prefix d)); lia. }
  repeat split.
  - apply country_code_truthy. lia.
  - apply truthy_length. rewrite length_slice_from. lia.
  - now apply country_code_digits.
  - now apply all_chars_slice_from.
  - intros [Hnz|Hz].
    + assert (country_code d = extracted_prefix d) as ->.
      { unfold country_code. rewrite Hnz.
        pose proof (extracted_prefix_length d ltac:(lia)) as Hp.
        destruct (extracted_prefix d); [|reflexivity].
        unfold prefix_length in Hp. destruct (8 <=? String.length d)%nat; discriminate. }
      rewrite extracted_prefix_length by lia. apply slice_split.
    + assert (country_code d = slice_to 1 d) as ->.
      { unfold country_code. now rewrite Hz. }
      rewrite length_slice_to.
      replace (Nat.min 1 (String.length d)) with 1%nat by lia.
      apply slice_split.
Qed.

Lemma normalizeNumber_reconstructs_witness :
  valid_digits (digit_sequence " +6281234567890 ")
  /\ exists n,
    normalizeNumber " +6281234567890 " = Some n
    /\ truthy (cc n) = true /\ truthy (in_ n) = true
    /\ all_chars is_digit (cc n) = true /\ all_chars is_digit (in_ n) = true
    /\ cc n +:+ in_ n = "6281234567890".
Proof.
  assert (Hv : valid_digits (digit_sequence " +6281234567890 ")).
  { split; [vm_compute; lia | reflexivity]. }
  split; [exact Hv|].
  destruct (normalizeNumber_reconstructs " +6281234567890 " Hv)
    as (n & Hn & Hc & Hi & Hdc & Hdi & Hcat).
  exists n. repeat (split; [assumption|]).
  apply Hcat. left. reflexivity.
Defined.

(** When the two-digit prefix is a zero followed by a non-zero digit, the
    stripped cc has one digit but [in] is cut after one digit of the input,
    so the non-zero digit is returned twice. *)
Example normalizeNumber_zero_then_digit :
  normalizeNumber "0612345678" = Some {| cc := "6"; in_ := "612345678" |}.
Proof. reflexivity. Qed.

End NormalizeClaims.

(** ** Response classification *)

Section ClassifyFacts.

Lemma test_alt r1 r2 s : test (Alt r1 r2) s = test r1 s || test r2 s.
Proof.
  apply eq_true_iff_eq. rewrite orb_true_iff, !test_lang. split.
  - intros (p & u & v & E & [H|H]%lang_alt_iff); [left|right]; eauto.
  - intros [(p & u & v & E & H)|(p & u & v & E & H)];
      exists p, u, v; (split; [exact E|]); apply lang_alt_iff; auto.
Qed.

Lemma toLowerCase_app s t :
  toLowerCase (s +:+ t) = toLowerCase s +:+ toLowerCase t.
Proof.
  induction s as [|a s IH]; [reflexivity|].
  rewrite app_cons. simpl. now rewrite IH, app_cons.
Qed.

Lemma toLowerCase_split s p q :
  toLowerCase s = p +:+ q ->
  exists a b, s = a +:+ b /\ toLowerCase a = p /\ toLowerCase b = q.
Proof.
  revert s. induction p as [|c p IH]; intros s E.
  - exists "", s. auto.
  - destruct s as [|x s]; [discriminate|].
    rewrite app_cons in E. simpl in E. injection E as Ec E.
    destruct (IH s E) as (a & b & -> & Ha & Hb).
    exists (String x a), b. simpl. now rewrite Ec, Ha.
Qed.

Lemma lower_char_line_terminator a :
  is_line_terminator (lower_char a) = is_line_terminator a.
Proof. destruct a as [[] [] [] [] [] [] [] []]; reflexivity. Qed.

Lemma toLowerCase_same_line s :
  all_chars (fun a => negb (is_line_terminator a)) (toLowerCase s)
  = all_chars (fun a => negb (is_line_terminator a)) s.
Proof.
  induction s as [|a s IH]; [reflexivity|].
  simpl. now rewrite lower_char_line_terminator, IH.
Qed.

Lemma all_ascii_spec P : all_ascii P = true -> forall a, P a = true.
Proof.
  intros H a. unfold all_ascii in H. rewrite List.forallb_forall in H.
  rewrite <- (ascii_nat_embedding a). apply H. apply List.in_seq.
  pose proof (nat_ascii_bounded a). lia.
Qed.

(** Lower-casing a character gives a marker character exactly when the
    character stands for it. *)
Lemma lower_char_same_letter a c :
  marker_char c = true -> (lower_char a = c <-> same_letter a c = true).
Proof.
  intros Hc.
  assert (H : implb (marker_char c)
                (Bool.eqb (Ascii.eqb (lower_char a) c) (same_letter a c)) = true).
  { revert c Hc. revert a.
    assert (Hall : all_ascii (fun a => all_ascii (fun c =>
              implb (marker_char c)
                (Bool.eqb (Ascii.eqb (lower_char a) c) (same_letter a c)))) = true)
      by (vm_compute; reflexivity).
    intros a c _. exact (all_ascii_spec _ (all_ascii_spec _ Hall a) c). }
  rewrite Hc in H. cbn [implb] in H. apply Bool.eqb_prop in H.
  rewrite <- H. symmetry. apply Ascii.eqb_eq.
Qed.

Lemma toLowerCase_spells mid w :
  all_chars marker_char w = true ->
  (toLowerCase mid = w <-> spells mid w = true).
Proof.
  revert mid. induction w as [|c w IH]; intros mid Hw.
  - destruct mid; cbn; split; intros; try reflexivity; discriminate.
  - cbn [all_chars] in Hw. apply andb_prop in Hw as [Hc Hw].
    destruct mid as [|a mid]; [cbn; split; discriminate|].
    cbn [toLowerCase spells]. rewrite andb_true_iff.
    rewrite <- (lower_char_same_letter a c Hc), <- (IH mid Hw).
    split; [intros [= -> ->]; auto | intros [-> ->]; reflexivity].
Qed.

Lemma test_lit_lower w s :
  test (Lit w) (toLowerCase s) = true
  <-> exists pre mid post, s = pre +:+ mid +:+ post /\ toLowerCase mid = w.
Proof.
  rewrite test_lang. split.
  - intros (p & u & v & E & ->%lang_lit).
    apply toLowerCase_split in E as (a & b & -> & <- & E).
    apply toLowerCase_split in E as (m & c & -> & Hm & <-). eauto.
  - intros (p & m & v & -> & <-).
    exists (toLowerCase p), (toLowerCase m), (toLowerCase v). split.
    + now rewrite !toLowerCase_app.
    + now apply lang_lit.
Qed.

(** The test of a marker on the lower-cased body finds the marker written
    in any letter case. *)
Lemma test_lit w s :
  all_chars marker_char w = true ->
  (test (Lit w) (toLowerCase s) = true <-> contains w s).
Proof.
  intros Hw. rewrite test_lit_lower. unfold contains. split.
  - intros (pre & mid & post & -> & H%(toLowerCase_spells mid w Hw)). eauto.
  - intros (pre & mid & post & -> & H%(toLowerCase_spells mid w Hw)). eauto.
Qed.

Lemma test_lit_gap_lit w1 w2 s :
  all_chars marker_char w1 = true -> all_chars marker_char w2 = true ->
  (test (Cat (Lit w1) (Cat (Star Dot) (Lit w2))) (toLowerCase s) = true
   <-> contains_then w1 w2 s).
Proof.
  intros Hw1 Hw2. rewrite test_lang. unfold contains_then, Dot. split.
  - intros (p & u & v & E & (s1 & s2 & -> & ->%lang_lit & H)%lang_cat_iff).
    apply lang_cat_iff in H as (g & s3 & -> & Hg%lang_star_class & ->%lang_lit).
    rewrite !app_assoc' in E.
    apply toLowerCase_split in E as (a & b & -> & <- & E).
    apply toLowerCase_split in E as (m1 & c & -> & H1 & E).
    apply toLowerCase_split in E as (g' & d & -> & <- & E).
    apply toLowerCase_split in E as (m2 & e & -> & H2 & <-).
    rewrite toLowerCase_same_line in Hg.
    apply (toLowerCase_spells m1 w1 Hw1) in H1.
    apply (toLowerCase_spells m2 w2 Hw2) in H2.
    exists a, m1, g', m2, e. auto.
  - intros (p & m1 & g & m2 & v & -> & H1 & H2 & Hg).
    apply (toLowerCase_spells m1 w1 Hw1) in H1.
    apply (toLowerCase_spells m2 w2 Hw2) in H2. subst w1 w2.
    exists (toLowerCase p), (toLowerCase m1 +:+ toLowerCase g +:+ toLowerCase m2),
      (toLowerCase v). split.
    + now rewrite !toLowerCase_app, !app_assoc'.
    + constructor; [now apply lang_lit|].
      constructor; [|now apply lang_lit].
      apply lang_star_class. now rewrite toLowerCase_same_line.
Qed.

Lemma re_banned_spec body :
  test re_banned (toLowerCase body) = true <-> ban_marker body.
Proof.
  unfold re_banned, ban_marker. cbn [Alts].
  rewrite !test_alt, !orb_true_iff, !test_lit by reflexivity. tauto.
Qed.

Lemma re_success_spec body :
  test re_success (toLowerCase body) = true <-> success_marker body.
Proof.
  unfold re_success, success_marker. cbn [Alts].
  rewrite !test_alt, !orb_true_iff.
  rewrite !test_lit_gap_lit, !test_lit by reflexivity. tauto.
Qed.

Lemma re_suspicious_spec statusCode body :
  (statusCode >=? 400) && (statusCode <? 500)
  && test re_suspicious (toLowerCase body) = true
  <-> suspicious_4xx statusCode body.
Proof.
  unfold re_suspicious, suspicious_4xx. cbn [Alts].
  rewrite !andb_true_iff, !test_alt, !orb_true_iff.
  rewrite !test_lit by reflexivity.
  rewrite Z.geb_le, Z.ltb_lt. tauto.
Qed.

Lemma or_else_empty s : or_else s "" = s.
Proof. now destruct s. Qed.

Lemma bool_false_not (b : bool) (P : Prop) : (b = true <-> P) -> b = false -> ~ P.
Proof. intros H E HP. apply H in HP. congruence. Qed.

(** The verdict computed from a response follows the four ordered rules. *)
Lemma classify_classified statusCode text :
  exists b,
    classify statusCode text = Verdict b text statusCode
    /\ classified statusCode text (if b then Banned else NotBanned).
Proof.
  unfold classify. rewrite or_else_empty.
  set (low := toLowerCase text).
  destruct (test re_banned low) eqn:E1.
  { exists true. split; [reflexivity|]. apply rule_1. now apply re_banned_spec. }
  pose proof (bool_false_not _ _ (re_banned_spec text) E1) as N1.
  destruct (test re_success low) eqn:E2.
  { exists false. split; [reflexivity|]. apply rule_2; [exact N1|].
    now apply re_success_spec. }
  pose proof (bool_false_not _ _ (re_success_spec text) E2) as N2.
  destruct ((statusCode >=? 400) && (statusCode <? 500) && test re_suspicious low) eqn:E3.
  { exists true. split; [reflexivity|]. apply rule_3; auto.
    now apply re_suspicious_spec. }
  pose proof (bool_false_not _ _ (re_suspicious_spec statusCode text) E3) as N3.
  exists false. split; [reflexivity|]. now apply rule_4.
Qed.

(** C2: for every status code and body the verdict follows the four rules
    in order, the markers being looked for in any letter case (a body in
    capitals or mixed case is classified like its lower-case form); the four
    sample responses of the
    specification are classified as it says, and a status-500 response
    without a ban marker is never reported as banned. *)
Theorem classify_rules :
  (forall statusCode text, exists b,
      classify statusCode text = Verdict b text statusCode
      /\ classified statusCode text (if b then Banned else NotBanned))
  /\ outcome_of (classify 200 "Your account has been banned") = Some Banned
  /\ outcome_of (classify 200 lit_status_ok) = Some NotBanned
  /\ outcome_of (classify 403 "forbidden") = Some Banned
  /\ outcome_of (classify 500 "Internal Server Error") = Some NotBanned
  /\ outcome_of (classify 200 "Your account has been BANNED") = Some Banned
  /\ outcome_of (classify 200 "Code: 17, result OK") = Some NotBanned
  /\ outcome_of (classify 401 "Unauthorized") = Some Banned
  /\ ban_marker "Account Suspended"
  /\ (forall text, ~ ban_marker text ->
        outcome_of (classify 500 text) = Some NotBanned).
Proof.
  split; [exact classify_classified|].
  repeat (split; [reflexivity|]).
  split.
  { right. right. left. exists "", "Account Suspended", "". split; reflexivity. }
  intros text N1. unfold classify. rewrite or_else_empty.
  destruct (test re_banned (toLowerCase text)) eqn:E1.
  { exfalso. apply N1. now apply re_banned_spec. }
  destruct (test re_success (toLowerCase text)); [reflexivity|].
  reflexivity.
Qed.

Lemma classify_rules_witness :
  ~ ban_marker "Bad Gateway"
  /\ outcome_of (classify 500 "Bad Gateway") = Some NotBanned.
Proof.
  assert (N : ~ ban_marker "Bad Gateway").
  { apply (bool_false_not _ _ (re_banned_spec _)). reflexivity. }
  split; [exact N|].
  exact (proj2 (proj2 (proj2 (proj2 (proj2 (proj2 (proj2 (proj2 (proj2
           classify_rules)))))))) "Bad Gateway" N).
Defined.

End ClassifyFacts.

(** ** The rate limiter *)

Section RateLimitFacts.
Context (cfg : Config).

Lemma allowed_opens ip t (m : gmap string RateRec) :
  opens_window m ip t ->
  allowedByRateLimit cfg ip t m
  = (true, <[ip := {| count := 1; windowStart := nowUnix t |}]> m).
Proof.
  unfold opens_window, allowedByRateLimit. destruct (m !! ip) as [rec|]; [|reflexivity].
  intros H. destruct (Z.geb_spec (nowUnix t - windowStart rec) 60); [reflexivity | lia].
Qed.

Lemma allowed_below_limit ip t (m : gmap string RateRec) c w :
  m !! ip = Some {| count := c; windowStart := w |} ->
  nowUnix t - w < 60 -> c < DEFAULT_RATE_LIMIT cfg ->
  allowedByRateLimit cfg ip t m
  = (true, <[ip := {| count := c + 1; windowStart := w |}]> m).
Proof.
  intros Hm Hw Hc. unfold allowedByRateLimit. rewrite Hm. cbn [windowStart count].
  destruct (Z.geb_spec (nowUnix t - w) 60); [lia|].
  destruct (Z.ltb_spec c (DEFAULT_RATE_LIMIT cfg)); [reflexivity | lia].
Qed.

Lemma allowed_at_limit ip t (m : gmap string RateRec) c w :
  m !! ip = Some {| count := c; windowStart := w |} ->
  nowUnix t - w < 60 -> DEFAULT_RATE_LIMIT cfg <= c ->
  allowedByRateLimit cfg ip t m = (false, m).
Proof.
  intros Hm Hw Hc. unfold allowedByRateLimit. rewrite Hm. cbn [windowStart count].
  destruct (Z.geb_spec (nowUnix t - w) 60); [lia|].
  destruct (Z.ltb_spec c (DEFAULT_RATE_LIMIT cfg)); [lia | reflexivity].
Qed.

Lemma calls_app ip ts1 ts2 (m : gmap string RateRec) :
  calls cfg ip (ts1 ++ ts2) m
  = let (bs1, m1) := calls cfg ip ts1 m in
    let (bs2, m2) := calls cfg ip ts2 m1 in
    ((bs1 ++ bs2)%list, m2).
Proof.
  revert m. induction ts1 as [|t ts1 IH]; intros m; simpl.
  - now destruct (calls cfg ip ts2 m).
  - destruct (allowedByRateLimit cfg ip t m) as [b m1]. rewrite IH.
    destruct (calls cfg ip ts1 m1) as [bs1 m2].
    now destruct (calls cfg ip ts2 m2).
Qed.

(** Calls inside the window are all allowed while the count stays within
    the limit, and each one adds one to the count. *)
Lemma calls_in_window ip w ts :
  forall (m : gmap string RateRec) c,
    m !! ip = Some {| count := c; windowStart := w |} ->
    Forall (fun t => nowUnix t - w < 60) ts ->
    c + Z.of_nat (length ts) <= DEFAULT_RATE_LIMIT cfg ->
    exists m',
      calls cfg ip ts m = (repeat true (length ts), m')
      /\ m' !! ip = Some {| count := c + Z.of_nat (length ts); windowStart := w |}.
Proof.
  induction ts as [|t ts IH]; intros m c Hm Hin Hc.
  - exists m. split; [reflexivity|]. rewrite Hm. do 2 f_equal. simpl. lia.
  - inversion Hin as [|? ? Ht Hts]; subst. cbn [length] in Hc.
    cbn [calls]. rewrite (allowed_below_limit ip t m c w Hm Ht) by lia.
    destruct (IH (<[ip := {| count := c + 1; windowStart := w |}]> m) (c + 1))
      as (m' & Hcalls & Hm'); [apply lookup_insert_eq | exact Hts | lia |].
    rewrite Hcalls. exists m'. split; [reflexivity|].
    rewrite Hm'. do 2 f_equal. cbn [length]. lia.
Qed.

End RateLimitFacts.

(** C3: with limit 30 and the 60-second window, a call that finds no
    record, or a record at least one window length old, stores
    [{count: 1, windowStart: now}] and is allowed; the 29 following calls
    inside that window are allowed as well; the 31st is refused; and once
    the window has elapsed the next call is allowed again. *)
Theorem rate_limit_window (cfg : Config) (ip : string) :
  DEFAULT_RATE_LIMIT cfg = 30 ->
  (forall (m : gmap string RateRec) t,
      opens_window m ip t ->
      allowedByRateLimit cfg ip t m
      = (true, <[ip := {| count := 1; windowStart := nowUnix t |}]> m))
  /\ (forall (m : gmap string RateRec) t0 ts t31,
        opens_window m ip t0 ->
        length ts = 29%nat ->
        Forall (in_window t0) (ts ++ [t31]) ->
        fst (calls cfg ip (t0 :: ts ++ [t31]) m) = (repeat true 30 ++ [false])%list
        /\ forall t', 60 <= nowUnix t' - nowUnix t0 ->
             fst (allowedByRateLimit cfg ip t'
                    (snd (calls cfg ip (t0 :: ts ++ [t31]) m))) = true).
Proof.
  intros Hlimit. split; [intros m t; apply allowed_opens|].
  intros m t0 ts t31 Hopen Hlen Hin.
  apply Forall_app in Hin as [Hts H31]. inversion H31 as [|? ? Ht31 _]; subst.
  cbn [calls]. rewrite (allowed_opens cfg ip t0 m Hopen).
  rewrite calls_app.
  destruct (calls_in_window cfg ip (nowUnix t0) ts
              (<[ip := {| count := 1; windowStart := nowUnix t0 |}]> m) 1)
    as (m' & Hcalls & Hm'); [apply lookup_insert_eq | exact Hts | rewrite Hlimit, Hlen; lia |].
  rewrite Hcalls. rewrite Hlen in Hm'. cbn [calls].
  rewrite (allowed_at_limit cfg ip t31 m' _ _ Hm' Ht31) by (rewrite Hlimit; lia).
  cbn [fst snd]. rewrite Hlen. split; [reflexivity|].
  intros t' Ht'. rewrite allowed_opens; [reflexivity|].
  unfold opens_window. rewrite Hm'. exact Ht'.
Qed.

Lemma rate_limit_window_witness :
  fst (calls default_config "203.0.113.7" (0 :: repeat 1000 29 ++ [59999]) ∅)
    = (repeat true 30 ++ [false])%list
  /\ fst (allowedByRateLimit default_config "203.0.113.7" 60000
            (snd (calls default_config "203.0.113.7" (0 :: repeat 1000 29 ++ [59999]) ∅)))
     = true.
Proof.
  assert (Hopen : opens_window (∅ : gmap string RateRec) "203.0.113.7" 0).
  { exact I. }
  assert (Hin : Forall (in_window 0) (repeat 1000 29 ++ [59999])).
  { vm_compute. repeat constructor. }
  destruct (proj2 (rate_limit_window default_config "203.0.113.7" eq_refl)
              ∅ 0 (repeat 1000 29) 59999 Hopen eq_refl Hin) as [H1 H2].
  split; [exact H1|]. apply H2. vm_compute. discriminate.
Defined.

(** ** The probe *)

Section ProbeFacts.
Context (cfg : Config) (ext : Externals).

Lemma doRegisterCheck_unfold numberObj proxyUrl retries st :
  doRegisterCheck cfg ext numberObj proxyUrl retries st
  = match attempt ext numberObj proxyUrl retries st with
    | (Responded statusCode text, st1) => (classify statusCode text, st1)
    | (Threw err, st1) =>
        if retries <? MAX_RETRIES cfg
        then doRegisterCheck cfg ext numberObj proxyUrl (retries + 1) (snd (random ext st1))
        else (Failed "network_error" err, st1)
    end.
Proof.
  rewrite doRegisterCheck_equation_1.
  destruct (attempt ext numberObj proxyUrl retries st) as [[statusCode text|err] st1];
    cbn; [reflexivity|].
  destruct (Z_lt_dec retries (MAX_RETRIES cfg)) as [Hlt|Hge]; cbn;
    destruct (Z.ltb_spec retries (MAX_RETRIES cfg)); try lia; reflexivity.
Qed.

(** What one attempt does to the state: four values of [Math.random()]
    are consumed and one record is appended to the log. *)
Lemma attempt_effect numberObj proxyUrl retries st :
  exists a,
    snd (attempt ext numberObj proxyUrl retries st)
    = {| rateMap := rateMap st;
         random_calls := random_calls st + 4;
         attempts := (attempts st ++ [a])%list |}
    /\ at_result a = fst (attempt ext numberObj proxyUrl retries st)
    /\ attempt_of ext proxyUrl retries (random_calls st) a.
Proof.
  unfold attempt, pickRandom, buildFormBody, random. cbn.
  eexists. split; [|split].
  - unfold push_attempt. cbn. f_equal. lia.
  - reflexivity.
  - unfold attempt_of, identity_drawn_at. cbn.
    replace (random_calls st + 1)%nat with (S (random_calls st)) by lia.
    replace (random_calls st + 2)%nat with (S (S (random_calls st))) by lia.
    repeat split. eexists. reflexivity.
Qed.

(** The function performs a run in the sense of the specification. *)
Lemma doRegisterCheck_run_aux numberObj proxyUrl :
  forall (k : nat) retries st,
    Z.to_nat (MAX_RETRIES cfg - retries) = k ->
    exists new,
      snd (doRegisterCheck cfg ext numberObj proxyUrl retries st)
      = {| rateMap := rateMap st;
           random_calls :=
             random_calls (snd (doRegisterCheck cfg ext numberObj proxyUrl retries st));
           attempts := (attempts st ++ new)%list |}
      /\ probe_run cfg ext proxyUrl retries (random_calls st) new
           (fst (doRegisterCheck cfg ext numberObj proxyUrl retries st)).
Proof.
  induction k as [|k IH]; intros retries st Hk;
    rewrite doRegisterCheck_unfold;
    destruct (attempt_effect numberObj proxyUrl retries st)
      as (a & Hst & Hres & Ha);
    destruct (attempt ext numberObj proxyUrl retries st) as [[statusCode text|err] st1];
    cbn [fst snd] in *; subst st1.
  - exists [a]. split; [reflexivity|]. now apply run_response.
  - destruct (Z.ltb_spec retries (MAX_RETRIES cfg)); [lia|].
    exists [a]. split; [reflexivity|]. apply run_exhausted; auto. lia.
  - exists [a]. split; [reflexivity|]. now apply run_response.
  - destruct (Z.ltb_spec retries (MAX_RETRIES cfg)); [|lia].
    match goal with |- context [doRegisterCheck _ _ _ _ _ ?s] => set (st2 := s) end.
    destruct (IH (retries + 1) st2 ltac:(lia)) as (new & Hlog & Hrun).
    exists (a :: new). split.
    + rewrite Hlog at 1. subst st2. cbn. now rewrite <- app_assoc.
    + eapply run_retry; eauto.
      subst st2. cbn in Hrun.
      replace (random_calls st + 5)%nat with (S (random_calls st + 4)) by lia.
      exact Hrun.
Qed.

Lemma doRegisterCheck_run numberObj proxyUrl retries st :
  exists new,
    attempts (snd (doRegisterCheck cfg ext numberObj proxyUrl retries st))
    = (attempts st ++ new)%list
    /\ rateMap (snd (doRegisterCheck cfg ext numberObj proxyUrl retries st))
       = rateMap st
    /\ probe_run cfg ext proxyUrl retries (random_calls st) new
         (fst (doRegisterCheck cfg ext numberObj proxyUrl retries st)).
Proof.
  destruct (doRegisterCheck_run_aux numberObj proxyUrl _ retries st eq_refl)
    as (new & Hst & Hrun).
  exists new. rewrite Hst at 1 2. cbn. auto.
Qed.

Lemma new_attempts_app st st' new :
  attempts st' = (attempts st ++ new)%list -> new_attempts st st' = new.
Proof. intros H. unfold new_attempts. rewrite H. apply drop_app_length. Qed.

(** The shape of a run: failures, then one last attempt that decides. *)
Lemma run_shape proxyUrl retries pos new res :
  probe_run cfg ext proxyUrl retries pos new res ->
  exists init last,
    new = (init ++ [last])%list
    /\ Forall threw init
    /\ retries + Z.of_nat (length init) <= Z.max retries (MAX_RETRIES cfg)
    /\ match at_result last with
       | Responded statusCode text => res = classify statusCode text
       | Threw err =>
           res = Failed "network_error" err
           /\ MAX_RETRIES cfg <= retries + Z.of_nat (length init)
       end.
Proof.
  induction 1 as [retries pos a statusCode text Ha Hr
                 |retries pos a err rest res Ha Hr Hlt Hrun IH
                 |retries pos a err Ha Hr Hge].
  - exists [], a. rewrite Hr. cbn. repeat split; [constructor | lia].
  - destruct IH as (init & last & -> & Hinit & Hbound & Hlast).
    exists (a :: init), last. cbn [length]. repeat split.
    + constructor; [now exists err | exact Hinit].
    + lia.
    + destruct (at_result last); [exact Hlast|].
      destruct Hlast as [-> Hm]. split; [reflexivity | lia].
  - exists [], a. rewrite Hr. cbn. repeat split; [constructor | lia | lia].
Qed.

(** Every attempt of a run goes through the run's proxy and draws its
    identity at its own position of the random sequence. *)
Lemma run_attempts proxyUrl retries pos new res :
  probe_run cfg ext proxyUrl retries pos new res ->
  forall (i : nat) a, new !! i = Some a ->
    attempt_of ext proxyUrl (retries + Z.of_nat i) (pos + 5 * i) a.
Proof.
  induction 1 as [retries pos a statusCode text Ha Hr
                 |retries pos a err rest res Ha Hr Hlt Hrun IH
                 |retries pos a err Ha Hr Hge];
    intros [|i] a' Hi; cbn in Hi; try discriminate.
  - injection Hi as <-. now rewrite Z.add_0_r, Nat.mul_0_r, Nat.add_0_r.
  - injection Hi as <-. now rewrite Z.add_0_r, Nat.mul_0_r, Nat.add_0_r.
  - specialize (IH i a' Hi).
    replace (retries + Z.of_nat (S i)) with (retries + 1 + Z.of_nat i) by lia.
    replace (pos + 5 * S i)%nat with (pos + 5 + 5 * i)%nat by lia. exact IH.
  - injection Hi as <-. now rewrite Z.add_0_r, Nat.mul_0_r, Nat.add_0_r.
Qed.

Lemma classify_verdict statusCode text :
  exists b, classify statusCode text = Verdict b text statusCode.
Proof. destruct (classify_classified statusCode text) as (b & H & _). eauto. Qed.

End ProbeFacts.

(** ** The handler *)

Section HandlerFacts.
Context (cfg : Config) (ext : Externals).

Lemma normalizeNumber_truthy input n :
  normalizeNumber input = Some n -> truthy input = true.
Proof. unfold normalizeNumber. destruct (truthy input); [reflexivity | discriminate]. Qed.

(** Either the request is turned away with an error object, or the probe
    is run on the state the rate limiter left. *)
Lemma handler_cases date_now req st :
  (~ reaches_probe cfg date_now req st
   /\ exists e m, json (fst (handler cfg ext date_now req st)) = JError e m)
  \/ (exists numberObj,
        req_method req = "POST"
        /\ fst (allowedByRateLimit cfg (client_ip req) date_now (rateMap st)) = true
        /\ normalizeNumber (requested_number req) = Some numberObj
        /\ handler cfg ext date_now req st
           = probe_and_respond cfg ext (requested_number req) numberObj
               (set_rateMap
                  (snd (allowedByRateLimit cfg (client_ip req) date_now (rateMap st)))
                  st)).
Proof.
  unfold handler, reaches_probe.
  destruct (String.eqb_spec (req_method req) "POST") as [Hm|Hm]; cbn [negb].
  2:{ left. split; [tauto | eauto]. }
  destruct (allowedByRateLimit cfg (client_ip req) date_now (rateMap st))
    as [[|] m1]; cbn [negb fst snd].
  2:{ left. split; [intros (_ & H & _); discriminate | eauto]. }
  fold (requested_number req).
  destruct (normalizeNumber (requested_number req)) as [numberObj|] eqn:Hn.
  - right. exists numberObj. rewrite (normalizeNumber_truthy _ _ Hn). cbn [negb].
    repeat split; auto.
    unfold probe_and_respond, chosen_proxy, proxy_pool, response_of.
    destruct (if (0 <? _)%nat then _ else _) as [proxyToUse st2].
    destruct (doRegisterCheck _ _ _ _ _ _) as [[b text code|e m] st3];
      [reflexivity|]. now destruct (truthy e).
  - left. split; [intros (_ & _ & n & H); discriminate|].
    destruct (truthy (requested_number req)); cbn; eauto.
Qed.

Lemma handler_probe date_now req st :
  reaches_probe cfg date_now req st ->
  exists numberObj,
    normalizeNumber (requested_number req) = Some numberObj
    /\ handler cfg ext date_now req st
       = probe_and_respond cfg ext (requested_number req) numberObj
           (set_rateMap
              (snd (allowedByRateLimit cfg (client_ip req) date_now (rateMap st)))
              st).
Proof.
  intros Hp. destruct (handler_cases date_now req st) as [[Hn _]|(n & _ & _ & H1 & H2)].
  - contradiction.
  - eauto.
Qed.

End HandlerFacts.

(** ** Retries *)

Section RetryClaims.

Lemma run_last_attempt cfg ext proxyUrl retries pos init last res :
  probe_run cfg ext proxyUrl retries pos (init ++ [last])%list res ->
  exists n, at_result last = fetch ext n (at_options last).
Proof.
  intros Hrun.
  assert (Hl : ((init ++ [last])%list) !! length init = Some last).
  { rewrite lookup_app_r by lia. now rewrite Nat.sub_diag. }
  destruct (run_attempts cfg ext _ _ _ _ _ Hrun _ _ Hl) as (_ & _ & _ & H). exact H.
Qed.

(** When every call of the transport fails, a probe started with the
    counter at 0 makes [MAX_RETRIES + 1] attempts, and one attempt when
    that is less than one, and reports ["network_error"]. *)
Lemma dead_transport_run cfg ext numberObj proxyUrl st :
  always_fails ext ->
  (exists message,
      fst (doRegisterCheck cfg ext numberObj proxyUrl 0 st)
      = Failed "network_error" message)
  /\ Z.of_nat (length (new_attempts st
                         (snd (doRegisterCheck cfg ext numberObj proxyUrl 0 st))))
     = Z.max 1 (MAX_RETRIES cfg + 1)
  /\ forall (i : nat) a,
       new_attempts st (snd (doRegisterCheck cfg ext numberObj proxyUrl 0 st)) !! i
       = Some a ->
       at_retries a = Z.of_nat i.
Proof.
  intros Hdead.
  destruct (doRegisterCheck_run cfg ext numberObj proxyUrl 0 st)
    as (new & Hlog & _ & Hrun).
  rewrite (new_attempts_app _ _ _ Hlog).
  pose proof (run_attempts cfg ext _ _ _ _ _ Hrun) as Hatt.
  destruct (run_shape cfg ext _ _ _ _ _ Hrun)
    as (init & last & -> & Hinit & Hbound & Hlast).
  destruct (run_last_attempt _ _ _ _ _ _ _ _ Hrun) as (n & Hn).
  destruct (Hdead n (at_options last)) as (err & Herr).
  rewrite Hn, Herr in Hlast. destruct Hlast as [Hres Hge].
  split; [eauto|]. split.
  - rewrite length_app. cbn [length]. lia.
  - intros i a Hi. destruct (Hatt i a Hi) as (_ & Hr & _). lia.
Qed.

(** With a negative [MAX_RETRIES] the counter is never below it: the probe
    makes a single attempt. *)
Lemma negative_max_retries_single_attempt cfg ext numberObj proxyUrl st :
  MAX_RETRIES cfg < 0 ->
  length (new_attempts st (snd (doRegisterCheck cfg ext numberObj proxyUrl 0 st)))
  = 1%nat.
Proof.
  intros Hneg.
  destruct (doRegisterCheck_run cfg ext numberObj proxyUrl 0 st)
    as (new & Hlog & _ & Hrun).
  rewrite (new_attempts_app _ _ _ Hlog).
  destruct (run_shape cfg ext _ _ _ _ _ Hrun) as (init & final & -> & _ & Hbound & _).
  rewrite length_app. cbn [length]. lia.
Qed.

Lemma dead_world_always_fails : always_fails dead_world.
Proof. intros n options. exists "timeout". reflexivity. Qed.

(** C4, as stated, fails: [MAX_RETRIES] is whatever [parseInt] reads from
    the environment, and with [MAX_RETRIES = -1] a transport that always
    times out is tried once, which is not [MAX_RETRIES + 1 = 0] times. *)
Lemma probe_exhausts_retries_counterexample :
  always_fails dead_world
  /\ MAX_RETRIES config_negative_retries + 1 = 0
  /\ length (new_attempts initial_state
               (snd (doRegisterCheck config_negative_retries dead_world
                       sample_number None 0 initial_state))) = 1%nat
  /\ ~ (forall cfg ext, always_fails ext ->
        forall numberObj proxyUrl st,
          Z.of_nat (length (new_attempts st
                              (snd (doRegisterCheck cfg ext numberObj proxyUrl 0 st))))
          = MAX_RETRIES cfg + 1).
Proof.
  split; [exact dead_world_always_fails|].
  split; [reflexivity|]. split; [reflexivity|].
  intros H.
  specialize (H config_negative_retries dead_world dead_world_always_fails
                sample_number None initial_state).
  vm_compute in H. discriminate.
Qed.

(** C4 (amended): when the transport fails on every attempt, the probe
    makes exactly [MAX_RETRIES + 1] attempts if [MAX_RETRIES] is not
    negative and exactly one attempt otherwise, that is
    [max 1 (MAX_RETRIES + 1)] attempts for every value of [MAX_RETRIES];
    the attempt number [i] carries the counter [i]; the probe returns the
    failure ["network_error"], and the handler answers 502 with that
    failure as its details. *)
Theorem probe_exhausts_retries (cfg : Config) (ext : Externals) :
  always_fails ext ->
  (forall numberObj proxyUrl st,
      (exists message,
          fst (doRegisterCheck cfg ext numberObj proxyUrl 0 st)
          = Failed "network_error" message)
      /\ Z.of_nat (length (new_attempts st
                             (snd (doRegisterCheck cfg ext numberObj proxyUrl 0 st))))
         = Z.max 1 (MAX_RETRIES cfg + 1)
      /\ (0 <= MAX_RETRIES cfg ->
          Z.of_nat (length (new_attempts st
                              (snd (doRegisterCheck cfg ext numberObj proxyUrl 0 st))))
          = MAX_RETRIES cfg + 1)
      /\ (MAX_RETRIES cfg < 0 ->
          length (new_attempts st
                    (snd (doRegisterCheck cfg ext numberObj proxyUrl 0 st)))
          = 1%nat)
      /\ forall (i : nat) a,
           new_attempts st (snd (doRegisterCheck cfg ext numberObj proxyUrl 0 st)) !! i
           = Some a ->
           at_retries a = Z.of_nat i)
  /\ (forall date_now req st,
        reaches_probe cfg date_now req st ->
        exists message,
          fst (handler cfg ext date_now req st)
          = {| status := 502;
               json := JFailed "proxy_or_network_failed"
                               (Failed "network_error" message) |}).
Proof.
  intros Hdead. split.
  - intros numberObj proxyUrl st.
    destruct (dead_transport_run cfg ext numberObj proxyUrl st Hdead)
      as (Hres & Hlen & Hcount).
    split; [exact Hres|]. split; [exact Hlen|].
    split; [intros Hmax; rewrite Hlen; lia|].
    split; [intros Hneg; lia | exact Hcount].
  - intros date_now req st Hp.
    destruct (handler_probe cfg ext date_now req st Hp) as (n & _ & ->).
    unfold probe_and_respond.
    destruct (chosen_proxy cfg ext _) as [proxyToUse st2].
    destruct (dead_transport_run cfg ext {| cc := cc n; in_ := in_ n |} proxyToUse st2
                Hdead) as ((message & Hres) & _).
    destruct (doRegisterCheck _ _ _ _ _ _) as [result st3]. cbn [fst] in *.
    subst result. exists message. reflexivity.
Qed.

Lemma probe_exhausts_retries_witness :
  always_fails dead_world
  /\ (exists message,
      fst (doRegisterCheck default_config dead_world sample_number None 0 initial_state)
      = Failed "network_error" message)
  /\ Z.of_nat (length (new_attempts initial_state
        (snd (doRegisterCheck default_config dead_world sample_number None 0
                initial_state)))) = 3
  /\ Z.of_nat (length (new_attempts initial_state
        (snd (doRegisterCheck config_negative_retries dead_world sample_number None 0
                initial_state)))) = 1
  /\ exists message,
       fst (handler default_config dead_world 0 sample_request initial_state)
       = {| status := 502;
            json := JFailed "proxy_or_network_failed"
                            (Failed "network_error" message) |}.
Proof.
  assert (Hdead : always_fails dead_world).
  { intros n options. exists "timeout". reflexivity. }
  assert (Hp : reaches_probe default_config 0 sample_request initial_state).
  { split; [reflexivity|]. split; [reflexivity|]. eexists. reflexivity. }
  destruct (probe_exhausts_retries default_config dead_world Hdead) as [H1 H2].
  destruct (H1 sample_number None initial_state) as (Hres & Hlen & _).
  destruct (proj1 (probe_exhausts_retries config_negative_retries dead_world Hdead)
              sample_number None initial_state) as (_ & Hneg & _).
  split; [exact Hdead|]. split; [exact Hres|]. split; [exact Hlen|].
  split; [exact Hneg|].
  exact (H2 0 sample_request initial_state Hp).
Defined.

(** C5: in a probe, an attempt that receives a response is the last one,
    whatever the status code, and the probe returns the classification of
    that response; every attempt before the last one threw; a failure is
    returned only if every attempt threw and the counter reached
    [MAX_RETRIES]. *)
Theorem response_ends_probe (cfg : Config) (ext : Externals)
    (numberObj : NumberObj) (proxyUrl : option string) (st : State) :
  (forall (i : nat) a statusCode text,
      new_attempts st (snd (doRegisterCheck cfg ext numberObj proxyUrl 0 st)) !! i
      = Some a ->
      at_result a = Responded statusCode text ->
      S i = length (new_attempts st
                      (snd (doRegisterCheck cfg ext numberObj proxyUrl 0 st)))
      /\ fst (doRegisterCheck cfg ext numberObj proxyUrl 0 st)
         = classify statusCode text)
  /\ (forall (i : nat) a,
        new_attempts st (snd (doRegisterCheck cfg ext numberObj proxyUrl 0 st)) !! i
        = Some a ->
        (S i < length (new_attempts st
                         (snd (doRegisterCheck cfg ext numberObj proxyUrl 0 st))))%nat ->
        threw a)
  /\ (forall error message,
        fst (doRegisterCheck cfg ext numberObj proxyUrl 0 st) = Failed error message ->
        error = "network_error"
        /\ Forall threw (new_attempts st
                           (snd (doRegisterCheck cfg ext numberObj proxyUrl 0 st)))
        /\ MAX_RETRIES cfg
           < Z.of_nat (length (new_attempts st
                                 (snd (doRegisterCheck cfg ext numberObj proxyUrl 0 st))))).
Proof.
  destruct (doRegisterCheck_run cfg ext numberObj proxyUrl 0 st)
    as (new & Hlog & _ & Hrun).
  rewrite (new_attempts_app _ _ _ Hlog).
  destruct (run_shape cfg ext _ _ _ _ _ Hrun)
    as (init & last & -> & Hinit & Hbound & Hlast).
  assert (Hbefore : forall (i : nat) a,
             ((init ++ [last])%list) !! i = Some a -> (i < length init)%nat -> threw a).
  { intros i a Hi Hlt. rewrite lookup_app_l in Hi by exact Hlt.
    rewrite Forall_lookup in Hinit. eauto. }
  rewrite length_app. cbn [length]. split; [|split].
  - intros i a statusCode text Hi Hr.
    destruct (Nat.lt_ge_cases i (length init)) as [Hlt|Hge].
    + destruct (Hbefore i a Hi Hlt) as (err & Herr). congruence.
    + pose proof (lookup_lt_Some _ _ _ Hi) as Hlen.
      rewrite length_app in Hlen. cbn [length] in Hlen.
      assert (i = length init) as -> by lia.
      rewrite lookup_app_r, Nat.sub_diag in Hi by lia. injection Hi as ->.
      rewrite Hr in Hlast. split; [lia | exact Hlast].
  - intros i a Hi Hlt. apply (Hbefore i a Hi). lia.
  - intros error message Hres. destruct (at_result last) as [statusCode text|err] eqn:Hr.
    + destruct (classify_verdict statusCode text) as (b & Hb). congruence.
    + destruct Hlast as [Hf Hge]. rewrite Hf in Hres. injection Hres as <- <-.
      split; [reflexivity|]. split; [|lia].
      apply Forall_app. split; [exact Hinit|].
      constructor; [now exists err | constructor].
Qed.

Lemma response_ends_probe_witness :
  exists a,
    new_attempts initial_state
      (snd (doRegisterCheck default_config flaky_world sample_number None 0
              initial_state)) !! 1%nat = Some a
    /\ at_result a = Responded 503 "Service Unavailable"
    /\ length (new_attempts initial_state
                 (snd (doRegisterCheck default_config flaky_world sample_number None 0
                         initial_state))) = 2%nat
    /\ fst (doRegisterCheck default_config flaky_world sample_number None 0
              initial_state)
       = classify 503 "Service Unavailable".
Proof.
  destruct (new_attempts initial_state
      (snd (doRegisterCheck default_config flaky_world sample_number None 0
              initial_state)) !! 1%nat) as [a|] eqn:Hi; [|vm_compute in Hi; discriminate].
  assert (Hr : at_result a = Responded 503 "Service Unavailable").
  { pose proof Hi as Hc. vm_compute in Hc. injection Hc as <-. reflexivity. }
  destruct (proj1 (response_ends_probe default_config flaky_world sample_number None
                     initial_state) 1%nat a 503 "Service Unavailable" Hi Hr)
    as [Hlen Hres].
  exists a. split; [reflexivity|]. split; [exact Hr|].
  split; [symmetry; exact Hlen | exact Hres].
Defined.

End RetryClaims.

(** ** Proxy and identity *)

Section IdentityClaims.

(** A draw that selects entry [k] gives the index [k]. *)
Lemma lands_in_floor_scaled u n k : lands_in u n k -> floor_scaled u n = k.
Proof.
  intros [Hlo Hhi]. unfold floor_scaled.
  assert (H1 : k <= Qfloor (u * inject_Z n)).
  { rewrite <- (Qfloor_Z k). now apply Qfloor_resp_le. }
  assert (H2 : Qfloor (u * inject_Z n) < k + 1).
  { rewrite Zlt_Qlt. eapply Qle_lt_trans; [apply Qfloor_le|].
    eapply Qle_lt_trans; [exact Hhi|].
    rewrite <- (Qplus_0_r (inject_Z (k + 1))) at 2.
    unfold Qminus. apply Qplus_lt_r. reflexivity. }
  lia.
Qed.

Lemma floor_scaled_same_draw u u' n :
  (u == u')%Q -> floor_scaled u n = floor_scaled u' n.
Proof. intros H. unfold floor_scaled. now rewrite H. Qed.

Lemma identity_same_draws ext pos a ext' pos' a' :
  identity_drawn_at ext pos a -> identity_drawn_at ext' pos' a' ->
  same_draws ext pos ext' pos' ->
  at_ua a = at_ua a' /\ at_mcc a = at_mcc a' /\ at_mnc a = at_mnc a'.
Proof.
  intros (Hu & Hc & Hn) (Hu' & Hc' & Hn') H.
  pose proof (H 0%nat ltac:(lia)) as H0.
  pose proof (H 1%nat ltac:(lia)) as H1.
  pose proof (H 2%nat ltac:(lia)) as H2.
  rewrite !Nat.add_0_r in H0.
  rewrite Hu, Hc, Hn, Hu', Hc', Hn'.
  rewrite (floor_scaled_same_draw _ _ 4 H0), (floor_scaled_same_draw _ _ 7 H1),
    (floor_scaled_same_draw _ _ 6 H2). auto.
Qed.

(** C6: every attempt of a probe, retries included, is made with the
    proxy URL the probe was started with and carries its own counter,
    while its user agent, mcc and mnc are sampled anew from three values
    of [Math.random()] of its own, those at positions [5 i], [5 i + 1]
    and [5 i + 2] after the start of the probe for attempt [i]: a value
    that selects entry [k] of the list gives that entry, and the three
    values are all the identity depends on (an attempt of any probe, in
    any world, whose three values are the same carries the same
    identity). *)
Theorem proxy_fixed_identity_fresh (cfg : Config) (ext : Externals)
    (numberObj : NumberObj) (proxyUrl : option string) (st : State)
    (i : nat) (a : Attempt) :
  new_attempts st (snd (doRegisterCheck cfg ext numberObj proxyUrl 0 st)) !! i = Some a ->
  at_proxyUrl a = proxyUrl
  /\ at_retries a = Z.of_nat i
  /\ (forall k,
        lands_in (Math_random ext (random_calls st + 5 * i))
                 (Z.of_nat (length UA_LIST)) k ->
        at_ua a = array_get UA_LIST k)
  /\ (forall k,
        lands_in (Math_random ext (random_calls st + 5 * i + 1))
                 (Z.of_nat (length MCC_OPTIONS)) k ->
        at_mcc a = array_get MCC_OPTIONS k)
  /\ (forall k,
        lands_in (Math_random ext (random_calls st + 5 * i + 2))
                 (Z.of_nat (length MNC_OPTIONS)) k ->
        at_mnc a = array_get MNC_OPTIONS k)
  /\ (forall cfg' ext' numberObj' proxyUrl' st' (i' : nat) a',
        new_attempts st'
          (snd (doRegisterCheck cfg' ext' numberObj' proxyUrl' 0 st')) !! i' = Some a' ->
        same_draws ext (random_calls st + 5 * i) ext' (random_calls st' + 5 * i') ->
        at_ua a = at_ua a' /\ at_mcc a = at_mcc a' /\ at_mnc a = at_mnc a').
Proof.
  destruct (doRegisterCheck_run cfg ext numberObj proxyUrl 0 st)
    as (new & Hlog & _ & Hrun).
  rewrite (new_attempts_app _ _ _ Hlog). intros Hi.
  destruct (run_attempts cfg ext _ _ _ _ _ Hrun i a Hi) as (Hp & Hr & Hid & _).
  split; [exact Hp|]. split; [lia|].
  pose proof Hid as (Hu & Hc & Hn).
  split; [|split; [|split]].
  - intros k Hk. rewrite Hu. f_equal. exact (lands_in_floor_scaled _ _ _ Hk).
  - intros k Hk. rewrite Hc. f_equal. exact (lands_in_floor_scaled _ _ _ Hk).
  - intros k Hk. rewrite Hn. f_equal. exact (lands_in_floor_scaled _ _ _ Hk).
  - intros cfg' ext' numberObj' proxyUrl' st' i' a' Hi' Hsame.
    destruct (doRegisterCheck_run cfg' ext' numberObj' proxyUrl' 0 st')
      as (new' & Hlog' & _ & Hrun').
    rewrite (new_attempts_app _ _ _ Hlog') in Hi'.
    destruct (run_attempts cfg' ext' _ _ _ _ _ Hrun' i' a' Hi') as (_ & _ & Hid' & _).
    exact (identity_same_draws _ _ _ _ _ _ Hid Hid' Hsame).
Qed.

(** A probe through a proxy whose first attempt times out: the retry goes
    through the same proxy, and the draws 0.5, 0.6 and 0.7 give it the
    third user agent, the fifth mcc and the fifth mnc, where the first
    attempt, with the draws 0, 0.1 and 0.2, had the first user agent, the
    first mcc and the second mnc. *)
Lemma proxy_fixed_identity_fresh_witness :
  exists a0 a1,
    new_attempts initial_state
      (snd (doRegisterCheck default_config flaky_world sample_number
              (Some "http://10.0.0.8:8000") 0 initial_state)) !! 0%nat = Some a0
    /\ new_attempts initial_state
         (snd (doRegisterCheck default_config flaky_world sample_number
                 (Some "http://10.0.0.8:8000") 0 initial_state)) !! 1%nat = Some a1
    /\ at_proxyUrl a0 = Some "http://10.0.0.8:8000"
    /\ at_proxyUrl a1 = Some "http://10.0.0.8:8000"
    /\ at_retries a0 = 0 /\ at_retries a1 = 1
    /\ at_ua a0 = Some "WhatsApp/2.23.8.76 Android/13 Device/Pixel"
    /\ at_mcc a0 = Some "510" /\ at_mnc a0 = Some "01"
    /\ at_ua a1 = Some "WhatsApp/2.21.23 Android/11 Device/Samsung"
    /\ at_mcc a1 = Some "310" /\ at_mnc a1 = Some "70".
Proof.
  destruct (new_attempts initial_state
      (snd (doRegisterCheck default_config flaky_world sample_number
              (Some "http://10.0.0.8:8000") 0 initial_state)) !! 0%nat)
    as [a0|] eqn:Hi0; [|vm_compute in Hi0; discriminate].
  destruct (new_attempts initial_state
      (snd (doRegisterCheck default_config flaky_world sample_number
              (Some "http://10.0.0.8:8000") 0 initial_state)) !! 1%nat)
    as [a1|] eqn:Hi1; [|vm_compute in Hi1; discriminate].
  destruct (proxy_fixed_identity_fresh default_config flaky_world sample_number
              (Some "http://10.0.0.8:8000") initial_state 0 a0 Hi0)
    as (Hp0 & Hr0 & Hu0 & Hc0 & Hn0 & _).
  destruct (proxy_fixed_identity_fresh default_config flaky_world sample_number
              (Some "http://10.0.0.8:8000") initial_state 1 a1 Hi1)
    as (Hp1 & Hr1 & Hu1 & Hc1 & Hn1 & _).
  assert (L : forall u n k,
             Qle_bool (inject_Z k) (u * inject_Z n)
             && Qle_bool (u * inject_Z n) (inject_Z (k + 1) - rounding_margin) = true ->
             lands_in u n k).
  { intros u n k H. apply andb_prop in H as [H1 H2].
    split; now apply Qle_bool_iff. }
  exists a0, a1.
  split; [reflexivity|]. split; [reflexivity|].
  split; [exact Hp0|]. split; [exact Hp1|].
  split; [exact Hr0|]. split; [exact Hr1|].
  split; [rewrite (Hu0 0); [reflexivity | apply L; reflexivity]|].
  split; [rewrite (Hc0 0); [reflexivity | apply L; reflexivity]|].
  split; [rewrite (Hn0 1); [reflexivity | apply L; reflexivity]|].
  split; [rewrite (Hu1 2); [reflexivity | apply L; reflexivity]|].
  split; [rewrite (Hc1 4); [reflexivity | apply L; reflexivity]|].
  rewrite (Hn1 4); [reflexivity | apply L; reflexivity].
Defined.

End IdentityClaims.

(** ** Responses of the handler *)

Section ResponseClaims.

Lemma floor_scaled_range u n :
  (0 <= u)%Q -> (u < 1)%Q -> 0 < n -> 0 <= floor_scaled u n < n.
Proof.
  intros H0 H1 Hn. unfold floor_scaled. split.
  - change 0 with (Qfloor 0). apply Qfloor_resp_le.
    apply Qmult_le_0_compat; [exact H0|].
    change 0%Q with (inject_Z 0). rewrite <- Zle_Qle. lia.
  - rewrite Zlt_Qlt. eapply Qle_lt_trans; [apply Qfloor_le|].
    rewrite <- (Qmult_1_l (inject_Z n)) at 2.
    apply Qmult_lt_compat_r; [|exact H1].
    change 0%Q with (inject_Z 0). rewrite <- Zlt_Qlt. lia.
Qed.

(** The proxy chosen for a probe: none when the pool is empty, otherwise
    an entry of the pool (a non-empty string) whenever the random index is
    in range; choosing does not touch the log or the rate map. *)
Lemma chosen_proxy_spec cfg ext st :
  attempts (snd (chosen_proxy cfg ext st)) = attempts st
  /\ rateMap (snd (chosen_proxy cfg ext st)) = rateMap st
  /\ opt_truthy (fst (chosen_proxy cfg ext st))
     = match fst (chosen_proxy cfg ext st) with Some _ => true | None => false end
  /\ (proxy_pool cfg = [] -> fst (chosen_proxy cfg ext st) = None)
  /\ (unit_random ext -> proxy_pool cfg <> [] ->
      exists p, fst (chosen_proxy cfg ext st) = Some p /\ In p (proxy_pool cfg)).
Proof.
  unfold chosen_proxy.
  destruct (proxy_pool cfg) as [|p0 pool] eqn:Hpool; cbn [length Nat.ltb Nat.leb].
  { cbn. repeat split; auto. intros _ H. congruence. }
  rewrite <- Hpool. unfold pickRandom, random. cbn [fst snd].
  split; [reflexivity|]. split; [reflexivity|]. split; [|split].
  - unfold array_get. destruct (_ <? 0); [reflexivity|].
    destruct (nth_error _ _) as [p|] eqn:Hp; [|reflexivity].
    apply nth_error_In in Hp. unfold proxy_pool in Hp.
    apply filter_In in Hp as [_ Hp]. exact Hp.
  - rewrite Hpool. discriminate.
  - intros Hrnd _. destruct (Hrnd (random_calls st)) as [H0 H1].
    pose proof (floor_scaled_range _ (Z.of_nat (length (proxy_pool cfg))) H0 H1) as Hr.
    rewrite Hpool in Hr at 1. cbn [length] in Hr. specialize (Hr ltac:(lia)).
    unfold array_get. destruct (Z.ltb_spec (floor_scaled (Math_random ext (random_calls st))
                                  (Z.of_nat (length (proxy_pool cfg)))) 0); [lia|].
    destruct (nth_error (proxy_pool cfg) _) as [p|] eqn:Hp.
    + exists p. split; [reflexivity|]. now apply nth_error_In in Hp.
    + apply nth_error_None in Hp. lia.
Qed.

(** What a success response says about the probe that produced it. *)
Lemma success_response cfg ext date_now req st r :
  json (fst (handler cfg ext date_now req st)) = JResult r ->
  exists numberObj proxyToUse st2 new final b code text,
    normalizeNumber (requested_number req) = Some numberObj
    /\ (proxyToUse, st2)
       = chosen_proxy cfg ext
           (set_rateMap
              (snd (allowedByRateLimit cfg (client_ip req) date_now (rateMap st))) st)
    /\ attempts (snd (handler cfg ext date_now req st))
       = (attempts st ++ new ++ [final])%list
    /\ Forall (fun a => at_proxyUrl a = proxyToUse) (new ++ [final])
    /\ at_result final = Responded code text
    /\ classify code text = Verdict b text code
    /\ fst (handler cfg ext date_now req st)
       = response_of cfg (requested_number req) numberObj proxyToUse
           (Verdict b text code).
Proof.
  intros Hj.
  destruct (handler_cases cfg ext date_now req st)
    as [(_ & e & m & He)|(n & _ & _ & Hn & Hh)]; [congruence|].
  rewrite Hh in Hj |- *. unfold probe_and_respond in *.
  pose proof (chosen_proxy_spec cfg ext
    (set_rateMap (snd (allowedByRateLimit cfg (client_ip req) date_now (rateMap st))) st))
    as (Hatt & _).
  destruct (chosen_proxy cfg ext _) as [proxyToUse st2] eqn:Hc. cbn [fst snd] in Hatt.
  destruct (doRegisterCheck_run cfg ext {| cc := cc n; in_ := in_ n |} proxyToUse 0 st2)
    as (new & Hlog & _ & Hrun).
  pose proof (run_attempts cfg ext _ _ _ _ _ Hrun) as Hall.
  destruct (run_shape cfg ext _ _ _ _ _ Hrun)
    as (init & final & -> & _ & _ & Hlast).
  destruct (doRegisterCheck _ _ _ _ _ _) as [result st3]. cbn [fst snd] in *.
  destruct (at_result final) as [code text|err] eqn:Hr.
  - destruct (classify_verdict code text) as (b & Hb). rewrite Hb in Hlast. subst result.
    exists n, proxyToUse, st2, init, final, b, code, text.
    repeat split; auto.
    + rewrite Hlog, Hatt. reflexivity.
    + apply Forall_lookup. intros i a Hi. now destruct (Hall i a Hi).
  - destruct Hlast as [-> _]. cbn in Hj. discriminate.
Qed.

(** C8: a success response has status 200 and reports the status code of
    the last upstream response; its [raw] field is that response's body
    when [EXPOSE_RAW] is ["1"], and undefined when the flag is absent or has
    any other value. *)
Theorem raw_only_when_enabled (cfg : Config) (ext : Externals) (date_now : Z)
    (req : HttpRequest) (st : State) (r : ResultJson) :
  json (fst (handler cfg ext date_now req st)) = JResult r ->
  status (fst (handler cfg ext date_now req st)) = 200
  /\ exists a code text,
       last (attempts (snd (handler cfg ext date_now req st))) = Some a
       /\ at_result a = Responded code text
       /\ statusCode r = Some code
       /\ (raw_enabled cfg -> raw r = Some text)
       /\ (~ raw_enabled cfg -> raw r = None).
Proof.
  intros Hj.
  destruct (success_response cfg ext date_now req st r Hj)
    as (n & p & st2 & new & final & b & code & text & _ & _ & Hlog & _ & Hr & _ & Hresp).
  rewrite Hresp in Hj |- *. cbn in Hj. injection Hj as <-. cbn [status statusCode raw].
  split; [reflexivity|]. exists final, code, text.
  split; [rewrite Hlog, app_assoc; apply last_snoc|].
  split; [exact Hr|]. split; [reflexivity|].
  unfold raw_enabled. destruct (EXPOSE_RAW cfg) as [v|].
  - destruct (String.eqb_spec v "1") as [->|Hv]; split; intros H;
      try reflexivity; congruence.
  - split; intros H; [discriminate | reflexivity].
Qed.

Lemma raw_only_when_enabled_witness :
  exists r,
    json (fst (handler config_exposing_raw banned_world 0 sample_request initial_state))
    = JResult r
    /\ raw r = Some "Your account has been banned"
    /\ exists r',
         json (fst (handler config_with_proxies banned_world 0 sample_request
                      initial_state)) = JResult r'
         /\ raw r' = None.
Proof.
  destruct (json (fst (handler config_exposing_raw banned_world 0 sample_request
                         initial_state))) as [| |r] eqn:Hj;
    try (vm_compute in Hj; discriminate).
  destruct (json (fst (handler config_with_proxies banned_world 0 sample_request
                         initial_state))) as [| |r'] eqn:Hj';
    try (vm_compute in Hj'; discriminate).
  destruct (raw_only_when_enabled _ _ _ _ _ _ Hj) as (_ & a & code & text & Ha & Hr & _ & Hon & _).
  destruct (raw_only_when_enabled _ _ _ _ _ _ Hj') as (_ & _ & _ & _ & _ & _ & _ & _ & Hoff).
  exists r. split; [reflexivity|]. split.
  - rewrite (Hon eq_refl). vm_compute in Ha. injection Ha as <-.
    vm_compute in Hr. injection Hr as _ <-. reflexivity.
  - exists r'. split; [reflexivity|]. apply Hoff. discriminate.
Defined.

(** C9: a request whose method is not POST is answered 405 and the state
    is returned as it was: the rate map has no new record and no changed
    count, no random value is drawn and no upstream call is made.  The
    first version of the endpoint answers 405 as well, without calling
    upstream. *)
Theorem non_post_rejected :
  (forall cfg ext date_now req st,
      req_method req <> "POST" ->
      handler cfg ext date_now req st
      = ({| status := 405; json := JError "Method not allowed" None |}, st)
      /\ rateMap (snd (handler cfg ext date_now req st)) = rateMap st)
  /\ (forall fetch req st,
        BasicCheckBan.req_method req <> "POST" ->
        BasicCheckBan.handler fetch req st
        = (BasicCheckBan.Returned
             {| BasicCheckBan.status := 405;
                BasicCheckBan.json := BasicCheckBan.JError "Method not allowed" |}, st)).
Proof.
  split.
  - intros cfg ext date_now req st Hm. unfold handler.
    destruct (String.eqb_spec (req_method req) "POST"); [contradiction|]. auto.
  - intros fetch req st Hm. unfold BasicCheckBan.handler.
    destruct (String.eqb_spec (BasicCheckBan.req_method req) "POST"); [contradiction|].
    reflexivity.
Qed.

Lemma non_post_rejected_witness :
  (handler default_config banned_world 0 sample_get_request initial_state
   = ({| status := 405; json := JError "Method not allowed" None |}, initial_state)
   /\ rateMap (snd (handler default_config banned_world 0 sample_get_request
                      initial_state)) = ∅)
  /\ BasicCheckBan.handler (fun _ _ => Responded 200 "ok")
       {| BasicCheckBan.req_method := "GET"; BasicCheckBan.req_body := None |}
       {| BasicCheckBan.calls := [] |}
     = (BasicCheckBan.Returned
          {| BasicCheckBan.status := 405;
             BasicCheckBan.json := BasicCheckBan.JError "Method not allowed" |},
        {| BasicCheckBan.calls := [] |}).
Proof.
  assert (Hm : req_method sample_get_request <> "POST") by discriminate.
  split.
  - exact (proj1 non_post_rejected default_config banned_world 0 sample_get_request
             initial_state Hm).
  - apply (proj2 non_post_rejected). discriminate.
Defined.

(** C10: in a success response the [proxy] field is ["used"] when the
    attempts went through a proxy and ["none"] when they did not; it is
    ["none"] when the pool is empty and, the values of [Math.random()]
    lying in [0, 1), ["used"] when it is not; so two configurations with
    non-empty pools give the same field, whatever URLs they hold.  The
    other fields are the requested number, its normal form, and the
    status, body and classification of the last upstream response. *)
Theorem proxy_field_hides_url :
  (forall cfg ext date_now req st r,
      json (fst (handler cfg ext date_now req st)) = JResult r ->
      (forall a, In a (new_attempts st (snd (handler cfg ext date_now req st))) ->
         proxy r = match at_proxyUrl a with Some _ => "used" | None => "none" end)
      /\ (proxy_pool cfg = [] -> proxy r = "none")
      /\ (unit_random ext -> proxy_pool cfg <> [] -> proxy r = "used")
      /\ exists a code text,
           last (attempts (snd (handler cfg ext date_now req st))) = Some a
           /\ at_result a = Responded code text
           /\ number r = requested_number req
           /\ normalizeNumber (requested_number req) = Some (normalized r)
           /\ classify code text = Verdict (banned r) text code
           /\ statusCode r = Some code
           /\ (raw r = Some text \/ raw r = None))
  /\ (forall cfg1 cfg2 ext1 ext2 now1 now2 req1 req2 st1 st2 r1 r2,
        unit_random ext1 -> unit_random ext2 ->
        proxy_pool cfg1 <> [] -> proxy_pool cfg2 <> [] ->
        json (fst (handler cfg1 ext1 now1 req1 st1)) = JResult r1 ->
        json (fst (handler cfg2 ext2 now2 req2 st2)) = JResult r2 ->
        proxy r1 = proxy r2).
Proof.
  assert (Hone : forall cfg ext date_now req st r,
      json (fst (handler cfg ext date_now req st)) = JResult r ->
      (forall a, In a (new_attempts st (snd (handler cfg ext date_now req st))) ->
         proxy r = match at_proxyUrl a with Some _ => "used" | None => "none" end)
      /\ (proxy_pool cfg = [] -> proxy r = "none")
      /\ (unit_random ext -> proxy_pool cfg <> [] -> proxy r = "used")
      /\ exists a code text,
           last (attempts (snd (handler cfg ext date_now req st))) = Some a
           /\ at_result a = Responded code text
           /\ number r = requested_number req
           /\ normalizeNumber (requested_number req) = Some (normalized r)
           /\ classify code text = Verdict (banned r) text code
           /\ statusCode r = Some code
           /\ (raw r = Some text \/ raw r = None)).
  { intros cfg ext date_now req st r Hj.
    destruct (success_response cfg ext date_now req st r Hj)
      as (n & p & st2 & new & final & b & code & text
          & Hn & Hc & Hlog & Hall & Hfin & Hcl & Hresp).
    rewrite Hresp in Hj. cbn in Hj. injection Hj as <-.
    cbn [proxy number normalized banned statusCode raw].
    pose proof (chosen_proxy_spec cfg ext
      (set_rateMap (snd (allowedByRateLimit cfg (client_ip req) date_now (rateMap st))) st))
      as (_ & _ & Ht & Hempty & Hpick).
    rewrite <- Hc in Ht, Hempty, Hpick. cbn [fst] in Ht, Hempty, Hpick.
    rewrite Ht. split; [|split; [|split]].
    - intros a Ha. rewrite (new_attempts_app _ _ _ Hlog) in Ha.
      rewrite Forall_forall in Hall. rewrite (Hall a) by (now apply list_elem_of_In).
      now destruct p.
    - intros He. now rewrite (Hempty He).
    - intros Hu Hne. destruct (Hpick Hu Hne) as (u & -> & _). reflexivity.
    - exists final, code, text.
      split; [rewrite Hlog, app_assoc; apply last_snoc|].
      repeat split; auto.
      destruct (match EXPOSE_RAW cfg with Some v => (v =? "1")%string | None => false end);
        auto. }
  split; [exact Hone|].
  intros cfg1 cfg2 ext1 ext2 now1 now2 req1 req2 st1 st2 r1 r2 Hu1 Hu2 Hp1 Hp2 Hj1 Hj2.
  destruct (Hone _ _ _ _ _ _ Hj1) as (_ & _ & H1 & _).
  destruct (Hone _ _ _ _ _ _ Hj2) as (_ & _ & H2 & _).
  now rewrite (H1 Hu1 Hp1), (H2 Hu2 Hp2).
Qed.

Lemma sample_random_unit : unit_random banned_world.
Proof.
  intros n. cbn. unfold sample_random, Qle, Qlt. cbn.
  pose proof (Nat.mod_upper_bound n 10 ltac:(lia)). lia.
Qed.

Lemma proxy_field_hides_url_witness :
  exists r1 r2,
    json (fst (handler config_with_proxies banned_world 0 sample_request initial_state))
    = JResult r1
    /\ json (fst (handler config_exposing_raw banned_world 0 sample_request
                    initial_state)) = JResult r2
    /\ proxy r1 = "used" /\ proxy r1 = proxy r2.
Proof.
  destruct (json (fst (handler config_with_proxies banned_world 0 sample_request
                         initial_state))) as [| |r1] eqn:Hj1;
    try (vm_compute in Hj1; discriminate).
  destruct (json (fst (handler config_exposing_raw banned_world 0 sample_request
                         initial_state))) as [| |r2] eqn:Hj2;
    try (vm_compute in Hj2; discriminate).
  assert (Hp1 : proxy_pool config_with_proxies <> []) by (vm_compute; discriminate).
  assert (Hp2 : proxy_pool config_exposing_raw <> []) by (vm_compute; discriminate).
  destruct proxy_field_hides_url as [Hone Htwo].
  destruct (Hone _ _ _ _ _ _ Hj1) as (_ & _ & Hused & _).
  exists r1, r2. split; [reflexivity|]. split; [reflexivity|]. split.
  - exact (Hused sample_random_unit Hp1).
  - exact (Htwo _ _ _ _ _ _ _ _ _ _ _ _ sample_random_unit sample_random_unit
             Hp1 Hp2 Hj1 Hj2).
Defined.

End ResponseClaims.

(** ** Worked examples *)

Section WorkedExamples.

Example trim_example : trim "  +62 812  " = "+62 812".
Proof. reflexivity. Qed.

Example split_example : split "," "a,b,,c" = ["a"; "b"; ""; "c"].
Proof. reflexivity. Qed.

Example split_no_separator : split "," "abc" = ["abc"].
Proof. reflexivity. Qed.

Example toLowerCase_example : toLowerCase "Account BANNED" = "account banned".
Proof. reflexivity. Qed.

Example replace_zeros_example : replace_prefix_empty re_leading_zeros "007" = "7".
Proof. reflexivity. Qed.

Example normalizeNumber_too_short : normalizeNumber "12345" = None.
Proof. reflexivity. Qed.

Example normalizeNumber_letters : normalizeNumber "abc" = None.
Proof. reflexivity. Qed.

Example normalizeNumber_empty : normalizeNumber "" = None.
Proof. reflexivity. Qed.

Example normalizeNumber_seven_digits :
  normalizeNumber "6281234" = Some {| cc := "6"; in_ := "281234" |}.
Proof. reflexivity. Qed.

Example client_ip_forwarded : client_ip sample_request = "203.0.113.7".
Proof. reflexivity. Qed.

Example client_ip_unknown :
  client_ip {| req_method := "POST"; req_x_forwarded_for := None;
               req_remoteAddress := None; req_number := None; req_phone := None |}
  = "unknown".
Proof. reflexivity. Qed.

Example proxy_pool_example :
  proxy_pool config_with_proxies = ["http://10.0.0.8:8000"; "http://10.0.0.9:8000"].
Proof. reflexivity. Qed.

Example classify_code_then_ok :
  outcome_of (classify 200 "code: 17, result OK") = Some NotBanned.
Proof. reflexivity. Qed.

Example classify_unauthorized_401 :
  outcome_of (classify 401 "Unauthorized") = Some Banned.
Proof. reflexivity. Qed.

Example classify_unauthorized_500 :
  outcome_of (classify 500 "Unauthorized") = Some NotBanned.
Proof. reflexivity. Qed.

(** End to end: a mocked upstream answering with a ban marker. *)
Example handler_banned :
  fst (handler default_config banned_world 0 sample_request initial_state)
  = {| status := 200;
       json := JResult {| number := "+6281234567890";
                          normalized := {| cc := "62"; in_ := "81234567890" |};
                          banned := true; statusCode := Some 200;
                          raw := None; proxy := "none" |} |}.
Proof. vm_compute. reflexivity. Qed.

Example handler_rate_limited_message :
  json (fst (handler {| DEFAULT_RATE_LIMIT := 0; MAX_RETRIES := 2;
                        PROXIES := None; EXPOSE_RAW := None |}
               banned_world 0 sample_request
               {| rateMap := {[ "203.0.113.7" := {| count := 1; windowStart := 0 |} ]};
                  random_calls := 0; attempts := [] |}))
  = JError "rate_limited" (Some "Too many requests (limit 0/min)").
Proof. vm_compute. reflexivity. Qed.

Example basic_handler_banned :
  fst (BasicCheckBan.handler (fun _ _ => Responded 200 "BANNED")
         {| BasicCheckBan.req_method := "POST";
            BasicCheckBan.req_body := Some (BasicCheckBan.VString "6281234567890") |}
         {| BasicCheckBan.calls := [] |})
  = BasicCheckBan.Returned
      {| BasicCheckBan.status := 200; BasicCheckBan.json := BasicCheckBan.JBanned true |}.
Proof. reflexivity. Qed.

(** A POST without a body: the destructuring of [req.body] throws and no
    response is sent. *)
Example basic_handler_no_body :
  BasicCheckBan.handler (fun _ _ => Responded 200 "ok")
    {| BasicCheckBan.req_method := "POST"; BasicCheckBan.req_body := None |}
    {| BasicCheckBan.calls := [] |}
  = (BasicCheckBan.Thrown "TypeError", {| BasicCheckBan.calls := [] |}).
Proof. reflexivity. Qed.

(** [{ number: 628123 }]: a number has no [slice]; the [catch] answers 500
    and no call is made. *)
Example basic_handler_numeric :
  BasicCheckBan.handler (fun _ _ => Responded 200 "ok")
    {| BasicCheckBan.req_method := "POST";
       BasicCheckBan.req_body := Some (BasicCheckBan.VNumber 628123) |}
    {| BasicCheckBan.calls := [] |}
  = (BasicCheckBan.Returned
       {| BasicCheckBan.status := 500;
          BasicCheckBan.json := BasicCheckBan.JError "Error checking ban" |},
     {| BasicCheckBan.calls := [] |}).
Proof. reflexivity. Qed.

End WorkedExamples.

(** ** More about [normalizeNumber] *)

Section NormalizeMore.

Lemma digit_not_white_space a : is_digit a = true -> is_white_space a = false.
Proof. destruct a as [[] [] [] [] [] [] [] []]; try discriminate; reflexivity. Qed.

Lemma trimStart_no_leading s :
  match trimStart s with
  | "" => True
  | String a _ => is_white_space a = false
  end.
Proof.
  induction s as [|a s IH]; simpl; [exact I|].
  destruct (is_white_space a) eqn:E; [exact IH | exact E].
Qed.

Lemma trimStart_fixed s :
  match s with "" => True | String a _ => is_white_space a = false end ->
  trimStart s = s.
Proof. destruct s as [|a s]; simpl; [reflexivity|]. now intros ->. Qed.

Lemma trimEnd_keeps_head s :
  match s with "" => True | String a _ => is_white_space a = false end ->
  match trimEnd s with "" => True | String a _ => is_white_space a = false end.
Proof. destruct s as [|a s]; simpl; [auto|]. intros E. rewrite E. exact E. Qed.

Lemma trimEnd_idempotent s : trimEnd (trimEnd s) = trimEnd s.
Proof.
  induction s as [|a s IH]; [reflexivity|]. cbn [trimEnd].
  destruct (is_white_space a && negb (truthy (trimEnd s))) eqn:E; [reflexivity|].
  cbn [trimEnd]. rewrite IH, E. reflexivity.
Qed.

Lemma trim_idempotent s : trim (trim s) = trim s.
Proof.
  unfold trim.
  rewrite (trimStart_fixed (trimEnd (trimStart s))).
  - apply trimEnd_idempotent.
  - apply trimEnd_keeps_head, trimStart_no_leading.
Qed.

Lemma trimEnd_digits d : all_chars is_digit d = true -> trimEnd d = d.
Proof.
  induction d as [|a d IH]; [reflexivity|]. cbn [all_chars trimEnd].
  intros [Ha Hd]%andb_prop. rewrite (digit_not_white_space a Ha), (IH Hd). reflexivity.
Qed.

Lemma trim_digits d : all_chars is_digit d = true -> trim d = d.
Proof.
  intros Hd. unfold trim. rewrite trimStart_fixed; [now apply trimEnd_digits|].
  destruct d as [|a d]; [exact I|]. cbn [all_chars] in Hd.
  apply andb_prop in Hd as [Ha _]. now apply digit_not_white_space.
Qed.

Lemma digit_not_plus a : is_digit a = true -> Ascii.eqb a "+" = false.
Proof. destruct a as [[] [] [] [] [] [] [] []]; try discriminate; reflexivity. Qed.

Lemma digit_sequence_digits d :
  all_chars is_digit d = true -> digit_sequence d = d.
Proof.
  intros Hd. unfold digit_sequence. rewrite (trim_digits d Hd).
  destruct d as [|a d]; [reflexivity|]. cbn [all_chars] in Hd.
  apply andb_prop in Hd as [Ha _]. now rewrite (digit_not_plus a Ha).
Qed.

Lemma digit_sequence_plus d :
  all_chars is_digit d = true -> digit_sequence (String "+" d) = d.
Proof.
  intros Hd. unfold digit_sequence, trim.
  cbn [trimStart is_white_space]. change (is_white_space "+") with false. cbv iota.
  cbn [trimEnd]. change (is_white_space "+") with false. cbn [andb].
  rewrite (trimEnd_digits d Hd). reflexivity.
Qed.

Lemma valid_digits_dec d : {valid_digits d} + {~ valid_digits d}.
Proof.
  destruct (test_anchored re_digits_6_15 d) eqn:E.
  - left. now apply re_digits_6_15_spec.
  - right. intros H. apply re_digits_6_15_spec in H. congruence.
Qed.

Lemma normalizeNumber_some_valid input n :
  normalizeNumber input = Some n -> valid_digits (digit_sequence input).
Proof.
  intros Hn. destruct (valid_digits_dec (digit_sequence input)) as [H|H]; [exact H|].
  rewrite (normalizeNumber_invalid input H) in Hn. discriminate.
Qed.

(** X1: the function returns a pair exactly on the inputs that, once
    trimmed and relieved of one leading plus sign, are 6 to 15 digits. *)
Theorem normalizeNumber_accepts_iff input :
  (exists n, normalizeNumber input = Some n) <-> valid_digits (digit_sequence input).
Proof.
  split.
  - intros (n & Hn). now apply (normalizeNumber_some_valid input n).
  - intros H. eexists. now apply normalizeNumber_valid.
Qed.

(** X2: in a returned pair cc has one or two digits, in has between 4 and
    14, and together they have as many digits as the input had. *)
Theorem normalizeNumber_lengths input n :
  normalizeNumber input = Some n ->
  (1 <= String.length (cc n) <= 2)%nat
  /\ (4 <= String.length (in_ n) <= 14)%nat
  /\ (String.length (cc n) + String.length (in_ n)
      = String.length (digit_sequence input))%nat.
Proof.
  intros Hn.
  pose proof (normalizeNumber_some_valid input n Hn) as Hv.
  rewrite (normalizeNumber_valid input Hv) in Hn. injection Hn as <-.
  destruct Hv as [Hlen _]. cbn [cc in_] in *.
  set (d := digit_sequence input) in *.
  pose proof (country_code_truthy d ltac:(lia)) as Hc.
  apply truthy_length in Hc.
  rewrite length_slice_from in *.
  assert (Hcc : (String.length (country_code d) <= 2)%nat).
  { unfold country_code. rewrite strip_zeros_slice.
    pose proof (extracted_prefix_length d ltac:(lia)) as Hp.
    pose proof (length_slice_from (leading_zeros (extracted_prefix d))
                                  (extracted_prefix d)) as Hl.
    pose proof (length_slice_to 1 d) as Hl1.
    unfold prefix_length in Hp.
    destruct (8 <=? String.length d)%nat;
      destruct (slice_from _ (extracted_prefix d)); lia. }
  lia.
Qed.

Lemma normalizeNumber_lengths_witness :
  (1 <= String.length "62" <= 2)%nat
  /\ (4 <= String.length "81234567890" <= 14)%nat
  /\ (String.length "62" + String.length "81234567890"
      = String.length (digit_sequence "+6281234567890"))%nat.
Proof.
  exact (normalizeNumber_lengths "+6281234567890"
           {| cc := "62"; in_ := "81234567890" |} eq_refl).
Defined.

Lemma strip_zeros_head s :
  match strip_zeros s with
  | "" => True
  | String a _ => Ascii.eqb a "0" = false
  end.
Proof.
  induction s as [|a s IH]; simpl; [exact I|].
  destruct (Ascii.eqb a "0") eqn:E; [exact IH | exact E].
Qed.

(** X3: the returned cc never starts with a zero, except when it is the
    single digit ["0"] of the fallback. *)
Theorem normalizeNumber_cc_no_leading_zero input n :
  normalizeNumber input = Some n ->
  cc n = "0" \/ exists a r, cc n = String a r /\ a <> "0"%char.
Proof.
  intros Hn.
  pose proof (normalizeNumber_some_valid input n Hn) as Hv.
  rewrite (normalizeNumber_valid input Hv) in Hn. injection Hn as <-. cbn [cc].
  set (d := digit_sequence input) in *. unfold country_code.
  pose proof (strip_zeros_head (extracted_prefix d)) as Hh.
  destruct (strip_zeros (extracted_prefix d)) as [|a r] eqn:Hs.
  - destruct Hv as [Hlen _]. destruct d as [|a d']; [simpl in Hlen; lia|].
    cbn [slice_to].
    assert (Hall : all_chars (fun c => Ascii.eqb c "0") (extracted_prefix (String a d')) = true).
    { revert Hs. generalize (extracted_prefix (String a d')).
      induction s as [|c s IH]; simpl; [reflexivity|].
      destruct (Ascii.eqb c "0"); [auto | discriminate]. }
    unfold extracted_prefix, prefix_length in Hall.
    destruct (8 <=? _)%nat; cbn [slice_to all_chars] in Hall;
      apply andb_prop in Hall as [Ha _]; apply Ascii.eqb_eq in Ha; subst; now left.
  - right. exists a, r. split; [reflexivity|]. intros ->. discriminate.
Qed.

Lemma normalizeNumber_cc_no_leading_zero_witness :
  "6" = "0" \/ exists a r, "6" = String a r /\ a <> "0"%char.
Proof.
  exact (normalizeNumber_cc_no_leading_zero "0612345678"
           {| cc := "6"; in_ := "612345678" |} eq_refl).
Defined.

(** X4: trimming the input beforehand, as the handler does, changes
    nothing, and a well-formed number gives the same pair with or without
    its leading plus sign. *)
Theorem normalizeNumber_trim_plus :
  (forall input, normalizeNumber (trim input) = normalizeNumber input)
  /\ (forall d, valid_digits d -> normalizeNumber (String "+" d) = normalizeNumber d).
Proof.
  split.
  - intros input. unfold normalizeNumber. rewrite trim_idempotent.
    destruct input as [|a s]; [reflexivity|]. cbn [truthy negb].
    destruct (trim (String a s)) as [|b t]; reflexivity.
  - intros d Hv. pose proof Hv as [_ Hd].
    assert (H1 : valid_digits (digit_sequence (String "+" d))).
    { now rewrite digit_sequence_plus. }
    assert (H2 : valid_digits (digit_sequence d)).
    { now rewrite digit_sequence_digits. }
    rewrite (normalizeNumber_valid _ H1), (normalizeNumber_valid _ H2).
    now rewrite digit_sequence_plus, digit_sequence_digits.
Qed.

(** X5: when there are at least 8 digits and they start with a zero
    followed by a non-zero digit, cc is that digit alone and in is
    everything after the zero, so that digit is returned in both parts. *)
Theorem normalizeNumber_zero_prefix_overlap input x rest :
  digit_sequence input = String "0" (String x rest) ->
  valid_digits (digit_sequence input) ->
  (8 <= String.length (digit_sequence input))%nat ->
  x <> "0"%char ->
  normalizeNumber input
  = Some {| cc := String x ""; in_ := String x rest |}.
Proof.
  intros Hd Hv Hlen Hx. rewrite (normalizeNumber_valid input Hv).
  rewrite Hd in *. unfold country_code, extracted_prefix, prefix_length.
  destruct (Nat.leb_spec 8 (String.length (String "0" (String x rest)))); [|lia].
  cbn [slice_to strip_zeros]. change (Ascii.eqb "0" "0") with true. cbv iota.
  assert (Ascii.eqb x "0" = false) as -> by (now apply Ascii.eqb_neq).
  reflexivity.
Qed.

Lemma normalizeNumber_zero_prefix_overlap_witness :
  normalizeNumber " 0612345678"
  = Some {| cc := "6"; in_ := "612345678" |}.
Proof.
  apply (normalizeNumber_zero_prefix_overlap " 0612345678" "6" "12345678").
  - reflexivity.
  - split; [vm_compute; lia | reflexivity].
  - vm_compute. lia.
  - discriminate.
Defined.

End NormalizeMore.

(** ** More about the rate limiter *)

Section RateLimitMore.

(** X6: a call touches the caller's record only: the records of other
    keys are left as they are, no record is ever removed, and afterwards
    the caller has a record. *)
Theorem allowedByRateLimit_frame cfg ip t (m : gmap string RateRec) :
  (forall ip', ip <> ip' -> snd (allowedByRateLimit cfg ip t m) !! ip' = m !! ip')
  /\ is_Some (snd (allowedByRateLimit cfg ip t m) !! ip)
  /\ (forall ip', is_Some (m !! ip') ->
        is_Some (snd (allowedByRateLimit cfg ip t m) !! ip')).
Proof.
  assert (Hframe : forall ip', ip <> ip' ->
            snd (allowedByRateLimit cfg ip t m) !! ip' = m !! ip').
  { intros ip' Hne. unfold allowedByRateLimit.
    destruct (m !! ip) as [rec|]; cbn [snd]; [|now rewrite lookup_insert_ne].
    destruct (_ >=? _); cbn [snd]; [now rewrite lookup_insert_ne|].
    destruct (_ <? _); cbn [snd]; [now rewrite lookup_insert_ne | reflexivity]. }
  assert (Hself : is_Some (snd (allowedByRateLimit cfg ip t m) !! ip)).
  { unfold allowedByRateLimit.
    destruct (m !! ip) as [rec|] eqn:Hm; cbn [snd]; [|rewrite lookup_insert_eq; eauto].
    destruct (_ >=? _); cbn [snd]; [rewrite lookup_insert_eq; eauto|].
    destruct (_ <? _); cbn [snd]; [rewrite lookup_insert_eq; eauto | rewrite Hm; eauto]. }
  split; [exact Hframe|]. split; [exact Hself|].
  intros ip' Hs. destruct (decide (ip = ip')) as [<-|Hne]; [exact Hself|].
  now rewrite Hframe.
Qed.

(** X7: a call is refused exactly when the caller has a record that is
    less than 60 seconds old and whose count has reached the limit, and a
    refused call leaves the map as it was. *)
Theorem allowedByRateLimit_refusal cfg ip t (m : gmap string RateRec) :
  (fst (allowedByRateLimit cfg ip t m) = false
   <-> exists rec, m !! ip = Some rec
                   /\ nowUnix t - windowStart rec < 60
                   /\ DEFAULT_RATE_LIMIT cfg <= count rec)
  /\ (fst (allowedByRateLimit cfg ip t m) = false ->
      snd (allowedByRateLimit cfg ip t m) = m).
Proof.
  unfold allowedByRateLimit. destruct (m !! ip) as [rec|] eqn:Hm; cbn [fst snd].
  2:{ split; [split|]; [discriminate | intros (r & H & _); discriminate | discriminate]. }
  destruct (Z.geb_spec (nowUnix t - windowStart rec) 60); cbn [fst snd].
  { split; [split|]; [discriminate | | discriminate].
    intros (r & [= <-] & Hw & _). lia. }
  destruct (Z.ltb_spec (count rec) (DEFAULT_RATE_LIMIT cfg)); cbn [fst snd].
  { split; [split|]; [discriminate | | discriminate].
    intros (r & [= <-] & _ & Hc). lia. }
  split; [split|]; auto. intros _. exists rec. auto.
Qed.

Lemma allowedByRateLimit_counts cfg ip t (m : gmap string RateRec) :
  counts_bounded cfg m -> counts_bounded cfg (snd (allowedByRateLimit cfg ip t m)).
Proof.
  intros Hb ip' rec'. unfold allowedByRateLimit.
  destruct (m !! ip) as [rec|] eqn:Hm; cbn [snd].
  2:{ rewrite lookup_insert. case_decide; [intros [= <-]; cbn; lia | apply Hb]. }
  destruct (Z.geb_spec (nowUnix t - windowStart rec) 60); cbn [snd].
  { rewrite lookup_insert. case_decide; [intros [= <-]; cbn; lia | apply Hb]. }
  destruct (Z.ltb_spec (count rec) (DEFAULT_RATE_LIMIT cfg)); cbn [snd]; [|apply Hb].
  rewrite lookup_insert. case_decide; [|apply Hb].
  intros [= <-]. cbn. pose proof (Hb ip rec Hm). lia.
Qed.

(** X8: whatever calls are made, by whichever callers and at whatever
    times, starting from the empty map, every stored count stays between 1
    and the limit (or 1, when the limit is smaller). *)
Theorem rate_counts_bounded cfg (reqs : list (string * Z)) :
  counts_bounded cfg (calls_by cfg reqs ∅).
Proof.
  assert (H : forall m, counts_bounded cfg m -> counts_bounded cfg (calls_by cfg reqs m)).
  { induction reqs as [|[ip t] rest IH]; intros m Hm; [exact Hm|].
    cbn [calls_by]. apply IH. now apply allowedByRateLimit_counts. }
  apply H. intros ip rec Hl. rewrite lookup_empty in Hl. discriminate.
Qed.

Lemma calls_in_window_general cfg ip w ts :
  forall (m : gmap string RateRec) c,
    m !! ip = Some {| count := c; windowStart := w |} ->
    Forall (fun t => nowUnix t - w < 60) ts ->
    fst (calls cfg ip ts m)
    = (repeat true (Z.to_nat (Z.min (Z.of_nat (length ts))
                                    (Z.max 0 (DEFAULT_RATE_LIMIT cfg - c))))
       ++ repeat false (length ts
                        - Z.to_nat (Z.min (Z.of_nat (length ts))
                                          (Z.max 0 (DEFAULT_RATE_LIMIT cfg - c)))))%list.
Proof.
  induction ts as [|t ts IH]; intros m c Hm Hin.
  { cbn [calls fst length].
    replace (Z.to_nat (Z.min (Z.of_nat 0) (Z.max 0 (DEFAULT_RATE_LIMIT cfg - c))))
      with 0%nat by lia.
    reflexivity. }
  inversion Hin as [|? ? Ht Hts]; subst. cbn [calls].
  destruct (Z.lt_ge_cases c (DEFAULT_RATE_LIMIT cfg)) as [Hlt|Hge].
  - rewrite (allowed_below_limit cfg ip t m c w Hm Ht Hlt).
    specialize (IH (<[ip := {| count := c + 1; windowStart := w |}]> m) (c + 1)
                   (lookup_insert_eq _ _ _) Hts).
    destruct (calls cfg ip ts _) as [bs m']. cbn [fst] in *. rewrite IH.
    cbn [length].
    replace (Z.to_nat (Z.min (Z.of_nat (S (length ts))) (Z.max 0 (DEFAULT_RATE_LIMIT cfg - c))))
      with (S (Z.to_nat (Z.min (Z.of_nat (length ts))
                               (Z.max 0 (DEFAULT_RATE_LIMIT cfg - (c + 1)))))) by lia.
    reflexivity.
  - rewrite (allowed_at_limit cfg ip t m c w Hm Ht Hge).
    specialize (IH m c Hm Hts).
    destruct (calls cfg ip ts m) as [bs m']. cbn [fst] in *. rewrite IH.
    cbn [length].
    replace (Z.to_nat (Z.min (Z.of_nat (S (length ts))) (Z.max 0 (DEFAULT_RATE_LIMIT cfg - c))))
      with 0%nat by lia.
    replace (Z.to_nat (Z.min (Z.of_nat (length ts)) (Z.max 0 (DEFAULT_RATE_LIMIT cfg - c))))
      with 0%nat by lia.
    cbn. now rewrite Nat.sub_0_r.
Qed.

(** X9: for any limit, the calls of one caller inside one window are
    allowed up to the window's budget, the limit or 1 when the limit is
    smaller, and refused from then on: the first call of a window is
    allowed even when the limit is zero or negative. *)
Theorem rate_limit_budget cfg ip (m : gmap string RateRec) t0 ts :
  opens_window m ip t0 ->
  Forall (in_window t0) ts ->
  fst (calls cfg ip (t0 :: ts) m)
  = (repeat true (Z.to_nat (Z.min (Z.of_nat (S (length ts))) (window_budget cfg)))
     ++ repeat false (S (length ts)
                      - Z.to_nat (Z.min (Z.of_nat (S (length ts))) (window_budget cfg))))%list.
Proof.
  intros Hopen Hin. cbn [calls]. rewrite (allowed_opens cfg ip t0 m Hopen).
  pose proof (calls_in_window_general cfg ip (nowUnix t0) ts
                (<[ip := {| count := 1; windowStart := nowUnix t0 |}]> m) 1
                (lookup_insert_eq _ _ _) Hin) as H.
  destruct (calls cfg ip ts _) as [bs m']. cbn [fst] in *. rewrite H.
  unfold window_budget.
  replace (Z.to_nat (Z.min (Z.of_nat (S (length ts))) (Z.max 1 (DEFAULT_RATE_LIMIT cfg))))
    with (S (Z.to_nat (Z.min (Z.of_nat (length ts))
                             (Z.max 0 (DEFAULT_RATE_LIMIT cfg - 1))))) by lia.
  reflexivity.
Qed.

Lemma rate_limit_budget_witness :
  fst (calls {| DEFAULT_RATE_LIMIT := 0; MAX_RETRIES := 2;
                PROXIES := None; EXPOSE_RAW := None |}
         "203.0.113.7" [5000; 6000; 7000] ∅)
  = [true; false; false].
Proof.
  apply (rate_limit_budget
           {| DEFAULT_RATE_LIMIT := 0; MAX_RETRIES := 2;
              PROXIES := None; EXPOSE_RAW := None |}
           "203.0.113.7" ∅ 5000 [6000; 7000]).
  - exact I.
  - repeat constructor.
Defined.

End RateLimitMore.

(** ** More about the probe *)

Section ProbeMore.

Lemma array_get_empty {A : Type} (i : Z) : array_get (@nil A) i = None.
Proof. unfold array_get. destruct (i <? 0); [reflexivity|]. now destruct (Z.to_nat i). Qed.

Lemma array_get_in_range {A : Type} (arr : list A) (i : Z) :
  0 <= i < Z.of_nat (length arr) ->
  exists x, array_get arr i = Some x /\ In x arr.
Proof.
  intros Hi. unfold array_get. destruct (Z.ltb_spec i 0); [lia|].
  destruct (nth_error arr (Z.to_nat i)) as [x|] eqn:Hx.
  - exists x. split; [reflexivity|]. now apply nth_error_In in Hx.
  - apply nth_error_None in Hx. lia.
Qed.

(** X10: [pickRandom] draws one value of [Math.random()] and touches
    nothing else; on an empty array it yields [undefined]; and when the
    drawn value lies in [0, 1) it yields an element of a non-empty array. *)
Theorem pickRandom_spec (ext : Externals) {A : Type} (arr : list A) (st : State) :
  snd (pickRandom ext arr st)
  = {| rateMap := rateMap st; random_calls := S (random_calls st);
       attempts := attempts st |}
  /\ (arr = [] -> fst (pickRandom ext arr st) = None)
  /\ (unit_random ext -> arr <> [] ->
      exists x, fst (pickRandom ext arr st) = Some x /\ In x arr).
Proof.
  unfold pickRandom, random. cbn [fst snd]. split; [reflexivity|]. split.
  - intros ->. apply array_get_empty.
  - intros Hu Hne. destruct (Hu (random_calls st)) as [H0 H1].
    apply array_get_in_range. apply floor_scaled_range; auto.
    destruct arr; [contradiction | cbn; lia].
Qed.

Lemma attempt_result ext numberObj proxyUrl retries st :
  exists options,
    fst (attempt ext numberObj proxyUrl retries st)
    = fetch ext (length (attempts st)) options.
Proof. unfold attempt, pickRandom, buildFormBody, random. cbn. eauto. Qed.

(** The trace of a probe: the log grows by at least one record, each one
    made by the body of [doRegisterCheck] for the same number and proxy;
    four random values are drawn per attempt and one per backoff. *)
Lemma doRegisterCheck_trace_aux cfg ext numberObj proxyUrl :
  forall (k : nat) retries st,
    Z.to_nat (MAX_RETRIES cfg - retries) = k ->
    exists new,
      snd (doRegisterCheck cfg ext numberObj proxyUrl retries st)
      = {| rateMap := rateMap st;
           random_calls := random_calls st + 5 * length new - 1;
           attempts := (attempts st ++ new)%list |}
      /\ (1 <= length new <= S k)%nat
      /\ Forall (made_by ext numberObj proxyUrl) new.
Proof.
  induction k as [|k IH]; intros retries st Hk;
    rewrite doRegisterCheck_unfold;
    destruct (attempt_effect ext numberObj proxyUrl retries st)
      as (a & Hst & Hres & Ha);
    assert (Hmade : made_by ext numberObj proxyUrl a)
      by (exists retries, st; now rewrite Hst);
    destruct (attempt ext numberObj proxyUrl retries st) as [[statusCode text|err] st1];
    cbn [fst snd] in *; subst st1.
  - exists [a]. cbn. repeat split; auto. do 2 f_equal. lia.
  - destruct (Z.ltb_spec retries (MAX_RETRIES cfg)); [lia|].
    exists [a]. cbn. repeat split; auto. do 2 f_equal. lia.
  - exists [a]. cbn. repeat split; auto; [do 2 f_equal; lia | lia].
  - destruct (Z.ltb_spec retries (MAX_RETRIES cfg)); [|lia].
    match goal with |- context [doRegisterCheck _ _ _ _ _ ?s] => set (st2 := s) end.
    destruct (IH (retries + 1) st2 ltac:(lia)) as (new & Hlog & Hlen & Hall).
    exists (a :: new). rewrite Hlog. subst st2. cbn. repeat split.
    + f_equal; [lia | now rewrite <- app_assoc].
    + lia.
    + lia.
    + now constructor.
Qed.

Lemma doRegisterCheck_trace cfg ext numberObj proxyUrl retries st :
  exists new,
    snd (doRegisterCheck cfg ext numberObj proxyUrl retries st)
    = {| rateMap := rateMap st;
         random_calls := random_calls st + 5 * length new - 1;
         attempts := (attempts st ++ new)%list |}
    /\ (1 <= length new <= S (Z.to_nat (MAX_RETRIES cfg - retries)))%nat
    /\ Forall (made_by ext numberObj proxyUrl) new.
Proof. now apply (doRegisterCheck_trace_aux cfg ext numberObj proxyUrl _ retries st). Qed.

(** X11: a probe never touches the rate map and never rewrites the log:
    it appends at least one attempt and at most [MAX_RETRIES + 1] (one, when
    [MAX_RETRIES] is negative), and draws four random values per attempt
    and one per backoff between attempts. *)
Theorem doRegisterCheck_footprint cfg ext numberObj proxyUrl st :
  rateMap (snd (doRegisterCheck cfg ext numberObj proxyUrl 0 st)) = rateMap st
  /\ attempts (snd (doRegisterCheck cfg ext numberObj proxyUrl 0 st))
     = (attempts st
        ++ new_attempts st (snd (doRegisterCheck cfg ext numberObj proxyUrl 0 st)))%list
  /\ 1 <= Z.of_nat (length (new_attempts st
                             (snd (doRegisterCheck cfg ext numberObj proxyUrl 0 st))))
       <= Z.max 1 (MAX_RETRIES cfg + 1)
  /\ (random_calls (snd (doRegisterCheck cfg ext numberObj proxyUrl 0 st))
      = random_calls st
        + 5 * length (new_attempts st
                        (snd (doRegisterCheck cfg ext numberObj proxyUrl 0 st)))
        - 1)%nat.
Proof.
  destruct (doRegisterCheck_trace cfg ext numberObj proxyUrl 0 st)
    as (new & Hst & Hlen & _).
  assert (Hnew : new_attempts st (snd (doRegisterCheck cfg ext numberObj proxyUrl 0 st))
                 = new).
  { apply new_attempts_app. now rewrite Hst. }
  rewrite Hnew, Hst. cbn. repeat split; try lia.
Qed.

(** X12: when the transport throws on the first [k] calls of a probe and
    answers the next one, with [k] at most [MAX_RETRIES], the probe makes
    exactly [k + 1] attempts and returns the classification of that
    answer. *)
Theorem doRegisterCheck_recovers cfg ext numberObj proxyUrl st (k : nat)
    statusCode text :
  Z.of_nat k <= MAX_RETRIES cfg ->
  fails_then_responds ext (length (attempts st)) k statusCode text ->
  fst (doRegisterCheck cfg ext numberObj proxyUrl 0 st) = classify statusCode text
  /\ length (new_attempts st (snd (doRegisterCheck cfg ext numberObj proxyUrl 0 st)))
     = S k.
Proof.
  assert (Hgen : forall (k : nat) retries st,
             retries + Z.of_nat k <= MAX_RETRIES cfg ->
             fails_then_responds ext (length (attempts st)) k statusCode text ->
             fst (doRegisterCheck cfg ext numberObj proxyUrl retries st)
             = classify statusCode text
             /\ length (attempts (snd (doRegisterCheck cfg ext numberObj proxyUrl
                                         retries st)))
                = (length (attempts st) + S k)%nat).
  { clear k st. induction k as [|k IH]; intros retries st Hk [Hfail Hok];
      rewrite doRegisterCheck_unfold;
      destruct (attempt_effect ext numberObj proxyUrl retries st)
        as (a & Hst & _ & _);
      destruct (attempt_result ext numberObj proxyUrl retries st) as (options & Hres);
      destruct (attempt ext numberObj proxyUrl retries st) as [res st1];
      cbn [fst snd] in *; subst st1.
    - rewrite Nat.add_0_r in Hok. rewrite Hok in Hres. subst res. cbn [fst snd attempts].
      split; [reflexivity|]. now rewrite length_app.
    - destruct (Hfail O options ltac:(lia)) as (err & Herr).
      rewrite Nat.add_0_r in Herr. rewrite Herr in Hres. subst res.
      destruct (Z.ltb_spec retries (MAX_RETRIES cfg)); [|lia].
      match goal with |- context [doRegisterCheck _ _ _ _ _ ?s] => set (st2 := s) end.
      assert (Hlen2 : length (attempts st2) = S (length (attempts st))).
      { subst st2. cbn. rewrite length_app. cbn. lia. }
      destruct (IH (retries + 1) st2 ltac:(lia)) as [Hr Hl].
      { rewrite Hlen2. split.
        - intros i o Hi. replace (S (length (attempts st)) + i)%nat
            with (length (attempts st) + S i)%nat by lia. apply Hfail. lia.
        - intros o. replace (S (length (attempts st)) + k)%nat
            with (length (attempts st) + S k)%nat by lia. apply Hok. }
      split; [exact Hr|]. rewrite Hl, Hlen2. lia. }
  intros Hk Hf. destruct (Hgen k 0 st ltac:(lia) Hf) as [Hr Hl].
  split; [exact Hr|]. unfold new_attempts. rewrite length_drop. lia.
Qed.

Lemma doRegisterCheck_recovers_witness :
  fst (doRegisterCheck default_config flaky_world sample_number None 0 initial_state)
  = classify 503 "Service Unavailable"
  /\ length (new_attempts initial_state
               (snd (doRegisterCheck default_config flaky_world sample_number None 0
                       initial_state))) = 2%nat.
Proof.
  apply (doRegisterCheck_recovers default_config flaky_world sample_number None
           initial_state 1 503 "Service Unavailable").
  - cbn. lia.
  - split.
    + intros i options Hi. exists "timeout". destruct i; [reflexivity | lia].
    + intros options. reflexivity.
Defined.

End ProbeMore.

(** ** The requests sent upstream *)

Section RequestFacts.

Lemma made_by_shape ext numberObj proxyUrl a :
  made_by ext numberObj proxyUrl a ->
  exists pos,
    at_proxyUrl a = proxyUrl
    /\ identity_drawn_at ext pos a
    /\ fo_endpoint (at_options a) = "https://v.whatsapp.net/v2/register"
    /\ fo_method (at_options a) = "POST"
    /\ fo_headers (at_options a) = request_headers (at_ua a)
    /\ fo_agent (at_options a) = agent_for ext proxyUrl
    /\ fo_body (at_options a)
       = ([("cc", cc numberObj); ("in", in_ numberObj); ("method", "sms")]
          ++ opt_field "mcc" (at_mcc a) ++ opt_field "mnc" (at_mnc a)
          ++ [("r", Z_toString (floor_scaled (Math_random ext (pos + 3)) 1000000))])%list.
Proof.
  intros (retries & st & H). exists (random_calls st).
  unfold attempt, pickRandom, buildFormBody, random, push_attempt in H.
  cbn in H. apply app_inv_head in H. injection H as <-.
  unfold identity_drawn_at, agent_for, request_headers, opt_field. cbn.
  replace (random_calls st + 1)%nat with (S (random_calls st)) by lia.
  replace (random_calls st + 2)%nat with (S (S (random_calls st))) by lia.
  replace (random_calls st + 3)%nat with (S (S (S (random_calls st)))) by lia.
  repeat split.
  destruct (array_get MCC_OPTIONS _) as [mcc|]; [destruct (truthy mcc)|];
    (destruct (array_get MNC_OPTIONS _) as [mnc|]; [destruct (truthy mnc)|]);
    reflexivity.
Qed.

Lemma probe_attempt_made_by cfg ext numberObj proxyUrl st (i : nat) a :
  new_attempts st (snd (doRegisterCheck cfg ext numberObj proxyUrl 0 st)) !! i = Some a ->
  made_by ext numberObj proxyUrl a.
Proof.
  destruct (doRegisterCheck_trace cfg ext numberObj proxyUrl 0 st)
    as (new & Hst & _ & Hall).
  rewrite (new_attempts_app st _ new) by (now rewrite Hst).
  intros Hi. rewrite Forall_lookup in Hall. eauto.
Qed.

(** X13: every attempt of a probe is a POST to the registration endpoint
    with the four fixed headers, the drawn user agent among them; it goes
    through the proxy when the probe has a non-empty proxy URL and the
    agent can be built for it, and without any proxy otherwise; its body
    holds cc, in and method=sms, then mcc and mnc when they are defined
    and not empty, then r. *)
Theorem probe_request_shape cfg ext numberObj proxyUrl st (i : nat) a :
  new_attempts st (snd (doRegisterCheck cfg ext numberObj proxyUrl 0 st)) !! i = Some a ->
  fo_endpoint (at_options a) = "https://v.whatsapp.net/v2/register"
  /\ fo_method (at_options a) = "POST"
  /\ fo_headers (at_options a) = request_headers (at_ua a)
  /\ fo_agent (at_options a) = agent_for ext proxyUrl
  /\ exists r,
       fo_body (at_options a)
       = ([("cc", cc numberObj); ("in", in_ numberObj); ("method", "sms")]
          ++ opt_field "mcc" (at_mcc a) ++ opt_field "mnc" (at_mnc a)
          ++ [("r", r)])%list.
Proof.
  intros Hi. apply probe_attempt_made_by in Hi.
  destruct (made_by_shape _ _ _ _ Hi) as (pos & _ & _ & He & Hm & Hh & Hg & Hb).
  repeat split; auto. eauto.
Qed.

Lemma probe_request_shape_witness :
  exists a,
    new_attempts initial_state
      (snd (doRegisterCheck default_config flaky_world sample_number
              (Some "http://10.0.0.8:8000") 0 initial_state)) !! 1%nat = Some a
    /\ fo_method (at_options a) = "POST"
    /\ fo_agent (at_options a) = Some "http://10.0.0.8:8000".
Proof.
  destruct (new_attempts initial_state
      (snd (doRegisterCheck default_config flaky_world sample_number
              (Some "http://10.0.0.8:8000") 0 initial_state)) !! 1%nat)
    as [a|] eqn:Hi; [|vm_compute in Hi; discriminate].
  destruct (probe_request_shape default_config flaky_world sample_number
              (Some "http://10.0.0.8:8000") initial_state 1 a Hi)
    as (_ & Hm & _ & Hg & _).
  exists a. split; [reflexivity|]. split; [exact Hm | exact Hg].
Defined.

Lemma sample_world_unit f g :
  unit_random {| Math_random := sample_random; fetch := f; HttpsProxyAgent := g |}.
Proof.
  intros n. cbn. unfold sample_random, Qle, Qlt. cbn.
  pose proof (Nat.mod_upper_bound n 10 ltac:(lia)). lia.
Qed.

Lemma options_truthy v :
  In v MCC_OPTIONS \/ In v MNC_OPTIONS -> truthy v = true.
Proof.
  unfold MCC_OPTIONS, MNC_OPTIONS. cbn [In].
  intros [H|H]; repeat (destruct H as [<-|H]; [reflexivity|]); destruct H.
Qed.

(** X14: when the values of [Math.random()] lie in [0, 1), the identity
    of every attempt is defined: the user agent is one of [UA_LIST], and
    the body has exactly the six fields cc, in, method, mcc, mnc and r,
    with mcc from [MCC_OPTIONS], mnc from [MNC_OPTIONS] and r the decimal
    form of an integer from 0 to 999999. *)
Theorem probe_identity_defined cfg ext numberObj proxyUrl st (i : nat) a :
  unit_random ext ->
  new_attempts st (snd (doRegisterCheck cfg ext numberObj proxyUrl 0 st)) !! i = Some a ->
  exists ua mcc mnc r,
    In ua UA_LIST /\ In mcc MCC_OPTIONS /\ In mnc MNC_OPTIONS
    /\ 0 <= r < 1000000
    /\ fo_headers (at_options a) = request_headers (Some ua)
    /\ fo_body (at_options a)
       = [("cc", cc numberObj); ("in", in_ numberObj); ("method", "sms");
          ("mcc", mcc); ("mnc", mnc); ("r", Z_toString r)].
Proof.
  intros Hu Hi. apply probe_attempt_made_by in Hi.
  destruct (made_by_shape _ _ _ _ Hi)
    as (pos & _ & (Hua & Hmcc & Hmnc) & _ & _ & Hh & _ & Hb).
  assert (Hrange : forall p n, 0 < n -> 0 <= floor_scaled (Math_random ext p) n < n).
  { intros p n Hn. destruct (Hu p). now apply floor_scaled_range. }
  destruct (array_get_in_range UA_LIST _ (Hrange pos 4 ltac:(lia))) as (ua & Eua & Iua).
  destruct (array_get_in_range MCC_OPTIONS _ (Hrange (pos + 1)%nat 7 ltac:(lia)))
    as (mcc & Emcc & Imcc).
  destruct (array_get_in_range MNC_OPTIONS _ (Hrange (pos + 2)%nat 6 ltac:(lia)))
    as (mnc & Emnc & Imnc).
  exists ua, mcc, mnc, (floor_scaled (Math_random ext (pos + 3)) 1000000).
  rewrite Hh, Hb, Hua, Hmcc, Hmnc, Eua, Emcc, Emnc. unfold opt_field.
  rewrite (options_truthy mcc (or_introl Imcc)), (options_truthy mnc (or_intror Imnc)).
  repeat split; auto; apply Hrange; lia.
Qed.

Lemma probe_identity_defined_witness :
  exists a ua mcc mnc r,
    new_attempts initial_state
      (snd (doRegisterCheck default_config flaky_world sample_number None 0
              initial_state)) !! 0%nat = Some a
    /\ In ua UA_LIST /\ In mcc MCC_OPTIONS /\ In mnc MNC_OPTIONS
    /\ 0 <= r < 1000000
    /\ fo_headers (at_options a) = request_headers (Some ua)
    /\ fo_body (at_options a)
       = [("cc", "62"); ("in", "81234567890"); ("method", "sms");
          ("mcc", mcc); ("mnc", mnc); ("r", Z_toString r)].
Proof.
  destruct (new_attempts initial_state
      (snd (doRegisterCheck default_config flaky_world sample_number None 0
              initial_state)) !! 0%nat)
    as [a|] eqn:Hi; [|vm_compute in Hi; discriminate].
  destruct (probe_identity_defined default_config flaky_world sample_number None
              initial_state 0 a (sample_world_unit _ _) Hi)
    as (ua & mcc & mnc & r & H).
  exists a, ua, mcc, mnc, r. split; [reflexivity | exact H].
Defined.

End RequestFacts.

(** ** More about the classification *)

Section ClassifyMore.

Lemma auth_or_ban_suspicious statusCode body :
  suspicious_4xx statusCode body
  <-> 400 <= statusCode < 500
      /\ (auth_marker body \/ contains "forbidden" body \/ contains "banned" body).
Proof. unfold suspicious_4xx, auth_marker. tauto. Qed.

(** X15: outside the 4xx range a response is reported as banned exactly
    when its body holds a ban marker; on a 4xx status it is also reported
    as banned when the body holds unauthorized, auth_failure or
    auth_failed and no success marker. *)
Theorem classify_banned_iff (statusCode : Z) (text : string) :
  outcome_of (classify statusCode text) = Some Banned
  <-> ban_marker text
      \/ (400 <= statusCode < 500 /\ ~ success_marker text /\ auth_marker text).
Proof.
  destruct (classify_classified statusCode text) as (b & Hc & Hcl). rewrite Hc.
  destruct b; cbn [outcome_of]; split; intros H; try reflexivity; try discriminate.
  - inversion Hcl as [Hb| | Hnb Hns Hs|]; [now left|].
    right. apply auth_or_ban_suspicious in Hs as [Hr [Ha|[Hf|Hbn]]].
    + auto.
    + exfalso. apply Hnb. unfold ban_marker. tauto.
    + exfalso. apply Hnb. unfold ban_marker. tauto.
  - exfalso. inversion Hcl as [|Hnb Hs| |Hnb Hns Hnsus].
    + destruct H as [Hb|(_ & Hns & _)]; contradiction.
    + destruct H as [Hb|(Hr & _ & Ha)]; [contradiction|].
      apply Hnsus, auth_or_ban_suspicious. auto.
Qed.

Lemma lower_char_idempotent a : lower_char (lower_char a) = lower_char a.
Proof. destruct a as [[] [] [] [] [] [] [] []]; reflexivity. Qed.

Lemma toLowerCase_idempotent s : toLowerCase (toLowerCase s) = toLowerCase s.
Proof.
  induction s as [|a s IH]; [reflexivity|].
  cbn [toLowerCase]. now rewrite lower_char_idempotent, IH.
Qed.

(** X16: the verdict depends on the body through its lower-case form
    only: two bodies that differ in letter case alone get the same verdict,
    for every status code. *)
Theorem classify_case_invariant (statusCode : Z) (text1 text2 : string) :
  toLowerCase text1 = toLowerCase text2 ->
  outcome_of (classify statusCode text1) = outcome_of (classify statusCode text2).
Proof.
  intros H. unfold classify. rewrite !or_else_empty, H.
  destruct (test re_banned _); [reflexivity|].
  destruct (test re_success _); [reflexivity|].
  destruct (_ && _); reflexivity.
Qed.

Lemma classify_case_invariant_witness :
  outcome_of (classify 200 "ACCOUNT Suspended")
  = outcome_of (classify 200 "account suspended").
Proof. exact (classify_case_invariant 200 _ _ eq_refl). Defined.

End ClassifyMore.

(** ** The first version of the endpoint *)

Section BasicFacts.

Lemma lang_lit_i w u : lang (Lit_i w) u <-> canonical u = canonical w.
Proof.
  revert u. induction w as [|c w IH]; intros u; cbn [Lit_i canonical].
  - rewrite lang_eps_iff. split; [now intros -> | now destruct u].
  - rewrite lang_cat_iff. split.
    + intros (s1 & s2 & -> & (a & -> & Ha)%lang_class_iff & H2%IH).
      rewrite app_cons, app_empty_l. cbn [canonical].
      apply Ascii.eqb_eq in Ha. now rewrite Ha, H2.
    + destruct u as [|a u]; [discriminate|]. cbn [canonical]. intros [= Ha Hu].
      exists (String a ""), u. repeat split.
      * apply lang_class_iff. exists a. split; [reflexivity|]. now apply Ascii.eqb_eq.
      * now apply IH.
Qed.

Lemma test_lit_i w s : test (Lit_i w) s = true <-> contains_ignoring_case w s.
Proof.
  rewrite test_lang. unfold contains_ignoring_case. split.
  - intros (p & u & v & -> & H%lang_lit_i). eauto.
  - intros (p & u & v & -> & H). exists p, u, v. split; [reflexivity|].
    now apply lang_lit_i.
Qed.



Lemma canonical_banned_lower u :
  canonical u = canonical "banned" -> toLowerCase u = "banned".
Proof.
  assert (Hc : forall a c, In c ["b"; "a"; "n"; "e"; "d"]%char ->
             canonicalize a = canonicalize c -> lower_char a = c).
  { intros a c Hin. cbn [In] in Hin.
    repeat (destruct Hin as [<-|Hin];
            [destruct a as [[] [] [] [] [] [] [] []];
             try reflexivity; intros H; vm_compute in H; discriminate|]).
    destruct Hin. }
  destruct u as [|a1 [|a2 [|a3 [|a4 [|a5 [|a6 [|a7 u]]]]]]]; try discriminate.
  cbn [canonical toLowerCase]. intros [= H1 H2 H3 H4 H5 H6].
  rewrite (Hc a1 "b"%char), (Hc a2 "a"%char), (Hc a3 "n"%char), (Hc a4 "n"%char),
    (Hc a5 "e"%char), (Hc a6 "d"%char); cbn [In]; auto 10.
Qed.

(** X18: whatever the first version reports as banned, the classification
    of the current version reports as banned too, for every status code. *)
Theorem basic_banned_implies_banned (statusCode : Z) (text : string) :
  test (Lit_i "banned") text = true ->
  outcome_of (classify statusCode text) = Some Banned.
Proof.
  intros (pre & mid & post & -> & Hmid%canonical_banned_lower)%test_lit_i.
  assert (Hb : ban_marker (pre +:+ mid +:+ post)).
  { left. exists pre, mid, post. split; [reflexivity|].
    now apply (toLowerCase_spells mid "banned" eq_refl). }
  apply re_banned_spec in Hb. unfold classify. rewrite or_else_empty, Hb. reflexivity.
Qed.

Lemma basic_banned_implies_banned_witness :
  outcome_of (classify 200 "You are BANNED") = Some Banned.
Proof. exact (basic_banned_implies_banned 200 "You are BANNED" eq_refl). Defined.

End BasicFacts.

(** ** More about the handler *)

Section HandlerMore.

(** The handler on a POST request, step by step. *)
Lemma handler_post cfg ext date_now req st :
  req_method req = "POST" ->
  handler cfg ext date_now req st
  = let allowed := allowedByRateLimit cfg (client_ip req) date_now (rateMap st) in
    let st1 := set_rateMap (snd allowed) st in
    if negb (fst allowed) then
      ({| status := 429;
          json := JError "rate_limited" (Some (rate_limited_message cfg)) |}, st1)
    else if negb (truthy (requested_number req)) then
      ({| status := 400; json := JError "number_required" (Some msg_number_required) |},
       st1)
    else match normalizeNumber (requested_number req) with
         | None =>
             ({| status := 400;
                 json := JError "invalid_number"
                   (Some "Number must be digits with country code (E.164 recommended).") |},
              st1)
         | Some numberObj =>
             probe_and_respond cfg ext (requested_number req) numberObj st1
         end.
Proof.
  intros Hm. unfold handler. rewrite Hm.
  change (("POST" =? "POST")%string) with true. cbn [negb].
  destruct (allowedByRateLimit cfg (client_ip req) date_now (rateMap st))
    as [[|] m1]; cbn [negb fst snd]; [|reflexivity].
  fold (requested_number req).
  destruct (truthy (requested_number req)); cbn [negb]; [|reflexivity].
  destruct (normalizeNumber (requested_number req)) as [numberObj|]; [|reflexivity].
  unfold probe_and_respond, chosen_proxy, proxy_pool, response_of.
  destruct (if (0 <? _)%nat then _ else _) as [proxyToUse st2].
  destruct (doRegisterCheck _ _ _ _ _ _) as [[b text code|e m] st3];
    [reflexivity|]. now destruct (truthy e).
Qed.

Lemma refused_unchanged cfg ip t (m : gmap string RateRec) :
  fst (allowedByRateLimit cfg ip t m) = false ->
  snd (allowedByRateLimit cfg ip t m) = m.
Proof.
  unfold allowedByRateLimit. destruct (m !! ip) as [rec|]; [|discriminate].
  destruct (_ >=? _); [discriminate|]. destruct (_ <? _); [discriminate | reflexivity].
Qed.

Lemma allowed_other_key cfg ip ip' t (m : gmap string RateRec) :
  ip <> ip' -> snd (allowedByRateLimit cfg ip t m) !! ip' = m !! ip'.
Proof.
  intros Hne. unfold allowedByRateLimit.
  destruct (m !! ip) as [rec|]; cbn [snd]; [|now rewrite lookup_insert_ne].
  destruct (_ >=? _); cbn [snd]; [now rewrite lookup_insert_ne|].
  destruct (_ <? _); cbn [snd]; [now rewrite lookup_insert_ne | reflexivity].
Qed.

Lemma set_rateMap_same st : set_rateMap (rateMap st) st = st.
Proof. now destruct st. Qed.

Lemma doRegisterCheck_failed_error cfg ext numberObj proxyUrl retries st e m :
  fst (doRegisterCheck cfg ext numberObj proxyUrl retries st) = Failed e m ->
  e = "network_error".
Proof.
  destruct (doRegisterCheck_run cfg ext numberObj proxyUrl retries st)
    as (new & _ & _ & Hrun).
  destruct (run_shape cfg ext _ _ _ _ _ Hrun) as (init & final & _ & _ & _ & Hlast).
  intros H. destruct (at_result final) as [code text|err].
  - destruct (classify_verdict code text) as (b & Hb). congruence.
  - destruct Hlast as [Hf _]. congruence.
Qed.

(** The response of the probe branch is a 200 with a result object or a
    502 with the failure. *)
Lemma probe_and_respond_cases cfg ext number numberObj st1 :
  (status (fst (probe_and_respond cfg ext number numberObj st1)) = 200
   /\ exists r, json (fst (probe_and_respond cfg ext number numberObj st1)) = JResult r)
  \/ (status (fst (probe_and_respond cfg ext number numberObj st1)) = 502
      /\ exists message,
           json (fst (probe_and_respond cfg ext number numberObj st1))
           = JFailed "proxy_or_network_failed" (Failed "network_error" message)).
Proof.
  unfold probe_and_respond.
  destruct (chosen_proxy cfg ext st1) as [proxyToUse st2].
  pose proof (doRegisterCheck_failed_error cfg ext
                {| cc := cc numberObj; in_ := in_ numberObj |} proxyToUse 0 st2) as Hf.
  destruct (doRegisterCheck _ _ _ _ _ _) as [[b text code|e m] st3]; cbn [fst] in *.
  - left. cbn. eauto.
  - rewrite (Hf e m eq_refl). right. cbn. eauto.
Qed.

(** X19: every response is one of five kinds: 405 for a wrong method, 429
    with error rate_limited, 400 with error number_required or
    invalid_number, 502 with error proxy_or_network_failed and the
    network_error failure as details, or 200 with a result object. *)
Theorem handler_response_kinds cfg ext date_now req st :
  let r := fst (handler cfg ext date_now req st) in
  (status r = 405 /\ json r = JError "Method not allowed" None)
  \/ (status r = 429 /\ json r = JError "rate_limited" (Some (rate_limited_message cfg)))
  \/ (status r = 400 /\ exists m, json r = JError "number_required" (Some m))
  \/ (status r = 400 /\ exists m, json r = JError "invalid_number" (Some m))
  \/ (status r = 502
      /\ exists message,
           json r = JFailed "proxy_or_network_failed" (Failed "network_error" message))
  \/ (status r = 200 /\ exists res, json r = JResult res).
Proof.
  cbv zeta. destruct (String.eqb_spec (req_method req) "POST") as [Hm|Hm].
  2:{ left. unfold handler. destruct (String.eqb_spec (req_method req) "POST");
        [contradiction|]. auto. }
  rewrite (handler_post cfg ext date_now req st Hm). cbv zeta.
  destruct (fst (allowedByRateLimit _ _ _ _)); cbn [negb]; [|right; left; auto].
  destruct (truthy (requested_number req)); cbn [negb];
    [|right; right; left; cbn; eauto].
  destruct (normalizeNumber (requested_number req)) as [n|];
    [|right; right; right; left; cbn; eauto].
  destruct (probe_and_respond_cases cfg ext (requested_number req) n
              (set_rateMap (snd (allowedByRateLimit cfg (client_ip req) date_now
                                   (rateMap st))) st)) as [H|H]; tauto.
Qed.

(** X20: a POST the rate limiter refuses is answered 429 with a message
    that names the configured limit, and the whole state is returned as it
    was: no count is changed, nothing is drawn, nothing is sent. *)
Theorem handler_rate_limited cfg ext date_now req st :
  req_method req = "POST" ->
  fst (allowedByRateLimit cfg (client_ip req) date_now (rateMap st)) = false ->
  handler cfg ext date_now req st
  = ({| status := 429;
        json := JError "rate_limited"
                  (Some ("Too many requests (limit "
                         +:+ Z_toString (DEFAULT_RATE_LIMIT cfg) +:+ "/min)")) |},
     st).
Proof.
  intros Hm Hr. rewrite (handler_post cfg ext date_now req st Hm). cbv zeta.
  rewrite Hr, (refused_unchanged _ _ _ _ Hr), set_rateMap_same. reflexivity.
Qed.

Lemma handler_rate_limited_witness :
  handler {| DEFAULT_RATE_LIMIT := 1; MAX_RETRIES := 2;
             PROXIES := None; EXPOSE_RAW := None |}
    banned_world 30000 sample_request
    {| rateMap := {[ "203.0.113.7" := {| count := 1; windowStart := 0 |} ]};
       random_calls := 0; attempts := [] |}
  = ({| status := 429;
        json := JError "rate_limited" (Some "Too many requests (limit 1/min)") |},
     {| rateMap := {[ "203.0.113.7" := {| count := 1; windowStart := 0 |} ]};
        random_calls := 0; attempts := [] |}).
Proof.
  apply (handler_rate_limited
           {| DEFAULT_RATE_LIMIT := 1; MAX_RETRIES := 2;
              PROXIES := None; EXPOSE_RAW := None |}
           banned_world 30000 sample_request).
  - reflexivity.
  - vm_compute. reflexivity.
Defined.



(** X22: the body field [phone] stands in for [number] when [number] is
    missing or empty, and is ignored when [number] is not empty. *)
Theorem handler_phone_alias cfg ext date_now method xff remote st :
  (forall p,
      handler cfg ext date_now
        {| req_method := method; req_x_forwarded_for := xff; req_remoteAddress := remote;
           req_number := None; req_phone := Some p |} st
      = handler cfg ext date_now
          {| req_method := method; req_x_forwarded_for := xff; req_remoteAddress := remote;
             req_number := Some p; req_phone := None |} st
      /\ handler cfg ext date_now
           {| req_method := method; req_x_forwarded_for := xff; req_remoteAddress := remote;
              req_number := Some ""; req_phone := Some p |} st
         = handler cfg ext date_now
             {| req_method := method; req_x_forwarded_for := xff;
                req_remoteAddress := remote;
                req_number := Some p; req_phone := None |} st)
  /\ (forall n p, truthy n = true ->
        handler cfg ext date_now
          {| req_method := method; req_x_forwarded_for := xff; req_remoteAddress := remote;
             req_number := Some n; req_phone := Some p |} st
        = handler cfg ext date_now
            {| req_method := method; req_x_forwarded_for := xff;
               req_remoteAddress := remote;
               req_number := Some n; req_phone := None |} st).
Proof.
  split.
  - intros p. unfold handler, client_ip. cbn [req_method req_x_forwarded_for
      req_remoteAddress req_number req_phone opt_or_else or_else truthy].
    destruct p; split; reflexivity.
  - intros n p Hn. unfold handler, client_ip. cbn [req_method req_x_forwarded_for
      req_remoteAddress req_number req_phone opt_or_else].
    assert (Ho : forall b, or_else n b = n) by (intros b; unfold or_else; now rewrite Hn).
    rewrite !Ho. reflexivity.
Qed.

Lemma probe_and_respond_rateMap cfg ext number numberObj st1 :
  rateMap (snd (probe_and_respond cfg ext number numberObj st1)) = rateMap st1.
Proof.
  unfold probe_and_respond.
  pose proof (chosen_proxy_spec cfg ext st1) as (_ & Hm & _).
  destruct (chosen_proxy cfg ext st1) as [proxyToUse st2]. cbn [snd] in Hm.
  destruct (doRegisterCheck_run cfg ext {| cc := cc numberObj; in_ := in_ numberObj |}
              proxyToUse 0 st2) as (new & _ & Hr & _).
  destruct (doRegisterCheck _ _ _ _ _ _) as [result st3]. cbn [snd] in *. congruence.
Qed.

Lemma handler_post_rateMap cfg ext date_now req st :
  req_method req = "POST" ->
  rateMap (snd (handler cfg ext date_now req st))
  = snd (allowedByRateLimit cfg (client_ip req) date_now (rateMap st)).
Proof.
  intros Hm. rewrite (handler_post cfg ext date_now req st Hm). cbv zeta.
  destruct (fst (allowedByRateLimit _ _ _ _)); cbn [negb]; [|reflexivity].
  destruct (truthy (requested_number req)); cbn [negb]; [|reflexivity].
  destruct (normalizeNumber (requested_number req)) as [n|]; [|reflexivity].
  now rewrite probe_and_respond_rateMap.
Qed.

(** X23: whatever its outcome, a POST is counted once, against its own
    caller key: afterwards the rate map is the one the rate limiter
    returned for that key, and the records of all other keys are as
    before. *)
Theorem handler_counts_caller cfg ext date_now req st :
  req_method req = "POST" ->
  rateMap (snd (handler cfg ext date_now req st))
  = snd (allowedByRateLimit cfg (client_ip req) date_now (rateMap st))
  /\ forall ip', client_ip req <> ip' ->
       rateMap (snd (handler cfg ext date_now req st)) !! ip' = rateMap st !! ip'.
Proof.
  intros Hm. rewrite (handler_post_rateMap cfg ext date_now req st Hm).
  split; [reflexivity|]. intros ip' Hne. now apply allowed_other_key.
Qed.

Lemma handler_counts_caller_witness :
  rateMap (snd (handler default_config banned_world 0 sample_request initial_state))
  = {[ "203.0.113.7" := {| count := 1; windowStart := 0 |} ]}.
Proof.
  rewrite (proj1 (handler_counts_caller default_config banned_world 0 sample_request
                    initial_state eq_refl)).
  vm_compute. reflexivity.
Defined.

End HandlerMore.

(** ** Sequences of requests, proxies and caller keys *)

Section ServiceFacts.

Lemma handler_429_iff cfg ext date_now req st :
  req_method req = "POST" ->
  (status (fst (handler cfg ext date_now req st)) =? 429)
  = negb (fst (allowedByRateLimit cfg (client_ip req) date_now (rateMap st))).
Proof.
  intros Hm. rewrite (handler_post cfg ext date_now req st Hm). cbv zeta.
  destruct (fst (allowedByRateLimit _ _ _ _)); cbn [negb]; [|reflexivity].
  destruct (truthy (requested_number req)); cbn [negb]; [|reflexivity].
  destruct (normalizeNumber (requested_number req)) as [n|]; [|reflexivity].
  destruct (probe_and_respond_cases cfg ext (requested_number req) n
              (set_rateMap (snd (allowedByRateLimit cfg (client_ip req) date_now
                                   (rateMap st))) st)) as [[-> _]|[-> _]]; reflexivity.
Qed.

(** X24: when one caller sends POST requests one after the other, the
    handler answers 429 to exactly those the rate limiter refuses, whatever
    the requests ask and whatever happens upstream in between. *)
Theorem serve_rate_limited cfg ext ip (reqs : list (Z * HttpRequest)) st :
  Forall (fun tr => req_method (snd tr) = "POST" /\ client_ip (snd tr) = ip) reqs ->
  map (fun r => status r =? 429) (fst (serve cfg ext reqs st))
  = map negb (fst (calls cfg ip (map fst reqs) (rateMap st))).
Proof.
  revert st. induction reqs as [|[t req] rest IH]; intros st Hall; [reflexivity|].
  inversion Hall as [|? ? [Hm Hip] Hrest]; subst. cbn [snd] in *.
  cbn [serve map fst calls].
  pose proof (handler_429_iff cfg ext t req st Hm) as H429.
  pose proof (handler_post_rateMap cfg ext t req st Hm) as Hmap.
  specialize (IH (snd (handler cfg ext t req st)) Hrest).
  destruct (handler cfg ext t req st) as [r st1]. cbn [fst snd] in *.
  rewrite Hmap in IH.
  destruct (allowedByRateLimit cfg (client_ip req) t (rateMap st)) as [b m1].
  cbn [fst snd] in *.
  destruct (serve cfg ext rest st1) as [rs st2].
  destruct (calls cfg (client_ip req) (map fst rest) m1) as [bs m2].
  cbn [fst map] in *. now rewrite H429, IH.
Qed.

Lemma serve_rate_limited_witness :
  map (fun r => status r =? 429)
    (fst (serve {| DEFAULT_RATE_LIMIT := 1; MAX_RETRIES := 2;
                   PROXIES := None; EXPOSE_RAW := None |}
            banned_world [(0, sample_request); (1000, sample_request)] initial_state))
  = [false; true].
Proof.
  rewrite (serve_rate_limited _ _ "203.0.113.7").
  - vm_compute. reflexivity.
  - repeat constructor.
Defined.

Lemma pool_member cfg p :
  In p (proxy_pool cfg) -> truthy p = true /\ trim p = p.
Proof.
  unfold proxy_pool. intros [Hin Ht]%filter_In. split; [exact Ht|].
  apply in_map_iff in Hin as (x & <- & _). apply trim_idempotent.
Qed.

Lemma chosen_proxy_member cfg ext st :
  fst (chosen_proxy cfg ext st) = None
  \/ exists p, fst (chosen_proxy cfg ext st) = Some p /\ In p (proxy_pool cfg).
Proof.
  unfold chosen_proxy. destruct (0 <? _)%nat; [|now left].
  unfold pickRandom, random, array_get. cbn [fst].
  destruct (_ <? 0); [now left|].
  destruct (nth_error _ _) as [p|] eqn:Hp; [|now left].
  right. exists p. split; [reflexivity|]. now apply nth_error_In in Hp.
Qed.

Lemma new_attempts_same_length st st' x :
  attempts st = attempts st' -> new_attempts st x = new_attempts st' x.
Proof. unfold new_attempts. now intros ->. Qed.

Lemma new_attempts_none st st' :
  attempts st' = attempts st -> new_attempts st st' = [].
Proof. unfold new_attempts. intros ->. apply drop_all. Qed.

(** The attempts a request adds to the log are those of one probe through
    the chosen proxy, or none. *)
Lemma handler_new_attempts cfg ext date_now req st :
  new_attempts st (snd (handler cfg ext date_now req st)) = []
  \/ exists numberObj st2,
       attempts st2 = attempts st
       /\ new_attempts st (snd (handler cfg ext date_now req st))
          = new_attempts st2
              (snd (doRegisterCheck cfg ext numberObj
                      (fst (chosen_proxy cfg ext
                              (set_rateMap
                                 (snd (allowedByRateLimit cfg (client_ip req) date_now
                                         (rateMap st))) st)))
                      0 st2)).
Proof.
  destruct (String.eqb_spec (req_method req) "POST") as [Hm|Hm].
  2:{ left. unfold handler. destruct (String.eqb_spec (req_method req) "POST");
        [contradiction|]. now apply new_attempts_none. }
  rewrite (handler_post cfg ext date_now req st Hm). cbv zeta.
  destruct (fst (allowedByRateLimit _ _ _ _)); cbn [negb];
    [|left; now apply new_attempts_none].
  destruct (truthy (requested_number req)); cbn [negb];
    [|left; now apply new_attempts_none].
  destruct (normalizeNumber (requested_number req)) as [n|];
    [|left; now apply new_attempts_none].
  right. unfold probe_and_respond.
  pose proof (chosen_proxy_spec cfg ext
    (set_rateMap (snd (allowedByRateLimit cfg (client_ip req) date_now (rateMap st))) st))
    as (Hatt & _).
  destruct (chosen_proxy cfg ext _) as [proxyToUse st2]. cbn [fst snd] in *.
  exists {| cc := cc n; in_ := in_ n |}, st2. split; [exact Hatt|].
  destruct (doRegisterCheck _ _ _ _ _ _) as [result st3]. cbn [snd].
  apply new_attempts_same_length. now rewrite Hatt.
Qed.

(** X25: the entries of the proxy pool are non-empty and carry no
    surrounding whitespace, and the pool is empty when PROXIES is not set;
    all the attempts one request gives rise to use one and the same proxy
    choice, which is either no proxy or an entry of the pool. *)
Theorem handler_proxy_choice cfg ext date_now req st :
  (forall p, In p (proxy_pool cfg) -> truthy p = true /\ trim p = p)
  /\ (PROXIES cfg = None -> proxy_pool cfg = [])
  /\ exists choice,
       (choice = None \/ exists p, choice = Some p /\ In p (proxy_pool cfg))
       /\ Forall (fun a => at_proxyUrl a = choice)
            (new_attempts st (snd (handler cfg ext date_now req st))).
Proof.
  split; [apply pool_member|]. split.
  { intros H. unfold proxy_pool. now rewrite H. }
  exists (fst (chosen_proxy cfg ext
                 (set_rateMap (snd (allowedByRateLimit cfg (client_ip req) date_now
                                      (rateMap st))) st))).
  split; [apply chosen_proxy_member|].
  destruct (handler_new_attempts cfg ext date_now req st)
    as [->|(n & st2 & _ & ->)]; [constructor|].
  apply Forall_lookup. intros i a Hi.
  apply probe_attempt_made_by in Hi.
  now destruct (made_by_shape _ _ _ _ Hi) as (pos & Hp & _).
Qed.

(** X26: a request never rewrites the log of upstream calls; it appends at
    most [MAX_RETRIES + 1] attempts to it (one, when [MAX_RETRIES] is
    negative). *)
Theorem handler_attempts_bounded cfg ext date_now req st :
  attempts (snd (handler cfg ext date_now req st))
  = (attempts st ++ new_attempts st (snd (handler cfg ext date_now req st)))%list
  /\ Z.of_nat (length (new_attempts st (snd (handler cfg ext date_now req st))))
     <= Z.max 1 (MAX_RETRIES cfg + 1).
Proof.
  assert (Hprefix : forall st', (exists new, attempts st' = (attempts st ++ new)%list) ->
            attempts st' = (attempts st ++ new_attempts st st')%list).
  { intros st' (new & H). now rewrite (new_attempts_app st st' new H). }
  split.
  - apply Hprefix.
    destruct (String.eqb_spec (req_method req) "POST") as [Hm|Hm].
    2:{ unfold handler. destruct (String.eqb_spec (req_method req) "POST");
          [contradiction|]. exists []. now rewrite app_nil_r. }
    rewrite (handler_post cfg ext date_now req st Hm). cbv zeta.
    destruct (fst (allowedByRateLimit _ _ _ _)); cbn [negb];
      [|exists []; now rewrite app_nil_r].
    destruct (truthy (requested_number req)); cbn [negb];
      [|exists []; now rewrite app_nil_r].
    destruct (normalizeNumber (requested_number req)) as [n|];
      [|exists []; now rewrite app_nil_r].
    unfold probe_and_respond.
    pose proof (chosen_proxy_spec cfg ext
      (set_rateMap (snd (allowedByRateLimit cfg (client_ip req) date_now (rateMap st))) st))
      as (Hatt & _).
    destruct (chosen_proxy cfg ext _) as [proxyToUse st2]. cbn [fst snd] in *.
    destruct (doRegisterCheck_trace cfg ext {| cc := cc n; in_ := in_ n |} proxyToUse 0 st2)
      as (new & Hst & _).
    destruct (doRegisterCheck _ _ _ _ _ _) as [result st3]. cbn [snd] in *.
    exists new. rewrite Hst. cbn. now rewrite Hatt.
  - destruct (handler_new_attempts cfg ext date_now req st)
      as [->|(n & st2 & _ & ->)]; [cbn; lia|].
    destruct (doRegisterCheck_trace cfg ext n
                (fst (chosen_proxy cfg ext
                        (set_rateMap (snd (allowedByRateLimit cfg (client_ip req) date_now
                                             (rateMap st))) st))) 0 st2)
      as (new & Hst & Hlen & _).
    rewrite (new_attempts_app st2 _ new) by (now rewrite Hst). lia.
Qed.

Lemma split_go_first c cur first rest :
  all_chars (fun a => negb (Ascii.eqb a c)) first = true ->
  split_go c cur (first +:+ String c rest) = String.rev_app cur first :: split c rest.
Proof.
  revert cur. induction first as [|a first IH]; intros cur Hf.
  - rewrite app_empty_l. cbn [split_go]. rewrite Ascii.eqb_refl. reflexivity.
  - cbn [all_chars] in Hf. apply andb_prop in Hf as [Ha Hf]. rewrite app_cons.
    cbn [split_go]. apply negb_true_iff in Ha. rewrite Ha.
    rewrite IH by exact Hf. reflexivity.
Qed.

Lemma opt_or_else_truthy a b : truthy b = true -> truthy (opt_or_else a b) = true.
Proof.
  intros Hb. destruct a as [s|]; [|exact Hb]. cbn. unfold or_else.
  destruct (truthy s) eqn:E; [exact E | exact Hb].
Qed.

Lemma split_go_single c cur s :
  all_chars (fun a => negb (Ascii.eqb a c)) s = true ->
  split_go c cur s = [String.rev_app cur s].
Proof.
  revert cur. induction s as [|a s IH]; intros cur Hs; [reflexivity|].
  cbn [all_chars] in Hs. apply andb_prop in Hs as [Ha Hs].
  cbn [split_go]. apply negb_true_iff in Ha. rewrite Ha. now rewrite IH.
Qed.

(** X27: the caller key of the rate limiter is never empty.  It is the
    first comma-separated entry of the X-Forwarded-For header, trimmed,
    whenever that entry is not blank, whatever the socket address is; and
    without that header it is the socket address, or ["unknown"]. *)
Theorem client_ip_spec (req : HttpRequest) :
  truthy (client_ip req) = true
  /\ (forall first rest,
        req_x_forwarded_for req = Some (first +:+ String "," rest) ->
        all_chars (fun a => negb (Ascii.eqb a ",")) first = true ->
        truthy (trim first) = true ->
        client_ip req = trim first)
  /\ (forall only,
        req_x_forwarded_for req = Some only ->
        all_chars (fun a => negb (Ascii.eqb a ",")) only = true ->
        truthy (trim only) = true ->
        client_ip req = trim only)
  /\ (req_x_forwarded_for req = None ->
      client_ip req = opt_or_else (req_remoteAddress req) "unknown").
Proof.
  split; [|split; [|split]].
  - unfold client_ip. apply opt_or_else_truthy, opt_or_else_truthy. reflexivity.
  - intros first rest Hx Hf Ht. unfold client_ip, split. rewrite Hx.
    rewrite (split_go_first "," "" first rest Hf). cbn [String.rev_app opt_or_else].
    unfold or_else. now rewrite Ht.
  - intros only Hx Hf Ht. unfold client_ip, split. rewrite Hx.
    rewrite (split_go_single "," "" only Hf). cbn [String.rev_app opt_or_else].
    unfold or_else. now rewrite Ht.
  - intros Hx. unfold client_ip. now rewrite Hx.
Qed.

(** X28: POST requests whose caller keys are pairwise different and have
    no record yet are never answered 429, whatever the limit: each one
    opens a window of its own. *)
Theorem serve_distinct_keys cfg ext (reqs : list (Z * HttpRequest)) st :
  Forall (fun tr => req_method (snd tr) = "POST") reqs ->
  NoDup (map (fun tr => client_ip (snd tr)) reqs) ->
  Forall (fun tr => rateMap st !! client_ip (snd tr) = None) reqs ->
  Forall (fun r => status r <> 429) (fst (serve cfg ext reqs st)).
Proof.
  revert st. induction reqs as [|[t req] rest IH]; intros st Hpost Hnd Hnone;
    [constructor|].
  inversion Hpost as [|? ? Hm Hposts]; subst.
  inversion Hnd as [|? ? Hnotin Hnds]; subst.
  inversion Hnone as [|? ? Hn Hnones]; subst. cbn [snd] in *.
  cbn [serve].
  pose proof (handler_429_iff cfg ext t req st Hm) as H429.
  pose proof (handler_post_rateMap cfg ext t req st Hm) as Hmap.
  assert (Hopen : opens_window (rateMap st) (client_ip req) t).
  { unfold opens_window. now rewrite Hn. }
  rewrite (allowed_opens cfg _ _ _ Hopen) in H429, Hmap. cbn [fst snd negb] in *.
  specialize (IH (snd (handler cfg ext t req st)) Hposts Hnds).
  destruct (handler cfg ext t req st) as [r st1]. cbn [fst snd] in *.
  destruct (serve cfg ext rest st1) as [rs st2]. cbn [fst] in *.
  constructor.
  - intros H. rewrite H in H429. discriminate.
  - apply IH. rewrite Hmap. rewrite Forall_forall in Hnones |- *.
    intros tr Htr. rewrite lookup_insert_ne; [now apply Hnones|].
    intros Heq. apply Hnotin. apply list_elem_of_In in Htr.
    apply list_elem_of_In, in_map_iff. exists tr. split; [now symmetry | exact Htr].
Qed.

Lemma serve_distinct_keys_witness :
  Forall (fun r => status r <> 429)
    (fst (serve {| DEFAULT_RATE_LIMIT := 1; MAX_RETRIES := 2;
                   PROXIES := None; EXPOSE_RAW := None |}
            banned_world
            [(0, sample_request);
             (1000, {| req_method := "POST";
                       req_x_forwarded_for := Some "198.51.100.4";
                       req_remoteAddress := Some "10.0.0.1";
                       req_number := Some "+6281234567890"; req_phone := None |})]
            initial_state)).
Proof.
  apply serve_distinct_keys.
  - repeat constructor.
  - cbn [map snd]. change (client_ip sample_request) with "203.0.113.7".
    apply NoDup_cons. split; [|apply NoDup_singleton].
    intros H%list_elem_of_In. cbn in H. destruct H as [H|[]]. vm_compute in H.
    discriminate.
  - repeat constructor.
Defined.

Lemma doRegisterCheck_first_answer cfg ext numberObj proxyUrl st statusCode text :
  (forall n options, fetch ext n options = Responded statusCode text) ->
  fst (doRegisterCheck cfg ext numberObj proxyUrl 0 st) = classify statusCode text
  /\ length (new_attempts st (snd (doRegisterCheck cfg ext numberObj proxyUrl 0 st)))
     = 1%nat.
Proof.
  intros Hf. rewrite doRegisterCheck_unfold.
  destruct (attempt_effect ext numberObj proxyUrl 0 st) as (a & Hst & _ & _).
  destruct (attempt_result ext numberObj proxyUrl 0 st) as (options & Hres).
  rewrite Hf in Hres.
  destruct (attempt ext numberObj proxyUrl 0 st) as [res st1]. cbn [fst snd] in *.
  subst res st1. cbn [fst snd]. split; [reflexivity|].
  unfold new_attempts. cbn [attempts]. now rewrite drop_app_length.
Qed.

(** X29: when the request reaches the probe and the transport answers,
    the handler makes a single upstream call and answers 200 with the
    requested number, its normal form, the status code of the answer and
    the verdict of its classification. *)
Theorem handler_upstream_answer cfg ext date_now req st code text :
  reaches_probe cfg date_now req st ->
  (forall n options, fetch ext n options = Responded code text) ->
  exists r,
    fst (handler cfg ext date_now req st) = {| status := 200; json := JResult r |}
    /\ classify code text = Verdict (banned r) text code
    /\ statusCode r = Some code
    /\ number r = requested_number req
    /\ normalizeNumber (requested_number req) = Some (normalized r)
    /\ length (new_attempts st (snd (handler cfg ext date_now req st))) = 1%nat.
Proof.
  intros Hp Hf.
  destruct (handler_probe cfg ext date_now req st Hp) as (n & Hn & Hh).
  rewrite Hh. unfold probe_and_respond.
  pose proof (chosen_proxy_spec cfg ext
    (set_rateMap (snd (allowedByRateLimit cfg (client_ip req) date_now (rateMap st))) st))
    as (Hatt & _).
  destruct (chosen_proxy cfg ext _) as [proxyToUse st2]. cbn [fst snd] in *.
  destruct (doRegisterCheck_first_answer cfg ext {| cc := cc n; in_ := in_ n |}
              proxyToUse st2 code text Hf) as [Hres Hlen].
  destruct (doRegisterCheck _ _ _ _ _ _) as [result st3]. cbn [fst snd] in *.
  subst result. destruct (classify_verdict code text) as (b & Hb). rewrite Hb.
  eexists. split; [reflexivity|]. cbn. repeat split; auto.
  rewrite <- Hlen. f_equal. apply new_attempts_same_length. now rewrite Hatt.
Qed.

Lemma handler_upstream_answer_witness :
  exists r,
    fst (handler default_config banned_world 0 sample_request initial_state)
    = {| status := 200; json := JResult r |}
    /\ banned r = true /\ statusCode r = Some 200.
Proof.
  assert (Hp : reaches_probe default_config 0 sample_request initial_state).
  { split; [reflexivity|]. split; [reflexivity|]. eexists. reflexivity. }
  destruct (handler_upstream_answer default_config banned_world 0 sample_request
              initial_state 200 "Your account has been banned" Hp
              ltac:(intros; reflexivity))
    as (r & Hr & Hc & Hs & _).
  exists r. split; [exact Hr|]. split; [|exact Hs].
  assert (Hv : classify 200 "Your account has been banned"
               = Verdict true "Your account has been banned" 200) by reflexivity.
  congruence.
Defined.

End ServiceFacts.
